(** * The bridge between the host and the sandboxed ChatGPT page

    A shallow embedding of [src/ModalWebView.tsx] (the bridge message router,
    credential capture, the capacity retry controller and the visibility state
    machine), [src/hooks.ts] (the animation hook that drives the visibility
    state) and [src/api/index.ts] (the script injected in the sandbox and the
    non-streaming [postMessage]).

    The host component [ChatGpt3] and its [sendMessage] are embedded from
    the revision of [index.tsx] among the sources.

    JavaScript values are an inductive type, the [try]/[catch] blocks of the
    source are an exception monad that also records the callbacks invoked, and
    the asynchronous parts (timers, animations) are events of a step
    function. *)

From Stdlib Require Import String Ascii List ZArith Lia Bool.
From Stdlib Require Import DecimalString.
From Stdlib Require DecimalFacts DecimalPos.
Import ListNotations.
Local Open Scope string_scope.
Local Open Scope Z_scope.
Set Warnings "-register-all".

(** ** JavaScript values *)

Module JS.

(** The values that cross the bridge: what [JSON.parse] can return, plus
    [undefined], which property reads produce.  Numbers are the integers
    (HTTP status codes are); nothing below does arithmetic on them.
    JavaScript's numbers are doubles: an integer stands for the number of
    the same value when it is a safe integer, see [safe_numbers] below. *)
Inductive value : Type :=
| VUndefined
| VNull
| VBool (b : bool)
| VNum (n : Z)
| VStr (s : string)
| VArr (elems : list value)
| VObj (props : list (string * value)).

(** Induction on values, through the lists of arrays and objects. *)
Section Induction.
Variable P : value -> Prop.
Hypothesis P_undefined : P VUndefined.
Hypothesis P_null : P VNull.
Hypothesis P_bool : forall b, P (VBool b).
Hypothesis P_num : forall n, P (VNum n).
Hypothesis P_str : forall s, P (VStr s).
Hypothesis P_arr : forall elems, Forall P elems -> P (VArr elems).
Hypothesis P_obj : forall props, Forall (fun kv => P (snd kv)) props -> P (VObj props).

Fixpoint value_induction (v : value) : P v :=
  match v with
  | VUndefined => P_undefined
  | VNull => P_null
  | VBool b => P_bool b
  | VNum n => P_num n
  | VStr s => P_str s
  | VArr elems =>
      P_arr elems
        ((fix all (l : list value) : Forall P l :=
            match l with
            | [] => Forall_nil P
            | e :: l' => Forall_cons e (value_induction e) (all l')
            end) elems)
  | VObj props =>
      P_obj props
        ((fix all (l : list (string * value)) : Forall (fun kv => P (snd kv)) l :=
            match l with
            | [] => Forall_nil _
            | (k, w) :: l' => Forall_cons (k, w) (value_induction w) (all l')
            end) props)
  end.
End Induction.

(** Own property [k] of an object literal.  As in [JSON.parse], a later
    duplicate of a key overrides an earlier one. *)
Fixpoint field (k : string) (props : list (string * value)) : option value :=
  match props with
  | [] => None
  | (k', v) :: rest =>
      match field k rest with
      | Some w => Some w
      | None => if String.eqb k k' then Some v else None
      end
  end.

(** [v.k] for a [v] that is neither [null] nor [undefined], and a key [k]
    that names no built-in property of strings or arrays (the source reads
    [type], [payload], [headers], [Authorization], [statusText], [status]). *)
Definition get (v : value) (k : string) : value :=
  match v with
  | VObj props => match field k props with Some w => w | None => VUndefined end
  | _ => VUndefined
  end.

Definition nullish (v : value) : bool :=
  match v with VUndefined | VNull => true | _ => false end.

(** [v?.k] *)
Definition get_opt (v : value) (k : string) : value :=
  if nullish v then VUndefined else get v k.

(** ToBoolean *)
Definition truthy (v : value) : bool :=
  match v with
  | VUndefined | VNull => false
  | VBool b => b
  | VNum n => negb (n =? 0)
  | VStr s => negb (String.eqb s EmptyString)
  | VArr _ | VObj _ => true
  end.

(** [a || b] *)
Definition or_else (a b : value) : value := if truthy a then a else b.

(** [a === b], for an [a] fresh out of [JSON.parse]: primitives compare by
    value, objects and arrays by identity, and a freshly parsed object is
    identical to nothing that was held before. *)
Definition strict_eq (a b : value) : bool :=
  match a, b with
  | VUndefined, VUndefined => true
  | VNull, VNull => true
  | VBool x, VBool y => Bool.eqb x y
  | VNum x, VNum y => x =? y
  | VStr x, VStr y => String.eqb x y
  | _, _ => false
  end.

Definition string_of_Z (n : Z) : string := NilZero.string_of_int (Z.to_int n).

Definition join (sep : string) (l : list string) : string := String.concat sep l.

(** The string ToString gives when it gives one: see [ToString] below. *)
Fixpoint toString (v : value) : string :=
  match v with
  | VUndefined => "undefined"
  | VNull => "null"
  | VBool true => "true"
  | VBool false => "false"
  | VNum n => string_of_Z n
  | VStr s => s
  | VArr elems =>
      join "," (map (fun e => if nullish e then EmptyString else toString e) elems)
  | VObj _ => "[object Object]"
  end.

(** Whether ToString gives a string.  On an object it calls the method
    [toString], then [valueOf], and takes the first primitive result.  An
    object out of [JSON.parse] with an own property [toString] has no
    function there, and its [valueOf], own or inherited, gives no primitive:
    a TypeError.  Without that property [Object.prototype.toString] answers.
    An array joins the strings of its elements other than [null] and
    [undefined], and throws when one of them does. *)
Fixpoint converts (v : value) : bool :=
  match v with
  | VObj props => match field "toString" props with Some _ => false | None => true end
  | VArr elems => forallb (fun e => nullish e || converts e) elems
  | _ => true
  end.

(** ToString, as a template literal [`${v}`] and [new Error(v)] apply it;
    [None] is a TypeError. *)
Definition ToString (v : value) : option string :=
  if converts v then Some (toString v) else None.

(** The integers that are safe integers of JavaScript. *)
Definition safe (n : Z) : bool := Z.abs n <=? 9007199254740991.

(** The numbers ToString prints of [v] are safe integers.  Of such a number
    ToString gives the decimal digits, as [string_of_Z] does; a larger one
    is printed rounded or with an exponent, which [toString] does not
    follow. *)
Fixpoint safe_numbers (v : value) : bool :=
  match v with
  | VNum n => safe n
  | VArr elems => forallb safe_numbers elems
  | _ => true
  end.

(** The keys of a string or an array of length [n]. *)
Definition indices (n : nat) : list value :=
  map (fun i => VStr (string_of_Z (Z.of_nat i))) (seq 0 n).

(** ['k' in v], for a key [k] that is neither an index nor [length]: a
    TypeError unless [v] is an object. *)
Definition has_property (k : string) (v : value) : option bool :=
  match v with
  | VObj props => Some (match field k props with Some _ => true | None => false end)
  | VArr _ => Some false
  | _ => None
  end.

End JS.
Export JS.

(** ** A concrete [JSON.stringify] and [JSON.parse]

    The router below is parametric in [JSON.parse].  This instance, on ASCII
    text and integer literals, runs the bridge on concrete messages. *)

Module Json.

Definition dquote : ascii := ascii_of_N 34.
Definition backslash : ascii := ascii_of_N 92.

Definition hex_digit (n : N) : ascii :=
  ascii_of_N (if (n <? 10)%N then 48 + n else 87 + n).

Definition escaped (c : ascii) : string := String backslash (String c EmptyString).

Definition escape_char (c : ascii) : string :=
  let n := N_of_ascii c in
  if (n =? 34)%N then escaped dquote
  else if (n =? 92)%N then escaped backslash
  else if (n =? 8)%N then escaped "b"
  else if (n =? 12)%N then escaped "f"
  else if (n =? 10)%N then escaped "n"
  else if (n =? 13)%N then escaped "r"
  else if (n =? 9)%N then escaped "t"
  else if (n <? 32)%N then
    escaped "u" ++ "00" ++ String (hex_digit (n / 16)) (String (hex_digit (n mod 16)) EmptyString)
  else String c EmptyString.

Fixpoint escape (s : string) : string :=
  match s with
  | EmptyString => EmptyString
  | String c rest => escape_char c ++ escape rest
  end.

Definition quote (s : string) : string :=
  String dquote (escape s ++ String dquote EmptyString).

(** [JSON.stringify]: a property whose value is [undefined] is left out, an
    [undefined] array element is written [null]. *)
Fixpoint stringify (v : value) : string :=
  match v with
  | VUndefined => "undefined"
  | VNull => "null"
  | VBool true => "true"
  | VBool false => "false"
  | VNum n => string_of_Z n
  | VStr s => quote s
  | VArr elems =>
      "[" ++ join "," (map (fun e => match e with
                                     | VUndefined => "null"
                                     | _ => stringify e
                                     end) elems) ++ "]"
  | VObj props =>
      "{" ++ join ","
        (flat_map (fun kv => let '(k, w) := kv in
                             match w with
                             | VUndefined => []
                             | _ => [quote k ++ ":" ++ stringify w]
                             end) props) ++ "}"
  end.

Definition is_ws (c : ascii) : bool :=
  let n := N_of_ascii c in
  ((n =? 32) || (n =? 9) || (n =? 10) || (n =? 13))%N.

Fixpoint skip_ws (s : string) : string :=
  match s with
  | String c rest => if is_ws c then skip_ws rest else s
  | EmptyString => s
  end.

Definition digit_of (c : ascii) : option Z :=
  let n := N_of_ascii c in
  if ((48 <=? n) && (n <=? 57))%N then Some (Z.of_N (n - 48)) else None.

Definition hex_of (c : ascii) : option N :=
  let n := N_of_ascii c in
  if ((48 <=? n) && (n <=? 57))%N then Some (n - 48)%N
  else if ((97 <=? n) && (n <=? 102))%N then Some (n - 87)%N
  else if ((65 <=? n) && (n <=? 70))%N then Some (n - 55)%N
  else None.

(** The digits of an integer literal, most significant first. *)
Fixpoint digits (acc : Z) (s : string) : Z * string :=
  match s with
  | String c rest =>
      match digit_of c with
      | Some d => digits (10 * acc + d) rest
      | None => (acc, s)
      end
  | EmptyString => (acc, s)
  end.

Definition starts_fraction (s : string) : bool :=
  match s with
  | String c _ => let n := N_of_ascii c in ((n =? 46) || (n =? 101) || (n =? 69))%N
  | EmptyString => false
  end.

(** [0] or a non-zero digit followed by digits; a fraction or an exponent
    is outside this instance. *)
Definition natural (s : string) : option (Z * string) :=
  match s with
  | String c rest =>
      match digit_of c with
      | Some 0 => if starts_fraction rest then None else
                  match rest with
                  | String c' _ => match digit_of c' with Some _ => None | None => Some (0, rest) end
                  | EmptyString => Some (0, rest)
                  end
      | Some d => let '(n, rest') := digits d rest in
                  if starts_fraction rest' then None else Some (n, rest')
      | None => None
      end
  | EmptyString => None
  end.

Definition number (s : string) : option (Z * string) :=
  match s with
  | String "-" rest =>
      match natural rest with Some (n, r) => Some (- n, r) | None => None end
  | _ => natural s
  end.

(** The character a two-character escape stands for. *)
Definition unescape (e : ascii) : option ascii :=
  let n := N_of_ascii e in
  if ((n =? 34) || (n =? 92) || (n =? 47))%N then Some e
  else if (n =? 98)%N then Some (ascii_of_N 8)
  else if (n =? 102)%N then Some (ascii_of_N 12)
  else if (n =? 110)%N then Some (ascii_of_N 10)
  else if (n =? 114)%N then Some (ascii_of_N 13)
  else if (n =? 116)%N then Some (ascii_of_N 9)
  else None.

Definition prepend (c : ascii) (r : option (string * string)) : option (string * string) :=
  match r with Some (t, r') => Some (String c t, r') | None => None end.

(** The code point of a [u] escape, when it is an ASCII one. *)
Definition code_point (a b c d : ascii) : option ascii :=
  match hex_of a, hex_of b, hex_of c, hex_of d with
  | Some 0%N, Some 0%N, Some h, Some l =>
      if (h <? 8)%N then Some (ascii_of_N (16 * h + l)) else None
  | _, _, _, _ => None
  end.

(** The characters after an opening quote, up to the closing one. *)
Fixpoint chars (s : string) : option (string * string) :=
  match s with
  | EmptyString => None
  | String c rest =>
      if (N_of_ascii c =? 34)%N then Some (EmptyString, rest)
      else if (N_of_ascii c =? 92)%N then
        match rest with
        | String e rest1 =>
            match unescape e with
            | Some c' => prepend c' (chars rest1)
            | None =>
                if (N_of_ascii e =? 117)%N then
                  match rest1 with
                  | String a (String b (String c2 (String d rest2))) =>
                      match code_point a b c2 d with
                      | Some c' => prepend c' (chars rest2)
                      | None => None
                      end
                  | _ => None
                  end
                else None
            end
        | EmptyString => None
        end
      else if (N_of_ascii c <? 32)%N then None
      else prepend c (chars rest)
  end.

Definition literal (word : string) (v : value) (s : string) : option (value * string) :=
  if String.prefix word s
  then Some (v, String.substring (String.length word) (String.length s - String.length word) s)
  else None.

(** One value, by recursive descent; [fuel] bounds the nesting and the
    number of elements, and the length of the text is enough of it. *)
Fixpoint parse_value (fuel : nat) (s : string) : option (value * string) :=
  match fuel with
  | O => None
  | S fuel =>
      match skip_ws s with
      | String "{" rest =>
          match skip_ws rest with
          | String "}" rest' => Some (VObj [], rest')
          | rest' => match parse_members fuel rest' with
                     | Some (ms, r) => Some (VObj ms, r)
                     | None => None
                     end
          end
      | String "[" rest =>
          match skip_ws rest with
          | String "]" rest' => Some (VArr [], rest')
          | rest' => match parse_elements fuel rest' with
                     | Some (es, r) => Some (VArr es, r)
                     | None => None
                     end
          end
      | String "t" _ as s' => literal "true" (VBool true) s'
      | String "f" _ as s' => literal "false" (VBool false) s'
      | String "n" _ as s' => literal "null" VNull s'
      | String c rest as s' =>
          if (N_of_ascii c =? 34)%N then
            match chars rest with Some (t, r) => Some (VStr t, r) | None => None end
          else
            match number s' with Some (n, r) => Some (VNum n, r) | None => None end
      | EmptyString => None
      end
  end

with parse_elements (fuel : nat) (s : string) : option (list value * string) :=
  match fuel with
  | O => None
  | S fuel =>
      match parse_value fuel s with
      | Some (v, r) =>
          match skip_ws r with
          | String "," r' =>
              match parse_elements fuel r' with
              | Some (vs, r'') => Some (v :: vs, r'')
              | None => None
              end
          | String "]" r' => Some ([v], r')
          | _ => None
          end
      | None => None
      end
  end

with parse_members (fuel : nat) (s : string) : option (list (string * value) * string) :=
  match fuel with
  | O => None
  | S fuel =>
      match skip_ws s with
      | String q rest =>
          match (if (N_of_ascii q =? 34)%N then chars rest else None) with
          | Some (k, r) =>
              match skip_ws r with
              | String ":" r' =>
                  match parse_value fuel r' with
                  | Some (v, r'') =>
                      match skip_ws r'' with
                      | String "," r3 =>
                          match parse_members fuel r3 with
                          | Some (ms, r4) => Some ((k, v) :: ms, r4)
                          | None => None
                          end
                      | String "}" r3 => Some ([(k, v)], r3)
                      | _ => None
                      end
                  | None => None
                  end
              | _ => None
              end
          | None => None
          end
      | EmptyString => None
      end
  end.

(** [JSON.parse]: one value and nothing but white space after it. *)
Definition parse (s : string) : option value :=
  match parse_value (S (String.length s)) s with
  | Some (v, r) => match skip_ws r with EmptyString => Some v | _ => None end
  | None => None
  end.

(** *** What the round trip of a value is stated with *)

(** The text after a value: nothing, or a comma or a closing bracket. *)
Definition delimited (rest : string) : Prop :=
  match rest with
  | EmptyString => True
  | String c _ => c = ","%char \/ c = "]"%char \/ c = "}"%char
  end.

Fixpoint uint_value (acc : Z) (u : Decimal.uint) : Z :=
  match u with
  | Decimal.Nil => acc
  | Decimal.D0 u => uint_value (10 * acc + 0) u
  | Decimal.D1 u => uint_value (10 * acc + 1) u
  | Decimal.D2 u => uint_value (10 * acc + 2) u
  | Decimal.D3 u => uint_value (10 * acc + 3) u
  | Decimal.D4 u => uint_value (10 * acc + 4) u
  | Decimal.D5 u => uint_value (10 * acc + 5) u
  | Decimal.D6 u => uint_value (10 * acc + 6) u
  | Decimal.D7 u => uint_value (10 * acc + 7) u
  | Decimal.D8 u => uint_value (10 * acc + 8) u
  | Decimal.D9 u => uint_value (10 * acc + 9) u
  end.

Definition numeric (c : ascii) : Prop :=
  (c = "-" \/ c = "0" \/ c = "1" \/ c = "2" \/ c = "3" \/ c = "4" \/ c = "5"
   \/ c = "6" \/ c = "7" \/ c = "8" \/ c = "9")%char.

(** The values [JSON.stringify] writes in full: no [undefined] in them. *)
Fixpoint jsonable (v : value) : bool :=
  match v with
  | VUndefined => false
  | VArr elems => forallb jsonable elems
  | VObj props => forallb (fun kv => let '(_, w) := kv in jsonable w) props
  | _ => true
  end.

(** The fuel that parsing the text of a value takes. *)
Fixpoint size (v : value) : nat :=
  match v with
  | VArr elems => S (list_sum (map (fun e => S (size e)) elems))
  | VObj props => S (list_sum (map (fun kv => let '(_, w) := kv in S (size w)) props))
  | _ => 1
  end.

(** The text of a property. *)
Definition member (kv : string * value) : string :=
  let '(k, w) := kv in quote k ++ ":" ++ stringify w.

(** [parse_value] reads the text of [v] back, whatever delimited text
    follows it. *)
Definition parses (v : value) : Prop :=
  jsonable v = true ->
  forall fuel rest, (size v <= fuel)%nat -> delimited rest ->
  parse_value fuel (stringify v ++ rest) = Some (v, rest).

End Json.

(** ** The types of [./types] *)

(** Modelled from the spec: the class [ChatGPTError] ([ChatGptError] in
    [api/index.ts]) is declared in [./types], which is not among the sources.
    The spec calls it "an error object carrying the HTTP-like status code and
    a human-readable reason"; the source constructs it with one argument, as
    a subclass of [Error], and then assigns [statusCode]. *)
Module ChatGPTError.
Record t : Type := make { message : string; statusCode : value }.

(** [new ChatGPTError(m)] for a string [m].  [Error] stores ToString of its
    argument: where the argument may be another value, the caller applies
    [ToString] first. *)
Definition new (m : string) : t := {| message := m; statusCode := VUndefined |}.

(** [error.statusCode = v] *)
Definition set_statusCode (e : t) (v : value) : t :=
  {| message := message e; statusCode := v |}.
End ChatGPTError.

(** Modelled from the spec: [ChatGpt3Response] is declared in [./types],
    which is not among the sources.  The spec: "message text (possibly
    partial), conversation/message identifiers, a completion flag". *)
Module ChatGpt3Response.
Record t : Type := make {
  message : string;
  messageId : string;
  conversationId : string;
  isDone : bool
}.
End ChatGpt3Response.

(** What a [try] block can catch. *)
Inductive exn : Type :=
| SyntaxError            (* JSON.parse on malformed text *)
| TypeError              (* destructuring null, Object.keys(undefined), 'k' in 5,
                            ToString of an object with an own toString *)
| NetworkError           (* a rejected fetch or a failed body read *)
| ForeignError           (* thrown by code outside these files *)
| Thrown (e : ChatGPTError.t).

(** ** Computations that invoke callbacks and may throw *)

Module Eff.

Section WithEffect.
Context {E : Type}.

(** The callbacks invoked so far, in order, and how the computation ended. *)
Definition M (A : Type) : Type := list E * (exn + A).

Definition ret {A} (a : A) : M A := ([], inr a).
Definition throw {A} (e : exn) : M A := ([], inl e).
Definition emit (e : E) : M unit := ([e], inr tt).

Definition bind {A B} (m : M A) (k : A -> M B) : M B :=
  match m with
  | (t, inl e) => (t, inl e)
  | (t, inr a) => let '(t', r) := k a in ((t ++ t')%list, r)
  end.

(** [try { m } catch (e) { h e }] *)
Definition try_catch {A} (m : M A) (h : exn -> M A) : M A :=
  match m with
  | (t, inl e) => let '(t', r) := h e in ((t ++ t')%list, r)
  | (t, inr a) => (t, inr a)
  end.

Definition lift {A} (r : exn + A) : M A := ([], r).

(** [if (b) { m }] *)
Definition when_ (b : bool) (m : M unit) : M unit := if b then m else ret tt.

Definition trace {A} (m : M A) : list E := fst m.
Definition outcome {A} (m : M A) : exn + A := snd m.

End WithEffect.

Arguments M : clear implicits.

End Eff.

Declare Scope eff_scope.
Delimit Scope eff_scope with eff.
Notation "x <- m ;; k" := (Eff.bind m (fun x => k))
  (at level 61, m at next level, right associativity) : eff_scope.
Notation "m ;;; k" := (Eff.bind m (fun _ => k))
  (at level 61, right associativity) : eff_scope.

(** ** The bridge message router: [onMessage] of [ModalWebView.tsx] *)

Inductive Status : Type := hidden | animating | visible.

Definition Status_eqb (a b : Status) : bool :=
  match a, b with
  | hidden, hidden | animating, animating | visible, visible => true
  | _, _ => false
  end.

(** The functions [onMessage] calls: three props of the component and the
    component's own asynchronous [reloadAndCheckCapacityAgain]. *)
Inductive Call : Type :=
| onAccessTokenChange (newAccessToken : value)
| onPartialResponse (response : ChatGpt3Response.t)
| onStreamError (error : ChatGPTError.t)
| reloadAndCheckCapacityAgain.

(** What the handler closes over at a render. *)
Record Props : Type := {
  accessToken : value;
  status : Status
}.

Module Router.
Import Eff.
Local Open Scope eff_scope.

Section Handler.

(** [JSON.parse]: [None] is a SyntaxError. *)
Variable JSON_parse : string -> option value.

(** [parseStreamBasedResponse] of [./utils], which is not among the sources:
    called on the payload alone, it throws, returns a falsy value ([None]) or
    returns a response. *)
Variable parseStreamBasedResponse : value -> exn + option ChatGpt3Response.t.

(** Whether a callback of the host throws when it is invoked. *)
Variable raises : Call -> option exn.

Definition invoke (c : Call) : M Call unit :=
  emit c ;;;
  match c with
  | reloadAndCheckCapacityAgain => ret tt     (* async: its promise is dropped *)
  | _ => match raises c with Some e => throw e | None => ret tt end
  end.

(** [const { payload, type } = v] *)
Definition destructure (v : value) : M Call (value * value) :=
  if nullish v then throw TypeError else ret (get v "payload", get v "type").

(** [Object.keys(v)]: throws on [null] and [undefined]; the source only
    tests the returned array for truthiness. *)
Definition Object_keys (v : value) : M Call value :=
  match v with
  | VUndefined | VNull => throw TypeError
  | VObj props => ret (VArr (map (fun p => VStr (fst p)) props))
  | VArr elems => ret (VArr (indices (List.length elems)))
  | VStr s => ret (VArr (indices (String.length s)))
  | VBool _ | VNum _ => ret (VArr [])
  end.

(** [headers && 'Authorization' in headers] *)
Definition has_Authorization (headers : value) : M Call bool :=
  if truthy headers then
    match has_property "Authorization" headers with
    | Some b => ret b
    | None => throw TypeError
    end
  else ret false.

Definition is_type (type : value) (tag : string) : bool := strict_eq type (VStr tag).

Definition handle_REQUEST_INTERCEPTED_CONFIG (p : Props) (payload : value) : M Call unit :=
  keys <- Object_keys payload ;;
  when_ (truthy keys) (
    let headers := get payload "headers" in
    present <- has_Authorization headers ;;
    when_ present (
      let newAuthToken := get_opt headers "Authorization" in
      when_ (truthy newAuthToken && negb (strict_eq newAuthToken (accessToken p)))
        (invoke (onAccessTokenChange newAuthToken)))).

Definition handle_RAW_PARTIAL_RESPONSE (payload : value) : M Call unit :=
  result <- lift (parseStreamBasedResponse payload) ;;
  match result with
  | Some r => invoke (onPartialResponse r)
  | None => ret tt
  end.

(** [new ChatGPTError(payload?.statusText ||
    `ChatGPTResponseStreamError: ${payload?.status}`)], then
    [error.statusCode = payload?.status].  The template is evaluated when
    the status text is falsy, and applies ToString to the status; the
    constructor applies ToString to a status text that is truthy.  [None]
    is the TypeError of ToString. *)
Definition stream_error (payload : value) : option ChatGPTError.t :=
  let statusText := get_opt payload "statusText" in
  let status := get_opt payload "status" in
  match (if truthy statusText then ToString statusText
         else option_map (append "ChatGPTResponseStreamError: ") (ToString status)) with
  | Some message => Some (ChatGPTError.set_statusCode (ChatGPTError.new message) status)
  | None => None
  end.

Definition handle_STREAM_ERROR (payload : value) : M Call unit :=
  error <- lift (match stream_error payload with
                 | Some error => inr error
                 | None => inl TypeError
                 end) ;;
  invoke (onStreamError error).

(** The body of the [try] block. *)
Definition dispatch (p : Props) (data : string) : M Call unit :=
  parsed <- lift (match JSON_parse data with Some v => inr v | None => inl SyntaxError end) ;;
  pt <- destructure parsed ;;
  let '(payload, type) := pt in
  when_ (is_type type "REQUEST_INTERCEPTED_CONFIG")
    (handle_REQUEST_INTERCEPTED_CONFIG p payload) ;;;
  when_ (is_type type "RAW_PARTIAL_RESPONSE")
    (handle_RAW_PARTIAL_RESPONSE payload) ;;;
  when_ (is_type type "GPT3_FULL_CAPACITY" && Status_eqb (status p) visible)
    (invoke reloadAndCheckCapacityAgain) ;;;
  when_ (is_type type "STREAM_ERROR")
    (handle_STREAM_ERROR payload).

(** [onMessage]: the [catch] block ignores the exception. *)
Definition onMessage (p : Props) (data : string) : M Call unit :=
  try_catch (dispatch p data) (fun _ => ret tt).

(** *** The calls of [onMessage], read off its branches

    [trace_onMessage] below proves that these are the calls [onMessage]
    makes. *)

Definition token_calls (p : Props) (payload : value) : list Call :=
  if nullish payload then [] else
  let headers := get payload "headers" in
  if truthy headers then
    match has_property "Authorization" headers with
    | Some true =>
        let newAuthToken := get_opt headers "Authorization" in
        if truthy newAuthToken && negb (strict_eq newAuthToken (accessToken p))
        then [onAccessTokenChange newAuthToken] else []
    | _ => []
    end
  else [].

Definition partial_calls (payload : value) : list Call :=
  match parseStreamBasedResponse payload with
  | inr (Some r) => [onPartialResponse r]
  | _ => []
  end.

Definition calls (p : Props) (parsed : option value) : list Call :=
  match parsed with
  | None => []
  | Some v =>
      if nullish v then [] else
      match get v "type" with
      | VStr tag =>
          if String.eqb tag "REQUEST_INTERCEPTED_CONFIG" then token_calls p (get v "payload")
          else if String.eqb tag "RAW_PARTIAL_RESPONSE" then partial_calls (get v "payload")
          else if String.eqb tag "GPT3_FULL_CAPACITY" then
            if Status_eqb (status p) visible then [reloadAndCheckCapacityAgain] else []
          else if String.eqb tag "STREAM_ERROR" then
            match stream_error (get v "payload") with
            | Some error => [onStreamError error]
            | None => []
            end
          else []
      | _ => []
      end
  end.

(** A bridge message that cannot be read: the text is not JSON, it is the
    JSON [null], or it is a partial response whose record the stream parser
    throws on or makes nothing of. *)
Definition parse_failure (data : string) : Prop :=
  match JSON_parse data with
  | None => True
  | Some v =>
      nullish v = true \/
      (get v "type" = VStr "RAW_PARTIAL_RESPONSE" /\
       forall r, parseStreamBasedResponse (get v "payload") <> inr (Some r))
  end.

End Handler.
End Router.

(** ** The network primitive *)

Module Fetch.

(** A response body: the chunks its reader yields, and whether the read
    after the last of them fails instead of reporting [done]. *)
Record Body : Type := {
  chunks : list (list Byte.byte);
  fails : bool
}.

Record Response : Type := {
  status : Z;
  statusText : string;
  body : option Body
}.

(** What [await fetch(...)] gives: a response, whatever its status, or a
    rejection when no response was obtained. *)
Inductive Result : Type :=
| Rejected
| Resolved (res : Response).

Section Decoding.
(** [TextDecoder.decode] *)
Variable decode : list Byte.byte -> string.

(** [await res.text()] *)
Definition text (res : Response) : exn + string :=
  match body res with
  | None => inr EmptyString
  | Some b => if fails b then inl NetworkError else inr (decode (concat (chunks b)))
  end.
End Decoding.

End Fetch.

(** ** The script injected in the sandbox: [injectJavaScriptIntoWebViewBeforeIsLoaded] *)

Module Sandbox.
Import Eff.
Local Open Scope eff_scope.

Section Script.

(** [HOST_URL], [CHAT_PAGE] and [PROMPT_ENDPOINT] of [../constants], which
    is not among the sources. *)
Variables HOST_URL CHAT_PAGE PROMPT_ENDPOINT : string.

Variable JSON_stringify : value -> string.
Variable decode : list Byte.byte -> string.

(** The sandbox's own [fetch], before it is wrapped. *)
Variable originalFetch : string -> value -> Fetch.Result.

(** The argument of [JSON.stringify] in each
    [window.ReactNativeWebView.postMessage(JSON.stringify(...))]. *)
Definition post (m : value) : M value unit := emit m.

(** [window.fetch = async (...args) => ...] *)
Definition fetch (resource : string) (config : value) : M value Fetch.Response :=
  post (VObj [("type", VStr "REQUEST_INTERCEPTED_CONFIG"); ("payload", config)]) ;;;
  match originalFetch resource config with
  | Fetch.Rejected => throw NetworkError
  | Fetch.Resolved res => ret res
  end.

Definition getHeaders (accessToken : string) : value :=
  VObj [ ("accept", VStr "text/event-stream");
         ("x-openai-assistant-app-id", VStr EmptyString);
         ("authorization", VStr accessToken);
         ("content-type", VStr "application/json");
         ("origin", VStr HOST_URL);
         ("referrer", VStr CHAT_PAGE);
         ("sec-fetch-mode", VStr "cors");
         ("sec-fetch-site", VStr "same-origin");
         ("x-requested-with", VStr "com.chatgpt3auth") ].

Definition request_body (message messageId conversationId : string) : value :=
  VObj [ ("action", VStr "next");
         ("messages",
          VArr [ VObj [ ("id", VStr conversationId);
                        ("role", VStr "user");
                        ("content", VObj [ ("content_type", VStr "text");
                                           ("parts", VArr [VStr message]) ]) ] ]);
         ("model", VStr "text-davinci-002-render");
         ("parent_message_id", VStr messageId) ].

Definition request_config (accessToken message messageId conversationId : string) : value :=
  VObj [ ("method", VStr "POST");
         ("body", VStr (JSON_stringify (request_body message messageId conversationId)));
         ("headers", getHeaders accessToken);
         ("mode", VStr "cors");
         ("credentials", VStr "include") ].

Definition STREAM_ERROR (res : Fetch.Response) : value :=
  VObj [ ("type", VStr "STREAM_ERROR");
         ("payload", VObj [ ("status", VNum (Fetch.status res));
                            ("message", VStr (Fetch.statusText res)) ]) ].

Definition RAW_PARTIAL_RESPONSE (str : string) : value :=
  VObj [ ("type", VStr "RAW_PARTIAL_RESPONSE"); ("payload", VStr str) ].

(** [for await (const chunk of streamAsyncIterable(res.body))]: every chunk
    read is posted; a failed read ends the loop with an exception. *)
Fixpoint forward (chunks : list (list Byte.byte)) : M value unit :=
  match chunks with
  | [] => ret tt
  | chunk :: rest => post (RAW_PARTIAL_RESPONSE (decode chunk)) ;;; forward rest
  end.

Definition stream (body : option Fetch.Body) : M value unit :=
  match body with
  | None => throw TypeError                      (* null.getReader() *)
  | Some b =>
      forward (Fetch.chunks b) ;;;
      if Fetch.fails b then throw NetworkError else ret tt
  end.

(** [window.sendGptMessage]: the trace is the messages posted to the host,
    in order. *)
Definition sendGptMessage (accessToken message messageId conversationId : string)
  : M value unit :=
  try_catch
    ( res <- fetch PROMPT_ENDPOINT
               (request_config accessToken message messageId conversationId) ;;
      if (400 <=? Fetch.status res) && (Fetch.status res <? 600)
      then post (STREAM_ERROR res)
      else stream (Fetch.body res) )
    (fun _ => ret tt).                             (* console.log("error", e) *)

(** *** The messages of [sendGptMessage], read off its branches

    [trace_sendGptMessage] below proves that these are the messages posted. *)

Definition intercepted (config : value) : value :=
  VObj [("type", VStr "REQUEST_INTERCEPTED_CONFIG"); ("payload", config)].

Definition answered (res : Fetch.Response) : list value :=
  if (400 <=? Fetch.status res) && (Fetch.status res <? 600)
  then [STREAM_ERROR res]
  else match Fetch.body res with
       | None => []
       | Some b => map (fun chunk => RAW_PARTIAL_RESPONSE (decode chunk)) (Fetch.chunks b)
       end.

Definition posted (accessToken message messageId conversationId : string) : list value :=
  let config := request_config accessToken message messageId conversationId in
  intercepted config ::
  match originalFetch PROMPT_ENDPOINT config with
  | Fetch.Rejected => []
  | Fetch.Resolved res => answered res
  end.

End Script.
End Sandbox.

(** ** The non-streaming call: [postMessage] of [api/index.ts] *)

Module Api.

Section PostMessage.

Variable PROMPT_ENDPOINT : string.
Variable JSON_stringify : value -> string.
Variable decode : list Byte.byte -> string.

(** [getChatGptConversationHeaders] and [parseStreamedGptResponse] of
    [../utils], which are not among the sources. *)
Variable getChatGptConversationHeaders : string -> value.
Variable parseStreamedGptResponse : string -> exn + option ChatGpt3Response.t.

(** The host's [fetch]. *)
Variable fetch : string -> value -> Fetch.Result.

Definition request_body (message messageId conversationId : string) : value :=
  VObj [ ("action", VStr "next");
         ("messages",
          VArr [ VObj [ ("id", VStr conversationId);
                        ("role", VStr "user");
                        ("content", VObj [ ("content_type", VStr "text");
                                           ("parts", VArr [VStr message]) ]) ] ]);
         ("model", VStr "text-davinci-002-render");
         ("parent_message_id", VStr messageId) ].

Definition request_config (accessToken message messageId conversationId : string) : value :=
  VObj [ ("method", VStr "POST");
         ("body", VStr (JSON_stringify (request_body message messageId conversationId)));
         ("headers", getChatGptConversationHeaders accessToken);
         ("mode", VStr "cors") ].

Definition expired : string :=
  "ChatGPTResponseClientError: Your access token may have expired. Please login again.".

Definition client_error (res : Fetch.Response) : ChatGPTError.t :=
  let status := Fetch.status res in
  ChatGPTError.set_statusCode
    (ChatGPTError.new
       (if (status =? 403) || (status =? 401)
        then expired
        else "ChatGPTResponseClientError: " ++ toString (VNum status)
             ++ " " ++ Fetch.statusText res))
    (VNum status).

Definition server_error (res : Fetch.Response) : ChatGPTError.t :=
  ChatGPTError.set_statusCode
    (ChatGPTError.new
       ("ChatGPTResponseServerError: " ++ toString (VNum (Fetch.status res))
        ++ " " ++ Fetch.statusText res))
    (VNum (Fetch.status res)).

Definition unable_to_parse : ChatGPTError.t :=
  ChatGPTError.new "ChatGPTResponseError: Unable to parse response".

(** [postMessage]: [messageId] and [conversationId] are the arguments after
    their [uuid.v4()] defaults have been filled in.  [inl e] is a rejected
    promise. *)
Definition postMessage (accessToken message messageId conversationId : string)
  : exn + ChatGpt3Response.t :=
  match fetch PROMPT_ENDPOINT (request_config accessToken message messageId conversationId) with
  | Fetch.Rejected => inl NetworkError
  | Fetch.Resolved res =>
      let status := Fetch.status res in
      if (400 <=? status) && (status <? 500) then inl (Thrown (client_error res))
      else if 500 <=? status then inl (Thrown (server_error res))
      else
        match Fetch.text decode res with
        | inl e => inl e
        | inr rawText =>
            match parseStreamedGptResponse rawText with
            | inl e => inl e
            | inr None => inl (Thrown unable_to_parse)
            | inr (Some parsedData) => inr parsedData
            end
        end
  end.

End PostMessage.
End Api.

(** ** The component: visibility, the retry cycle and the host's token *)

(** [animateWebView]'s argument in [hooks.ts]. *)
Inductive Mode : Type := hide | show.

(** Where a running [reloadAndCheckCapacityAgain] is suspended. *)
Inductive Continuation : Type :=
| after_wait_2000      (* next: reload, then wait(3000) *)
| after_wait_3000.     (* next: checkIfChatGPTIsAtFullCapacity *)

(** What the component does to the outside. *)
Inductive Action : Type :=
| call (c : Call)                       (* a callback prop *)
| reload                                (* webviewRef.current?.reload() *)
| checkIfChatGPTIsAtFullCapacity.       (* injectJavaScript of the probe *)

Inductive Event : Type :=
| Open                                            (* the imperative handle *)
| PressClose                                      (* the close icon *)
| NavigationStateChange (url : string) (loading : bool)
| AppStateActive
| Message (data : string)
| AnimationEnd (i : nat)     (* the start() callback of a running animation *)
| TimerElapsed (i : nat).    (* a pending wait(ms) resolves *)

Module Component.

Record State : Type := {
  props : Props;
  webview : bool;                     (* webviewRef.current is set *)
  animations : list Mode;             (* started, end callback not yet run *)
  timers : list Continuation          (* retry cycles in progress *)
}.

Definition with_status (st : Status) (s : State) : State :=
  {| props := {| accessToken := accessToken (props s); status := st |};
     webview := webview s; animations := animations s; timers := timers s |}.

Definition with_accessToken (v : value) (s : State) : State :=
  {| props := {| accessToken := v; status := status (props s) |};
     webview := webview s; animations := animations s; timers := timers s |}.

Definition with_animations (l : list Mode) (s : State) : State :=
  {| props := props s; webview := webview s; animations := l; timers := timers s |}.

Definition with_timers (l : list Continuation) (s : State) : State :=
  {| props := props s; webview := webview s; animations := animations s; timers := l |}.

Fixpoint remove_nth {A} (i : nat) (l : list A) : list A :=
  match l, i with
  | [], _ => []
  | _ :: rest, O => rest
  | x :: rest, S j => x :: remove_nth j rest
  end.

(** [webviewRef.current?.f()] *)
Definition on_webview (s : State) (a : Action) : list Action :=
  if webview s then [a] else [].

(** [setStatus], followed by the effect that depends on [status]: entering
    [visible] probes the page. *)
Definition setStatus (st : Status) (s : State) : State * list Action :=
  (with_status st s,
   if Status_eqb st visible && negb (Status_eqb (status (props s)) visible)
   then on_webview s checkIfChatGPTIsAtFullCapacity
   else []).

(** [mode === 'show' ? 'visible' : 'hidden'] *)
Definition final (mode : Mode) : Status :=
  match mode with show => visible | hide => hidden end.

(** [onAnimationEnd] *)
Definition onAnimationEnd (mode : Mode) (s : State) : State * list Action :=
  setStatus (final mode) s.

(** What starting an animation does to those in progress.  All animations
    run on the one [animatedValue], and [Animated.timing(value).start()]
    stops the animation that runs on [value]; a stopped animation runs its
    [start] callback at once, and the callback of [hooks.ts] does not look
    at [finished].  So the end callbacks of the animations [modes] run, one
    after the other. *)
Fixpoint interrupt (modes : list Mode) (s : State) : State * list Action :=
  match modes with
  | [] => (s, [])
  | mode :: rest =>
      let '(s1, a1) := onAnimationEnd mode s in
      let '(s2, a2) := interrupt rest s1 in
      (s2, (a1 ++ a2)%list)
  end.

(** [animateWebView] of [hooks.ts]: [onAnimationStart] sets [animating],
    then the animation is started, which ends the one in progress; the new
    animation is the only one left, and its callback runs at
    [AnimationEnd].

    When an animation is interrupted the status is set twice in one call.
    [batched] says whether React applies the updates of the call together,
    as it does for updates made inside its event handlers: the effect on
    [status] then compares the status before the call with the last one
    set.  Otherwise each update is rendered by itself, with its effect. *)
Definition animateWebView (batched : bool) (mode : Mode) (s : State)
  : State * list Action :=
  let '(s', acts) :=
    if batched
    then setStatus (last (map final (animations s)) animating) s
    else
      let '(s1, a1) := setStatus animating s in
      let '(s2, a2) := interrupt (animations s) s1 in
      (s2, (a1 ++ a2)%list) in
  (with_animations [mode] s', acts).

(** One step of a running [reloadAndCheckCapacityAgain], after a wait. *)
Definition resume (k : Continuation) (s : State) : State * list Action :=
  match k with
  | after_wait_2000 => (with_timers (timers s ++ [after_wait_3000])%list s, on_webview s reload)
  | after_wait_3000 => (s, on_webview s checkIfChatGPTIsAtFullCapacity)
  end.

(** What a call made by [onMessage] does: the host stores the new token
    ([onAccessTokenChange={setAccessToken}]) and
    [reloadAndCheckCapacityAgain] runs up to its first wait. *)
Definition perform (s : State) (c : Call) : State * list Action :=
  match c with
  | onAccessTokenChange v => (with_accessToken v s, [call c])
  | onPartialResponse _ | onStreamError _ => (s, [call c])
  | reloadAndCheckCapacityAgain => (with_timers (timers s ++ [after_wait_2000])%list s, [])
  end.

Fixpoint perform_all (s : State) (cs : list Call) : State * list Action :=
  match cs with
  | [] => (s, [])
  | c :: rest =>
      let '(s1, a1) := perform s c in
      let '(s2, a2) := perform_all s1 rest in
      (s2, (a1 ++ a2)%list)
  end.

Section Machine.

Variable JSON_parse : string -> option value.
Variable parseStreamBasedResponse : value -> exn + option ChatGpt3Response.t.
Variable raises : Call -> option exn.

(** [CHAT_PAGE] of [./constants], which is not among the sources. *)
Variable CHAT_PAGE : string.

(** Whether the state updates of one handler are applied together. *)
Variable batched : bool.

Definition onMessage (s : State) (data : string) : State * list Action :=
  perform_all s
    (Eff.trace (Router.onMessage JSON_parse parseStreamBasedResponse raises (props s) data)).

Definition step (s : State) (e : Event) : State * list Action :=
  match e with
  | Open => animateWebView batched show s
  | PressClose => animateWebView batched hide s
  | NavigationStateChange url loading =>
      if String.prefix CHAT_PAGE url && loading then
        if Status_eqb (status (props s)) visible then animateWebView batched hide s
        else (s, [])
      else (s, [])
  | AppStateActive => (s, on_webview s reload)
  | Message data => onMessage s data
  | AnimationEnd i =>
      match nth_error (animations s) i with
      | Some mode => onAnimationEnd mode (with_animations (remove_nth i (animations s)) s)
      | None => (s, [])
      end
  | TimerElapsed i =>
      match nth_error (timers s) i with
      | Some k => resume k (with_timers (remove_nth i (timers s)) s)
      | None => (s, [])
      end
  end.

(** A run: every action, with the visibility status it was taken in. *)
Fixpoint run (s : State) (es : list Event) : State * list (Status * Action) :=
  match es with
  | [] => (s, [])
  | e :: rest =>
      let '(s1, a1) := step s e in
      let '(s2, a2) := run s1 rest in
      (s2, (map (fun a => (status (props s1), a)) a1 ++ a2)%list)
  end.

End Machine.

(** The events that are neither a bridge message nor a timer. *)
Definition leaves_retry_alone (e : Event) : bool :=
  match e with
  | Message _ | TimerElapsed _ => false
  | _ => true
  end.

(** The component as it is mounted. *)
Definition initial : State :=
  {| props := {| accessToken := VStr EmptyString; status := hidden |};
     webview := true; animations := []; timers := [] |}.

End Component.

(** ** The shapes of the bridge messages *)

Module Bridge.

(** [{type: 'REQUEST_INTERCEPTED_CONFIG', payload: {headers}}] *)
Definition intercepted (headers : value) : value :=
  VObj [("type", VStr "REQUEST_INTERCEPTED_CONFIG"); ("payload", VObj [("headers", headers)])].

(** [{type: 'RAW_PARTIAL_RESPONSE', payload: text}] *)
Definition partial (text : string) : value :=
  VObj [("type", VStr "RAW_PARTIAL_RESPONSE"); ("payload", VStr text)].

(** [{type: 'STREAM_ERROR', payload: {status, statusText}}], the shape
    [WebViewEvents] declares. *)
Definition stream_error (status : Z) (statusText : string) : value :=
  VObj [("type", VStr "STREAM_ERROR");
        ("payload", VObj [("status", VNum status); ("statusText", VStr statusText)])].

(** [{type: 'GPT3_FULL_CAPACITY'}] *)
Definition capacity : value := VObj [("type", VStr "GPT3_FULL_CAPACITY")].

(** The message [v] is an intercepted request whose headers hold [token]
    under the key [key]. *)
Definition carries (v : value) (key : string) (token : value) : Prop :=
  get v "type" = VStr "REQUEST_INTERCEPTED_CONFIG" /\
  exists hs, get (get v "payload") "headers" = VObj hs /\ field key hs = Some token.

(** The headers of the intercepted request [v] have no key [key]. *)
Definition lacks (v : value) (key : string) : Prop :=
  exists hs, get (get v "payload") "headers" = VObj hs /\ field key hs = None.

(** How many of the messages [ms] have the tag [tag]. *)
Definition count (tag : string) (ms : list value) : nat :=
  List.length (filter (fun m => strict_eq (get m "type") (VStr tag)) ms).

End Bridge.

(** ** The accumulator of the specification

    The specification's [ingest]: "Each call appends [text] to the current
    accumulator buffer, then attempts to parse the cumulative buffer".  It
    is compared with what the router does. *)

Module Spec.

Section Ingest.
Variable parse : value -> exn + option ChatGpt3Response.t.

Definition ingest (buffer text : string) : string * list Call :=
  let buffer' := buffer ++ text in
  (buffer', Router.partial_calls parse (VStr buffer')).

Fixpoint ingest_all (buffer : string) (texts : list string) : list Call :=
  match texts with
  | [] => []
  | text :: rest =>
      let '(buffer', cs) := ingest buffer text in
      (cs ++ ingest_all buffer' rest)%list
  end.
End Ingest.

End Spec.

(** ** Instances to run the model on *)

Module Sample.

(** A stream parser that makes a response of any non-empty text. *)
Definition echo (payload : value) : exn + option ChatGpt3Response.t :=
  match payload with
  | VStr s =>
      if String.eqb s EmptyString then inr None
      else inr (Some {| ChatGpt3Response.message := s;
                        ChatGpt3Response.messageId := "m";
                        ChatGpt3Response.conversationId := "c";
                        ChatGpt3Response.isDone := false |})
  | _ => inr None
  end.

(** A stream parser for one record of the form [data: <JSON>]: it throws
    when the text after the prefix is not JSON, as [JSON.parse] does, and
    makes nothing of a text without the prefix. *)
Definition record (payload : value) : exn + option ChatGpt3Response.t :=
  match payload with
  | VStr text =>
      if String.prefix "data: " text then
        match Json.parse (String.substring 6 (String.length text - 6) text) with
        | Some v =>
            inr (Some {| ChatGpt3Response.message := toString (get v "message");
                         ChatGpt3Response.messageId := toString (get v "id");
                         ChatGpt3Response.conversationId := toString (get v "conversation_id");
                         ChatGpt3Response.isDone := truthy (get v "end_turn") |})
        | None => inl SyntaxError
        end
      else inr None
  | _ => inr None
  end.

(** A record, and the two chunks a boundary after its 24th character cuts
    it into. *)
Definition whole_record : string :=
  "data: " ++ Json.stringify (VObj [ ("message", VStr "Hello");
                                     ("id", VStr "m");
                                     ("conversation_id", VStr "c");
                                     ("end_turn", VBool true) ]).
Definition first_chunk : string := String.substring 0 24 whole_record.
Definition second_chunk : string :=
  String.substring 24 (String.length whole_record - 24) whole_record.

(** A stream parser that makes nothing of any text. *)
Definition blind (rawText : string) : exn + option ChatGpt3Response.t := inr None.

(** Callbacks that return. *)
Definition quiet (c : Call) : option exn := None.

Definition CHAT_PAGE : string := "https://chat.openai.com/chat".
Definition HOST_URL : string := "https://chat.openai.com".
Definition PROMPT_ENDPOINT : string := "https://chat.openai.com/backend-api/conversation".

Definition decode (bytes : list Byte.byte) : string := string_of_list_byte bytes.

Definition headers (accessToken : string) : value :=
  VObj [("authorization", VStr accessToken)].

(** A backend that answers every request with [res]. *)
Definition backend (res : Fetch.Response) (resource : string) (config : value) : Fetch.Result :=
  Fetch.Resolved res.

(** The component shown, with a token held. *)
Definition shown (token : string) : Component.State :=
  {| Component.props := {| accessToken := VStr token; status := visible |};
     Component.webview := true;
     Component.animations := [];
     Component.timers := [] |}.

(** A successful response whose body is a record cut short. *)
Definition truncated_response : Fetch.Response :=
  {| Fetch.status := 200;
     Fetch.statusText := "OK";
     Fetch.body := Some {| Fetch.chunks := [list_byte_of_string "data: {"];
                           Fetch.fails := false |} |}.

(** A response with the given status line and no body. *)
Definition answer (status : Z) (statusText : string) : Fetch.Response :=
  {| Fetch.status := status; Fetch.statusText := statusText; Fetch.body := None |}.

(** A response of status 600 that streams one chunk. *)
Definition streamed_600 : Fetch.Response :=
  {| Fetch.status := 600;
     Fetch.statusText := "Unavailable";
     Fetch.body := Some {| Fetch.chunks := [list_byte_of_string "data: x"];
                           Fetch.fails := false |} |}.

Definition posted_600 : list value :=
  Eff.trace (Sandbox.sendGptMessage HOST_URL CHAT_PAGE PROMPT_ENDPOINT
               Json.stringify decode (backend streamed_600) "token" "Hello" "m" "c").

(** The response [echo] makes of [text]. *)
Definition echoed (text : string) : ChatGpt3Response.t :=
  {| ChatGpt3Response.message := text;
     ChatGpt3Response.messageId := "m";
     ChatGpt3Response.conversationId := "c";
     ChatGpt3Response.isDone := false |}.

(** A run of the component on the sample instances, with the state updates
    of a handler applied together. *)
Definition run (s : Component.State) (es : list Event)
  : Component.State * list (Status * Action) :=
  Component.run Json.parse echo quiet CHAT_PAGE true s es.

(** The text of a bridge message. *)
Definition sent (m : value) : Event := Message (Json.stringify m).

End Sample.

(** ** What the properties below are stated with *)

Module Dispatch.

(** The type of bridge message whose branch of [onMessage] makes the call. *)
Definition tag_of (c : Call) : string :=
  match c with
  | onAccessTokenChange _ => "REQUEST_INTERCEPTED_CONFIG"
  | onPartialResponse _ => "RAW_PARTIAL_RESPONSE"
  | reloadAndCheckCapacityAgain => "GPT3_FULL_CAPACITY"
  | onStreamError _ => "STREAM_ERROR"
  end.

(** The four types [onMessage] tests for. *)
Definition recognized (tag : string) : bool :=
  String.eqb tag "REQUEST_INTERCEPTED_CONFIG" || String.eqb tag "RAW_PARTIAL_RESPONSE"
  || String.eqb tag "GPT3_FULL_CAPACITY" || String.eqb tag "STREAM_ERROR".

(** The conditions under which credential capture calls back with [v]: the
    message is an intercepted request, its payload has an object [headers]
    with an own key [Authorization], and the value under it is truthy and
    not the token held. *)
Definition captures (p : Props) (m v : value) : Prop :=
  get m "type" = VStr "REQUEST_INTERCEPTED_CONFIG" /\
  exists hs,
    get (get m "payload") "headers" = VObj hs /\
    field "Authorization" hs = Some v /\
    truthy v = true /\
    strict_eq v (accessToken p) = false.

End Dispatch.

Module Invariant.

(** The token the host holds after the actions [log], when it held [held]
    before them: the value of the last [onAccessTokenChange] among them. *)
Definition last_token (held : value) (log : list Action) : value :=
  fold_left (fun h a => match a with
                        | call (onAccessTokenChange v) => v
                        | _ => h
                        end) log held.

(** While the status is [animating], the end callback of some animation is
    still to run. *)
Definition animating_is_running (s : Component.State) : Prop :=
  status (Component.props s) = animating -> Component.animations s <> [].

Definition is_call (a : Action) : bool :=
  match a with call _ => true | _ => false end.

(** The responses the modal passes to [onPartialResponse] among the actions
    [log], and the errors it passes to [onStreamError]. *)
Definition responses (log : list Action) : list ChatGpt3Response.t :=
  flat_map (fun a => match a with call (onPartialResponse r) => [r] | _ => [] end) log.

Definition errors (log : list Action) : list ChatGPTError.t :=
  flat_map (fun a => match a with call (onStreamError e) => [e] | _ => [] end) log.

End Invariant.

Module Pipeline.

Section Calls.
Variable decode : list Byte.byte -> string.
Variable parseStreamBasedResponse : value -> exn + option ChatGpt3Response.t.

(** The calls the host receives for an answer of the backend, read off the
    script and the router: for a status from 400 to 599 the error callback,
    with the error the router makes of the payload [{status, message}];
    otherwise, for each chunk of the body, what the stream parser makes of
    that chunk. *)
Definition host_calls (answer : Fetch.Result) : list Call :=
  match answer with
  | Fetch.Rejected => []
  | Fetch.Resolved res =>
      if (400 <=? Fetch.status res) && (Fetch.status res <? 600)
      then [onStreamError
              (ChatGPTError.make
                 ("ChatGPTResponseStreamError: " ++ string_of_Z (Fetch.status res))
                 (VNum (Fetch.status res)))]
      else match Fetch.body res with
           | None => []
           | Some b =>
               flat_map (fun chunk =>
                           Router.partial_calls parseStreamBasedResponse (VStr (decode chunk)))
                        (Fetch.chunks b)
           end
  end.
End Calls.

End Pipeline.

(** ** The script of a streamed prompt: [getPostMessageWithStreamScript] *)

Module Script.

(** [SendMessageOptions]: both identifiers are optional. *)
Record SendMessageOptions : Type := {
  conversationId : option string;
  messageId : option string
}.

(** [options?.f] *)
Definition option_of (options : option SendMessageOptions)
    (f : SendMessageOptions -> option string) : option string :=
  match options with
  | Some o => f o
  | None => None
  end.

(** [id || uuid.v4()]: an identifier that is absent or empty is replaced. *)
Definition or_uuid (id : option string) (uuid : string) : string :=
  match id with
  | Some s => if String.eqb s EmptyString then uuid else s
  | None => uuid
  end.

Definition newline : string := String (ascii_of_N 10) EmptyString.

(** ["${s}"]: the text between two double quotes, as it is. *)
Definition quoted (s : string) : string :=
  String Json.dquote (s ++ String Json.dquote EmptyString).

(** The template of [getPostMessageWithStreamScript]; [uuid_message] and
    [uuid_conversation] are what the two [uuid.v4()] return. *)
Definition getPostMessageWithStreamScript (uuid_message uuid_conversation : string)
    (accessToken message : string) (options : option SendMessageOptions) : string :=
  newline ++
  "    window.sendGptMessage({" ++ newline ++
  "      accessToken: " ++ quoted accessToken ++ "," ++ newline ++
  "      message: " ++ quoted message ++ "," ++ newline ++
  "      messageId: " ++ quoted (or_uuid (option_of options messageId) uuid_message)
    ++ "," ++ newline ++
  "      conversationId: "
    ++ quoted (or_uuid (option_of options conversationId) uuid_conversation) ++ newline ++
  "    });" ++ newline ++
  newline ++
  "    true;" ++ newline ++
  "  ".

(** *** Reading the script

    The page evaluates the script as JavaScript.  The reader below covers
    the part of the language the template is written in: a call of
    [window.sendGptMessage] on an object literal whose properties are
    double-quoted string literals without escapes, followed by [true;].  In
    such a literal every character stands for itself and the literal ends
    at the first double quote; of two properties of one name the later
    counts.  [Some args] says that the script is of this form and calls
    [sendGptMessage] with [args].  [None] says that the script is not of
    this form, and nothing about what JavaScript makes of it: a literal
    with a backslash or an expression in the place of a literal is
    JavaScript the reader does not follow. *)

(** The characters that stand for themselves in a string literal. *)
Definition plain_char (c : ascii) : bool :=
  let n := N_of_ascii c in
  negb ((n =? 34) || (n =? 92) || (n =? 10) || (n =? 13))%N.

Fixpoint plain (s : string) : bool :=
  match s with
  | EmptyString => true
  | String c rest => plain_char c && plain rest
  end.

(** The value of a string literal, read from after its opening quote, and
    the text after its closing quote. *)
Fixpoint read_literal (s : string) : option (string * string) :=
  match s with
  | EmptyString => None
  | String c rest =>
      if (N_of_ascii c =? 34)%N then Some (EmptyString, rest)
      else if plain_char c then
        match read_literal rest with
        | Some (v, r) => Some (String c v, r)
        | None => None
        end
      else None
  end.

(** A property name, up to its colon. *)
Fixpoint read_name (s : string) : option (string * string) :=
  match s with
  | EmptyString => None
  | String c rest =>
      if (N_of_ascii c =? 58)%N then Some (EmptyString, rest)
      else if Json.is_ws c then None
      else match read_name rest with
           | Some (n, r) => Some (String c n, r)
           | None => None
           end
  end.

(** [expect word s]: [s] without its prefix [word]. *)
Fixpoint expect (word s : string) : option string :=
  match word, s with
  | EmptyString, _ => Some s
  | String a word', String b s' => if Ascii.eqb a b then expect word' s' else None
  | String _ _, EmptyString => None
  end.

(** The properties of the object literal, up to its closing brace. *)
Fixpoint read_properties (fuel : nat) (s : string) : option (list (string * string) * string) :=
  match fuel with
  | O => None
  | S fuel =>
      match read_name (Json.skip_ws s) with
      | Some (name, r) =>
          match Json.skip_ws r with
          | String q r' =>
              if (N_of_ascii q =? 34)%N then
                match read_literal r' with
                | Some (v, r'') =>
                    match Json.skip_ws r'' with
                    | String "," r3 =>
                        match read_properties fuel r3 with
                        | Some (ps, r4) => Some ((name, v) :: ps, r4)
                        | None => None
                        end
                    | String "}" r3 => Some ([(name, v)], r3)
                    | _ => None
                    end
                | None => None
                end
              else None
          | EmptyString => None
          end
      | None => None
      end
  end.

(** The value of the property [k]: the last one of that name. *)
Fixpoint property (k : string) (ps : list (string * string)) : option string :=
  match ps with
  | [] => None
  | (k', v) :: rest =>
      match property k rest with
      | Some w => Some w
      | None => if String.eqb k k' then Some v else None
      end
  end.

(** The argument of the call of [sendGptMessage]. *)
Record Arguments_ : Type := {
  arg_accessToken : string;
  arg_message : string;
  arg_messageId : string;
  arg_conversationId : string
}.

Definition read (script : string) : option Arguments_ :=
  match expect "window.sendGptMessage({" (Json.skip_ws script) with
  | Some s1 =>
      match read_properties (String.length s1) s1 with
      | Some (ps, s2) =>
          match expect ");" s2 with
          | Some s3 =>
              match expect "true;" (Json.skip_ws s3) with
              | Some s4 =>
                  match Json.skip_ws s4 with
                  | EmptyString =>
                      match property "accessToken" ps, property "message" ps,
                            property "messageId" ps, property "conversationId" ps with
                      | Some a, Some m, Some i, Some c =>
                          Some {| arg_accessToken := a; arg_message := m;
                                  arg_messageId := i; arg_conversationId := c |}
                      | _, _, _, _ => None
                      end
                  | _ => None
                  end
              | None => None
              end
          | None => None
          end
      | None => None
      end
  | None => None
  end.

End Script.

(** ** The host component and its [sendMessage] *)

Module Host.

(** What a ref of the host holds: the [() => null] it starts with, or a
    function given by a caller of [sendMessage], known by a number. *)
Inductive Handler : Type :=
| ignore
| handler (id : nat).

(** [onError || (() => null)] *)
Definition or_ignore (f : option nat) : Handler :=
  match f with
  | Some id => handler id
  | None => ignore
  end.

Record State : Type := {
  modal : Component.State;          (* ModalWebView, with the token as a prop *)
  callbackRef : Handler;
  errorCallbackRef : Handler
}.

(** What the host does to the outside. *)
Inductive Output : Type :=
| partial_response (id : nat) (result : ChatGpt3Response.t)
| stream_error (id : nat) (error : ChatGPTError.t)
| injectJavaScript (script : string)
| on_webview (a : Action)
| throws (e : exn).                              (* a call of the host throws *)

Inductive Request : Type :=
| login
| sendMessage (message : string) (options : option Script.SendMessageOptions)
    (on_partial on_error : option nat)
    (uuid_message uuid_conversation : string)      (* the streamed variant *)
| happens (e : Event).                              (* an event of the modal *)

(** The props the host passes to the modal:
    [onPartialResponse={(result) => callbackRef.current?.(result)}] and
    [onStreamError={(error) => errorCallbackRef.current?.(error)}];
    [onAccessTokenChange={setAccessToken}] is in [Component.perform]. *)
Definition hand_over (callback error : Handler) (a : Action) : list Output :=
  match a with
  | call (onPartialResponse r) =>
      match callback with handler id => [partial_response id r] | ignore => [] end
  | call (onStreamError e) =>
      match error with handler id => [stream_error id e] | ignore => [] end
  | call _ => []
  | reload | checkIfChatGPTIsAtFullCapacity => [on_webview a]
  end.

Definition with_modal (m : Component.State) (h : State) : State :=
  {| modal := m; callbackRef := callbackRef h; errorCallbackRef := errorCallbackRef h |}.

Section Component.

Variable JSON_parse : string -> option value.
Variable parseStreamBasedResponse : value -> exn + option ChatGpt3Response.t.
Variable raises : Call -> option exn.
Variable CHAT_PAGE : string.
Variable batched : bool.

Definition on_modal (h : State) (e : Event) : State * list Output :=
  let '(m, acts) :=
    Component.step JSON_parse parseStreamBasedResponse raises CHAT_PAGE batched (modal h) e in
  (with_modal m h, flat_map (hand_over (callbackRef h) (errorCallbackRef h)) acts).

(** A request is served by the functions of the current render, so
    [sendMessage] sees the token of the state [h].  The token is the value
    the modal captured, whatever it is, and the template of the script
    applies ToString to it: when that throws, [sendMessage] throws, after
    the handlers are set and before anything is injected. *)
Definition step (h : State) (r : Request) : State * list Output :=
  match r with
  | login => on_modal h Open                        (* modalRef.current?.open() *)
  | happens e => on_modal h e
  | sendMessage message options on_partial on_error uuid_message uuid_conversation =>
      match on_partial with
      | Some id =>
          ({| modal := modal h;
              callbackRef := handler id;
              errorCallbackRef := or_ignore on_error |},
           match ToString (accessToken (Component.props (modal h))) with
           | Some token =>
               if Component.webview (modal h)
               then [injectJavaScript
                       (Script.getPostMessageWithStreamScript uuid_message
                          uuid_conversation token message options)]
               else []
           | None => [throws TypeError]
           end)
      | None => (h, [])
      end
  end.

Fixpoint run (h : State) (rs : list Request) : State * list Output :=
  match rs with
  | [] => (h, [])
  | r :: rest =>
      let '(h1, o1) := step h r in
      let '(h2, o2) := run h1 rest in
      (h2, (o1 ++ o2)%list)
  end.

End Component.

(** The handlers of the last streamed [sendMessage] of [rs] that gave
    [onPartialResponse], and [current] when there is none. *)
Fixpoint last_registration (current : Handler * Handler) (rs : list Request)
  : Handler * Handler :=
  match rs with
  | [] => current
  | sendMessage _ _ (Some id) on_error _ _ :: rest =>
      last_registration (handler id, or_ignore on_error) rest
  | _ :: rest => last_registration current rest
  end.

(** The responses handed to handlers among the outputs [os], each with the
    handler it was handed to, and the same for the errors. *)
Definition partial_responses (os : list Output) : list (nat * ChatGpt3Response.t) :=
  flat_map (fun o => match o with partial_response id r => [(id, r)] | _ => [] end) os.

Definition stream_errors (os : list Output) : list (nat * ChatGPTError.t) :=
  flat_map (fun o => match o with stream_error id e => [(id, e)] | _ => [] end) os.

(** The host as it is mounted. *)
Definition initial : State :=
  {| modal := Component.initial; callbackRef := ignore; errorCallbackRef := ignore |}.

End Host.

(** ** More sample states *)

Module Scenario.

(** The component before the web view is mounted. *)
Definition unmounted : Component.State :=
  {| Component.props := {| accessToken := VStr EmptyString; status := hidden |};
     Component.webview := false;
     Component.animations := [];
     Component.timers := [] |}.

(** [{toString: 1}]: a value ToString throws on. *)
Definition unprintable : value := VObj [("toString", VNum 1)].

(** [{type: 'STREAM_ERROR', payload: {status: {toString: 1}}}] *)
Definition unprintable_error : value :=
  VObj [("type", VStr "STREAM_ERROR"); ("payload", VObj [("status", unprintable)])].

(** A response of status 200 that streams two chunks. *)
Definition streamed_200 : Fetch.Response :=
  {| Fetch.status := 200;
     Fetch.statusText := "OK";
     Fetch.body := Some {| Fetch.chunks := [list_byte_of_string "data: a";
                                            list_byte_of_string "data: b"];
                           Fetch.fails := false |} |}.

(** A host run on the sample instances, with the state updates of a handler
    applied together. *)
Definition run (h : Host.State) (rs : list Host.Request) : Host.State * list Host.Output :=
  Host.run Json.parse Sample.echo Sample.quiet Sample.CHAT_PAGE true h rs.

End Scenario.

(** * Properties *)

(** Closes a goal [In c l -> _] when [c] is none of the calls of [l]. *)
Ltac not_among :=
  let H := fresh "Hin" in
  intros H; cbn in H;
  repeat match type of H with _ \/ _ => destruct H as [H | H] end;
  solve [discriminate H | contradiction H].

(** ** The model on concrete messages *)

Section Checks.

Let quiet_props : Props := {| accessToken := VStr "held"; status := hidden |}.
Let received (m : value) : Eff.M Call unit :=
  Router.onMessage Json.parse Sample.echo Sample.quiet quiet_props (Json.stringify m).

Example stringify_escapes :
  Json.parse (Json.stringify (VObj [("a", VArr [VNum (-5); VNull; VBool true; VStr "x/y"]);
                                    ("b", VUndefined);
                                    ("c", VObj [])]))
  = Some (VObj [("a", VArr [VNum (-5); VNull; VBool true; VStr "x/y"]); ("c", VObj [])]).
Proof. vm_compute. reflexivity. Qed.

Example parse_rejects : Json.parse "{type:" = None /\ Json.parse "01" = None /\ Json.parse "1 2" = None.
Proof. repeat split. Qed.

(** [JSON.parse("null")] is [null]; destructuring it throws, which is caught. *)
Example null_message : received VNull = ([], inr tt).
Proof. vm_compute. reflexivity. Qed.

(** [fetch(url)] without a configuration: [Object.keys(undefined)] throws. *)
Example request_without_config :
  received (VObj [("type", VStr "REQUEST_INTERCEPTED_CONFIG"); ("payload", VUndefined)])
  = ([], inr tt).
Proof. vm_compute. reflexivity. Qed.

(** ['Authorization' in "abc"] throws. *)
Example headers_not_an_object :
  received (Bridge.intercepted (VStr "abc")) = ([], inr tt).
Proof. vm_compute. reflexivity. Qed.

Example token_other_than_held :
  received (Bridge.intercepted (VObj [("Authorization", VStr "Bearer 1")]))
  = ([onAccessTokenChange (VStr "Bearer 1")], inr tt).
Proof. vm_compute. reflexivity. Qed.

Example token_held :
  received (Bridge.intercepted (VObj [("Authorization", VStr "held")])) = ([], inr tt).
Proof. vm_compute. reflexivity. Qed.

Example empty_token :
  received (Bridge.intercepted (VObj [("Authorization", VStr EmptyString)])) = ([], inr tt).
Proof. vm_compute. reflexivity. Qed.

Example unknown_type :
  received (VObj [("type", VStr "SOMETHING_ELSE"); ("payload", VStr "x")]) = ([], inr tt).
Proof. vm_compute. reflexivity. Qed.

Example capacity_while_hidden : received Bridge.capacity = ([], inr tt).
Proof. vm_compute. reflexivity. Qed.

Example stream_error_with_text :
  received (Bridge.stream_error 500 "Internal Error")
  = ([onStreamError (ChatGPTError.make "Internal Error" (VNum 500))], inr tt).
Proof. vm_compute. reflexivity. Qed.

Example stream_error_without_payload :
  received (VObj [("type", VStr "STREAM_ERROR")])
  = ([onStreamError (ChatGPTError.make "ChatGPTResponseStreamError: undefined" VUndefined)],
     inr tt).
Proof. vm_compute. reflexivity. Qed.

(** A callback that throws is caught like any other exception. *)
Example throwing_callback :
  Router.onMessage Json.parse Sample.echo (fun _ => Some ForeignError) quiet_props
    (Json.stringify (Bridge.partial "Hello"))
  = ([onPartialResponse (Sample.echoed "Hello")], inr tt).
Proof. vm_compute. reflexivity. Qed.

(** Opened, shown, at capacity, closed by the navigation to the chat page
    while the retry cycle runs. *)
Example a_session :
  snd (Sample.run Component.initial
         [ Open; AnimationEnd 0; Sample.sent Bridge.capacity;
           NavigationStateChange "https://chat.openai.com/chat?model=x" true;
           TimerElapsed 0; AnimationEnd 0; TimerElapsed 0 ])
  = [ (visible, checkIfChatGPTIsAtFullCapacity);
      (animating, reload);
      (hidden, checkIfChatGPTIsAtFullCapacity) ].
Proof. vm_compute. reflexivity. Qed.

End Checks.


(** ** Traces and outcomes of computations *)

Section EffFacts.
Import Eff.
Context {E : Type}.

Lemma trace_bind {A B} (m : M E A) (k : A -> M E B) :
  trace (bind m k) =
  (trace m ++ match outcome m with
              | inl _ => []
              | inr a => trace (k a)
              end)%list.
Proof.
  destruct m as [t [e | a]]; cbn; [symmetry; apply app_nil_r |].
  destruct (k a); reflexivity.
Qed.

Lemma outcome_bind {A B} (m : M E A) (k : A -> M E B) :
  outcome (bind m k) =
  match outcome m with
  | inl e => inl e
  | inr a => outcome (k a)
  end.
Proof.
  destruct m as [t [e | a]]; cbn; [reflexivity |].
  destruct (k a); reflexivity.
Qed.

Lemma trace_when (b : bool) (m : M E unit) :
  trace (when_ b m) = if b then trace m else [].
Proof. destruct b; reflexivity. Qed.

(** A [catch] block that ignores the exception makes the [try] statement
    complete normally. *)
Lemma try_catch_returns (m : M E unit) :
  outcome (try_catch m (fun _ => ret tt)) = inr tt.
Proof. destruct m as [t [e | []]]; reflexivity. Qed.

Lemma trace_try_catch (m : M E unit) :
  trace (try_catch m (fun _ => ret tt)) = trace m.
Proof. destruct m as [t [e | []]]; cbn; [apply app_nil_r | reflexivity]. Qed.

End EffFacts.

(** ** The round trip through JSON *)

(** Evaluates [digit_of] at the literal character of the goal. *)
Ltac eval_digit :=
  match goal with
  | |- context [Json.digit_of ?c] =>
      let d := eval vm_compute in (Json.digit_of c) in change (Json.digit_of c) with d
  end.

Section JsonFacts.
Import Json.

Lemma append_assoc (a b c : string) : ((a ++ b) ++ c = a ++ (b ++ c))%string.
Proof. induction a as [| x a IH]; cbn; [reflexivity | rewrite IH; reflexivity]. Qed.

Lemma chars_escape_char c tail :
  chars (escape_char c ++ tail) = prepend c (chars tail).
Proof.
  destruct c as [[] [] [] [] [] [] [] []]; reflexivity.
Qed.

Lemma chars_escape s rest :
  chars (escape s ++ String dquote rest) = Some (s, rest).
Proof.
  induction s as [| c s IH]; [reflexivity |].
  cbn [escape]. rewrite append_assoc, chars_escape_char, IH. reflexivity.
Qed.

Lemma digits_delimited acc rest : delimited rest -> digits acc rest = (acc, rest).
Proof.
  destruct rest as [| c rest]; [reflexivity |].
  intros [-> | [-> | ->]]; reflexivity.
Qed.

Lemma starts_fraction_delimited rest : delimited rest -> starts_fraction rest = false.
Proof.
  destruct rest as [| c rest]; [reflexivity |].
  intros [-> | [-> | ->]]; reflexivity.
Qed.

Lemma digits_string_of_uint u acc rest :
  delimited rest ->
  digits acc (NilEmpty.string_of_uint u ++ rest) = (uint_value acc u, rest).
Proof.
  intros Hrest. revert acc.
  induction u; intros acc; cbn [NilEmpty.string_of_uint uint_value append];
    try (apply digits_delimited; exact Hrest);
    cbn [digits]; eval_digit; apply IHu.
Qed.

Lemma uint_value_of_uint_acc u acc :
  uint_value (Zpos acc) u = Zpos (Pos.of_uint_acc u acc).
Proof.
  revert acc. induction u; intros acc; cbn [uint_value Pos.of_uint_acc];
    try reflexivity;
    match goal with
    | |- uint_value ?z _ = Zpos (Pos.of_uint_acc _ ?p) =>
        replace z with (Zpos p) by lia
    end; apply IHu.
Qed.

Lemma uint_value_of_uint u : uint_value 0 u = Z.of_N (Pos.of_uint u).
Proof.
  induction u; cbn [uint_value Pos.of_uint]; try reflexivity; try exact IHu;
    match goal with
    | |- uint_value ?z _ = Z.of_N (Npos (Pos.of_uint_acc _ ?p)) =>
        change z with (Zpos p)
    end; apply uint_value_of_uint_acc.
Qed.

Lemma uint_value_to_uint p : uint_value 0 (Pos.to_uint p) = Zpos p.
Proof. rewrite uint_value_of_uint, DecimalPos.Unsigned.of_to. reflexivity. Qed.

(** The decimal digits of a positive number do not start with a zero. *)
Lemma to_uint_head p u : Pos.to_uint p <> Decimal.D0 u.
Proof.
  intros H.
  assert (Hnorm : Decimal.unorm (Pos.to_uint p) = Pos.to_uint p).
  { rewrite <- (DecimalPos.Unsigned.to_of (Pos.to_uint p)).
    rewrite DecimalPos.Unsigned.of_to. reflexivity. }
  rewrite H in Hnorm.
  destruct (Decimal.nzhead (Decimal.D0 u)) eqn:Hhead;
    [ unfold Decimal.unorm in Hnorm; rewrite Hhead in Hnorm;
      apply (DecimalPos.Unsigned.to_uint_nonzero p); rewrite H; symmetry; exact Hnorm
    | .. ];
    rewrite DecimalFacts.unorm_nzhead in Hnorm by (rewrite Hhead; discriminate);
    exact (DecimalFacts.nzhead_nonzero _ _ Hnorm).
Qed.

Lemma natural_to_uint p rest :
  delimited rest ->
  natural (NilEmpty.string_of_uint (Pos.to_uint p) ++ rest) = Some (Zpos p, rest).
Proof.
  intros Hrest. rewrite <- (uint_value_to_uint p).
  pose proof (to_uint_head p) as Hhead.
  pose proof (DecimalPos.Unsigned.to_uint_nonnil p) as Hnil.
  destruct (Pos.to_uint p) as [| u | u | u | u | u | u | u | u | u | u];
    [contradiction | exfalso; exact (Hhead u eq_refl) | ..];
    cbn [NilEmpty.string_of_uint append natural]; eval_digit; cbv iota;
    cbn [uint_value]; rewrite (digits_string_of_uint u _ rest Hrest);
    rewrite (starts_fraction_delimited rest Hrest); reflexivity.
Qed.

Lemma string_of_Z_pos p :
  string_of_Z (Zpos p) = NilEmpty.string_of_uint (Pos.to_uint p).
Proof.
  unfold string_of_Z. cbn [Z.to_int NilZero.string_of_int NilZero.string_of_uint].
  pose proof (DecimalPos.Unsigned.to_uint_nonnil p).
  destruct (Pos.to_uint p); try reflexivity. contradiction.
Qed.

Lemma number_string_of_Z n rest :
  delimited rest ->
  number (string_of_Z n ++ rest) = Some (n, rest).
Proof.
  intros Hrest. destruct n as [| p | p].
  - cbn. rewrite (starts_fraction_delimited rest Hrest).
    destruct rest as [| c rest]; [reflexivity |].
    destruct Hrest as [-> | [-> | ->]]; reflexivity.
  - rewrite string_of_Z_pos.
    pose proof (natural_to_uint p rest Hrest) as Hnat.
    pose proof (to_uint_head p) as Hhead.
    pose proof (DecimalPos.Unsigned.to_uint_nonnil p) as Hnil.
    destruct (Pos.to_uint p); try contradiction;
      cbn [NilEmpty.string_of_uint append number] in *; exact Hnat.
  - unfold string_of_Z. cbn [Z.to_int NilZero.string_of_int].
    assert (Hsame : NilZero.string_of_uint (Pos.to_uint p)
                    = NilEmpty.string_of_uint (Pos.to_uint p)).
    { pose proof (DecimalPos.Unsigned.to_uint_nonnil p).
      destruct (Pos.to_uint p); try reflexivity. contradiction. }
    rewrite Hsame. cbn [append number]. rewrite (natural_to_uint p rest Hrest).
    reflexivity.
Qed.

(** *** Values *)

Lemma uint_head u :
  u <> Decimal.Nil ->
  exists c s, NilEmpty.string_of_uint u = String c s /\ numeric c.
Proof.
  intros Hu. unfold numeric.
  destruct u; [contradiction | ..]; cbn [NilEmpty.string_of_uint];
    eexists; eexists; (split; [reflexivity | tauto]).
Qed.

Lemma string_of_Z_head n :
  exists c s, string_of_Z n = String c s /\ numeric c.
Proof.
  destruct n as [| p | p].
  - exists "0"%char, EmptyString. split; [reflexivity |]. unfold numeric. tauto.
  - rewrite string_of_Z_pos. apply uint_head. apply DecimalPos.Unsigned.to_uint_nonnil.
  - exists "-"%char. eexists. split; [reflexivity |]. unfold numeric. tauto.
Qed.

Lemma parse_value_numeric fuel c s :
  numeric c ->
  parse_value (S fuel) (String c s)
  = match number (String c s) with
    | Some (n, r) => Some (VNum n, r)
    | None => None
    end.
Proof.
  unfold numeric. intros H.
  repeat (destruct H as [-> | H]; [reflexivity |]). subst c. reflexivity.
Qed.

Lemma parse_value_number fuel n rest :
  delimited rest ->
  parse_value (S fuel) (string_of_Z n ++ rest) = Some (VNum n, rest).
Proof.
  intros Hrest. pose proof (number_string_of_Z n rest Hrest) as Hnumber.
  destruct (string_of_Z_head n) as [c [s [Heq Hc]]]. rewrite Heq in *.
  cbn [append] in *. rewrite (parse_value_numeric fuel c _ Hc), Hnumber. reflexivity.
Qed.

Lemma parse_value_string fuel s rest :
  parse_value (S fuel) (quote s ++ rest) = Some (VStr s, rest).
Proof.
  unfold quote. cbn [append]. rewrite append_assoc. cbn [append].
  change (parse_value (S fuel) (String dquote (escape s ++ String dquote rest)))
    with (match chars (escape s ++ String dquote rest) with
          | Some (t, r) => Some (VStr t, r)
          | None => None
          end).
  rewrite chars_escape. reflexivity.
Qed.

Lemma substring_all s : String.substring 0 (String.length s) s = s.
Proof. induction s as [| c s IH]; cbn; [reflexivity | rewrite IH; reflexivity]. Qed.

Lemma stringify_elems elems :
  forallb jsonable elems = true ->
  map (fun e => match e with VUndefined => "null" | _ => stringify e end) elems
  = map stringify elems.
Proof.
  induction elems as [| e elems IH]; [reflexivity |].
  cbn [forallb map]. intros H. apply andb_true_iff in H. destruct H as [He Hrest].
  rewrite (IH Hrest). destruct e; try reflexivity. discriminate He.
Qed.

Lemma stringify_props props :
  forallb (fun kv => let '(_, w) := kv in jsonable w) props = true ->
  flat_map (fun kv => let '(k, w) := kv in
                      match w with
                      | VUndefined => []
                      | _ => [quote k ++ ":" ++ stringify w]
                      end) props
  = map member props.
Proof.
  induction props as [| [k w] props IH]; [reflexivity |].
  cbn [forallb map flat_map]. intros H. apply andb_true_iff in H. destruct H as [Hw Hrest].
  rewrite (IH Hrest). destruct w; try reflexivity. discriminate Hw.
Qed.

(** The first character of the text of a value opens a value. *)
Lemma stringify_head v :
  jsonable v = true ->
  exists c s, stringify v = String c s /\ is_ws c = false /\ c <> "]"%char.
Proof.
  destruct v as [| | [] | n | s | elems | props]; intros Hv; try discriminate Hv;
    try (eexists; eexists; split; [reflexivity | split; [reflexivity | discriminate]]).
  destruct (string_of_Z_head n) as [c [s [Heq Hc]]].
  exists c, s. split; [exact Heq |]. unfold numeric in Hc.
  repeat (destruct Hc as [-> | Hc]; [split; [reflexivity | discriminate] |]).
  subst c. split; [reflexivity | discriminate].
Qed.

Lemma parse_value_array fuel s c s' :
  skip_ws s = String c s' -> c <> "]"%char ->
  parse_value (S fuel) (String "[" s)
  = match parse_elements fuel (String c s') with
    | Some (es, r) => Some (VArr es, r)
    | None => None
    end.
Proof.
  intros Hskip Hc.
  change (parse_value (S fuel) (String "[" s))
    with (match skip_ws s with
          | String "]" rest' => Some (VArr [], rest')
          | rest' => match parse_elements fuel rest' with
                     | Some (es, r) => Some (VArr es, r)
                     | None => None
                     end
          end).
  rewrite Hskip.
  destruct c as [[] [] [] [] [] [] [] []]; try reflexivity.
  contradiction Hc. reflexivity.
Qed.

Lemma delimited_comma s : delimited (String "," s).
Proof. left. reflexivity. Qed.

Lemma delimited_bracket s : delimited (String "]" s).
Proof. right. left. reflexivity. Qed.

Lemma delimited_brace s : delimited (String "}" s).
Proof. right. right. reflexivity. Qed.

Lemma parse_elements_stringify elems :
  Forall parses elems ->
  forallb jsonable elems = true ->
  elems <> [] ->
  forall fuel rest,
    (list_sum (map (fun e => S (size e)) elems) <= fuel)%nat ->
    parse_elements fuel (join "," (map stringify elems) ++ String "]" rest)
    = Some (elems, rest).
Proof.
  induction 1 as [| e elems He _ IH]; [contradiction |].
  intros Hj _ fuel rest Hfuel.
  cbn [forallb] in Hj. apply andb_true_iff in Hj. destruct Hj as [Hje Hjrest].
  cbn [map list_sum] in Hfuel.
  destruct fuel as [| fuel]; [cbn in Hfuel; lia |].
  destruct elems as [| e2 elems].
  - cbn [map join String.concat]. cbn [parse_elements].
    rewrite (He Hje fuel (String "]" rest)) by (try apply delimited_bracket; cbn in Hfuel; lia).
    reflexivity.
  - change (join "," (map stringify (e :: e2 :: elems)))
      with (stringify e ++ "," ++ join "," (map stringify (e2 :: elems))).
    rewrite !append_assoc. cbn [append]. cbn [parse_elements].
    rewrite (He Hje fuel) by (try apply delimited_comma; cbn in Hfuel |- *; lia).
    cbn [skip_ws]. change (is_ws ",") with false. cbv iota.
    rewrite (IH Hjrest) by (try discriminate; cbn in Hfuel |- *; lia).
    reflexivity.
Qed.

Lemma parse_members_stringify props :
  Forall (fun kv => parses (snd kv)) props ->
  forallb (fun kv => let '(_, w) := kv in jsonable w) props = true ->
  props <> [] ->
  forall fuel rest,
    (list_sum (map (fun kv => let '(_, w) := kv in S (size w)) props) <= fuel)%nat ->
    parse_members fuel (join "," (map member props) ++ String "}" rest)
    = Some (props, rest).
Proof.
  induction 1 as [| [k w] props Hw _ IH]; [contradiction |].
  intros Hj _ fuel rest Hfuel.
  cbn [forallb] in Hj. apply andb_true_iff in Hj. destruct Hj as [Hjw Hjrest].
  cbn [map list_sum snd] in Hfuel, Hw.
  destruct fuel as [| fuel]; [cbn in Hfuel; lia |].
  assert (Hkey : forall tail,
             parse_members (S fuel) (quote k ++ tail)
             = match skip_ws tail with
               | String ":" r' =>
                   match parse_value fuel r' with
                   | Some (v, r'') =>
                       match skip_ws r'' with
                       | String "," r3 =>
                           match parse_members fuel r3 with
                           | Some (ms, r4) => Some ((k, v) :: ms, r4)
                           | None => None
                           end
                       | String "}" r3 => Some ([(k, v)], r3)
                       | _ => None
                       end
                   | None => None
                   end
               | _ => None
               end).
  { intros tail. unfold quote. cbn [append]. rewrite append_assoc. cbn [append].
    cbn [parse_members skip_ws]. change (is_ws dquote) with false. cbv iota.
    change (N_of_ascii dquote =? 34)%N with true. cbv iota.
    rewrite chars_escape. reflexivity. }
  destruct props as [| kv2 props].
  - cbn [map join String.concat member]. rewrite !append_assoc. rewrite Hkey.
    cbn [append skip_ws]. change (is_ws ":") with false. cbv iota.
    rewrite (Hw Hjw fuel (String "}" rest)) by (try apply delimited_brace; cbn in Hfuel; lia).
    reflexivity.
  - change (join "," (map member ((k, w) :: kv2 :: props)))
      with (member (k, w) ++ "," ++ join "," (map member (kv2 :: props))).
    cbn [member]. rewrite !append_assoc. rewrite Hkey.
    cbn [append skip_ws]. change (is_ws ":") with false. cbv iota.
    rewrite (Hw Hjw fuel) by (try apply delimited_comma; cbn in Hfuel |- *; lia).
    cbn [skip_ws]. change (is_ws ",") with false. cbv iota.
    rewrite (IH Hjrest) by (try discriminate; cbn in Hfuel |- *; lia).
    reflexivity.
Qed.

Lemma literal_append word v rest : literal word v (word ++ rest) = Some (v, rest).
Proof.
  unfold literal.
  assert (Hprefix : String.prefix word (word ++ rest) = true).
  { induction word as [| c word IH]; cbn.
    - destruct rest; reflexivity.
    - destruct (ascii_dec c c) as [_ | Hne]; [exact IH | contradiction]. }
  assert (Hrest : String.substring (String.length word)
                    (String.length (word ++ rest) - String.length word) (word ++ rest)
                  = rest).
  { clear Hprefix. induction word as [| c word IH]; cbn.
    - rewrite Nat.sub_0_r. apply substring_all.
    - exact IH. }
  rewrite Hprefix, Hrest. reflexivity.
Qed.

Lemma parse_value_stringify v : parses v.
Proof.
  induction v as [| | b | n | s | elems IH | props IH] using value_induction;
    intros Hv fuel rest Hfuel Hrest;
    try discriminate Hv;
    (destruct fuel as [| fuel]; [cbn in Hfuel; lia |]).
  - apply (literal_append "null" VNull).
  - destruct b; [apply (literal_append "true") | apply (literal_append "false")].
  - apply parse_value_number. exact Hrest.
  - apply parse_value_string.
  - cbn [jsonable] in Hv. cbn [stringify]. rewrite (stringify_elems elems Hv).
    destruct elems as [| e elems]; [reflexivity |].
    cbn [append]. rewrite append_assoc. cbn [append].
    assert (He : jsonable e = true)
      by (cbn [forallb] in Hv; apply andb_true_iff in Hv; tauto).
    destruct (stringify_head e He) as [c [s' [Heq [Hws Hc]]]].
    assert (Hjoin : exists s'', join "," (map stringify (e :: elems)) ++ String "]" rest
                                = String c s'').
    { destruct elems; cbn [map join String.concat]; rewrite Heq; cbn [append];
        eexists; reflexivity. }
    destruct Hjoin as [s'' Hjoin].
    rewrite (parse_value_array fuel _ c s'').
    + rewrite <- Hjoin.
      rewrite (parse_elements_stringify (e :: elems) IH Hv)
        by (try discriminate; cbn [size] in Hfuel; lia).
      reflexivity.
    + rewrite Hjoin. cbn [skip_ws]. rewrite Hws. reflexivity.
    + exact Hc.
  - cbn [jsonable] in Hv. cbn [stringify]. rewrite (stringify_props props Hv).
    destruct props as [| [k w] props]; [reflexivity |].
    cbn [append]. rewrite append_assoc. cbn [append].
    assert (Hjoin : exists s'', join "," (map member ((k, w) :: props)) ++ String "}" rest
                                = String dquote s'').
    { destruct props; cbn [map join String.concat member quote append];
        eexists; reflexivity. }
    destruct Hjoin as [s'' Hjoin].
    pose proof (parse_members_stringify ((k, w) :: props) IH Hv) as Hmembers.
    specialize (Hmembers ltac:(discriminate) fuel rest ltac:(cbn [size] in Hfuel; lia)).
    rewrite Hjoin in *.
    change (parse_value (S fuel) (String "{" (String dquote s'')))
      with (match parse_members fuel (String dquote s'') with
            | Some (ms, r) => Some (VObj ms, r)
            | None => None
            end).
    rewrite Hmembers. reflexivity.
Qed.

Lemma length_append (a b : string) :
  String.length (a ++ b) = (String.length a + String.length b)%nat.
Proof. induction a as [| c a IH]; cbn; [reflexivity | rewrite IH; reflexivity]. Qed.

Lemma append_empty (a : string) : (a ++ EmptyString)%string = a.
Proof. induction a as [| c a IH]; cbn; [reflexivity | rewrite IH; reflexivity]. Qed.

(** The text of a value is at least as long as the fuel its parsing takes. *)
Lemma size_le_length v :
  jsonable v = true -> (size v <= String.length (stringify v))%nat.
Proof.
  induction v as [| | b | n | s | elems IH | props IH] using value_induction;
    intros Hv; try discriminate Hv.
  - cbn. lia.
  - destruct b; cbn; lia.
  - destruct (string_of_Z_head n) as [c [s [Heq _]]]. cbn [size stringify].
    rewrite Heq. cbn. lia.
  - cbn [size stringify]. unfold quote. cbn. lia.
  - cbn [jsonable] in Hv. cbn [size stringify]. rewrite (stringify_elems elems Hv).
    cbn [append String.length]. rewrite length_append. cbn [String.length].
    enough (list_sum (map (fun e => S (size e)) elems)
            <= S (String.length (join "," (map stringify elems))))%nat by lia.
    induction IH as [| e elems He _ IHelems]; [cbn; lia |].
    cbn [forallb] in Hv. apply andb_true_iff in Hv. destruct Hv as [Hje Hjrest].
    specialize (He Hje). specialize (IHelems Hjrest).
    destruct elems as [| e2 elems]; [cbn; lia |].
    change (join "," (map stringify (e :: e2 :: elems)))
      with (stringify e ++ "," ++ join "," (map stringify (e2 :: elems))).
    rewrite !length_append. cbn [map list_sum fold_right String.length] in *. lia.
  - cbn [jsonable] in Hv. cbn [size stringify]. rewrite (stringify_props props Hv).
    cbn [append String.length]. rewrite length_append. cbn [String.length].
    enough (list_sum (map (fun kv => let '(_, w) := kv in S (size w)) props)
            <= S (String.length (join "," (map member props))))%nat by lia.
    induction IH as [| [k w] props Hw _ IHprops]; [cbn; lia |].
    cbn [forallb] in Hv. apply andb_true_iff in Hv. destruct Hv as [Hjw Hjrest].
    cbn [snd] in Hw. specialize (Hw Hjw). specialize (IHprops Hjrest).
    assert (Hmember : (S (size w) <= String.length (member (k, w)))%nat).
    { cbn [member]. unfold quote. rewrite !length_append. cbn [String.length]. lia. }
    destruct props as [| kv2 props]; [cbn [map list_sum fold_right join String.concat]; lia |].
    change (join "," (map member ((k, w) :: kv2 :: props)))
      with (member (k, w) ++ "," ++ join "," (map member (kv2 :: props))).
    rewrite !length_append. cbn [map list_sum fold_right String.length] in *. lia.
Qed.

(** What [JSON.stringify] writes, [JSON.parse] reads back. *)
Theorem parse_stringify v : jsonable v = true -> parse (stringify v) = Some v.
Proof.
  intros Hv. unfold parse.
  pose proof (parse_value_stringify v Hv (S (String.length (stringify v))) EmptyString) as H.
  rewrite append_empty in H. rewrite H; [reflexivity | | exact I].
  pose proof (size_le_length v Hv). lia.
Qed.

End JsonFacts.

(** ** The router *)

Section RouterFacts.
Import Eff.

Variable JSON_parse : string -> option value.
Variable parseStreamBasedResponse : value -> exn + option ChatGpt3Response.t.
Variable raises : Call -> option exn.

Local Abbreviation onMessage :=
  (Router.onMessage JSON_parse parseStreamBasedResponse raises).
Local Abbreviation calls := (Router.calls parseStreamBasedResponse).

Lemma trace_invoke c : trace (Router.invoke raises c) = [c].
Proof.
  unfold Router.invoke. rewrite trace_bind. cbn.
  destruct c; cbn; try reflexivity; destruct (raises _); reflexivity.
Qed.

Lemma Object_keys_defined payload :
  nullish payload = false ->
  exists keys, Router.Object_keys payload = ret (VArr keys).
Proof. destruct payload; try discriminate; intros _; eexists; reflexivity. Qed.

Lemma trace_token p payload :
  trace (Router.handle_REQUEST_INTERCEPTED_CONFIG raises p payload)
  = Router.token_calls p payload.
Proof.
  unfold Router.handle_REQUEST_INTERCEPTED_CONFIG, Router.token_calls.
  rewrite trace_bind.
  destruct (nullish payload) eqn:Hn.
  - destruct payload; try discriminate; reflexivity.
  - destruct (Object_keys_defined payload Hn) as [keys ->].
    cbn [outcome trace ret snd fst truthy when_ app].
    generalize (get payload "headers"); intros headers.
    rewrite trace_bind. unfold Router.has_Authorization.
    destruct (truthy headers); [| reflexivity].
    destruct (has_property "Authorization" headers) as [[|]|];
      cbn [outcome trace ret throw snd fst when_ app]; try reflexivity.
    destruct (_ && _); [apply trace_invoke | reflexivity].
Qed.

Lemma trace_partial payload :
  trace (Router.handle_RAW_PARTIAL_RESPONSE parseStreamBasedResponse raises payload)
  = Router.partial_calls parseStreamBasedResponse payload.
Proof.
  unfold Router.handle_RAW_PARTIAL_RESPONSE, Router.partial_calls. rewrite trace_bind.
  destruct (parseStreamBasedResponse payload) as [e | [r |]];
    cbn [lift outcome trace fst snd app]; try reflexivity.
  apply trace_invoke.
Qed.

(** The calls [onMessage] makes are those of the one branch its message
    selects. *)
Lemma trace_onMessage p data :
  trace (onMessage p data) = calls p (JSON_parse data).
Proof.
  unfold Router.onMessage. rewrite trace_try_catch.
  unfold Router.dispatch, Router.calls. rewrite trace_bind.
  destruct (JSON_parse data) as [v |]; cbn [lift outcome trace fst snd app]; [| reflexivity].
  rewrite trace_bind. unfold Router.destructure.
  destruct (nullish v); cbn [outcome trace ret throw fst snd app]; [reflexivity |].
  generalize (get v "payload"); intros payload.
  unfold Router.is_type.
  destruct (get v "type") as [| | b | n | tag | l | l]; cbn [strict_eq];
    try reflexivity.
  rewrite !trace_bind, !trace_when, trace_token, trace_partial, !trace_invoke.
  destruct (String.eqb_spec tag "REQUEST_INTERCEPTED_CONFIG") as [-> | _];
    [| destruct (String.eqb_spec tag "RAW_PARTIAL_RESPONSE") as [-> | _];
       [| destruct (String.eqb_spec tag "GPT3_FULL_CAPACITY") as [-> | _];
          [| destruct (String.eqb_spec tag "STREAM_ERROR") as [-> | _] ] ] ];
    cbn [String.eqb Ascii.eqb Bool.eqb andb app when_ outcome ret snd];
    repeat match goal with
           | |- context [match ?o with inl _ => _ | inr _ => _ end] => destruct o
           end;
    rewrite ?app_nil_r; try reflexivity.
  all: try (destruct (Status_eqb _ _); reflexivity).
  unfold Router.handle_STREAM_ERROR. rewrite trace_bind.
  destruct (Router.stream_error payload) as [error |];
    cbn [lift outcome trace fst snd app]; [apply trace_invoke | reflexivity].
Qed.

(** A message of a known type is an object. *)
Lemma typed_not_nullish v tag : get v "type" = VStr tag -> nullish v = false.
Proof. destruct v; cbn; intros H; try discriminate; reflexivity. Qed.

Lemma calls_typed p v tag :
  get v "type" = VStr tag ->
  calls p (Some v) =
  if String.eqb tag "REQUEST_INTERCEPTED_CONFIG" then Router.token_calls p (get v "payload")
  else if String.eqb tag "RAW_PARTIAL_RESPONSE"
       then Router.partial_calls parseStreamBasedResponse (get v "payload")
  else if String.eqb tag "GPT3_FULL_CAPACITY" then
    if Status_eqb (status p) visible then [reloadAndCheckCapacityAgain] else []
  else if String.eqb tag "STREAM_ERROR" then
    match Router.stream_error (get v "payload") with
    | Some error => [onStreamError error]
    | None => []
    end
  else [].
Proof.
  intros H. unfold Router.calls. rewrite (typed_not_nullish _ _ H), H. reflexivity.
Qed.

End RouterFacts.

(** ** Parse failures *)

Section ParseFailures.
Import Eff.

Variable JSON_parse : string -> option value.
Variable parseStreamBasedResponse : value -> exn + option ChatGpt3Response.t.
Variable raises : Call -> option exn.

Variable PROMPT_ENDPOINT : string.
Variable JSON_stringify : value -> string.
Variable decode : list Byte.byte -> string.
Variable getChatGptConversationHeaders : string -> value.
Variable parseStreamedGptResponse : string -> exn + option ChatGpt3Response.t.
Variable fetch : string -> value -> Fetch.Result.

Local Abbreviation onMessage :=
  (Router.onMessage JSON_parse parseStreamBasedResponse raises).
Local Abbreviation postMessage :=
  (Api.postMessage PROMPT_ENDPOINT JSON_stringify decode getChatGptConversationHeaders
     parseStreamedGptResponse fetch).

Lemma onMessage_returns p data : outcome (onMessage p data) = inr tt.
Proof. apply try_catch_returns. Qed.

Lemma parse_failure_calls_nothing p data :
  Router.parse_failure JSON_parse parseStreamBasedResponse data ->
  trace (onMessage p data) = [].
Proof.
  unfold Router.parse_failure. rewrite trace_onMessage.
  destruct (JSON_parse data) as [v |]; [| reflexivity].
  intros [Hnull | [Htype Hnone]].
  - cbn. rewrite Hnull. reflexivity.
  - rewrite (calls_typed _ _ _ _ Htype). cbn.
    unfold Router.partial_calls.
    destruct (parseStreamBasedResponse (get v "payload")) as [e | [r |]];
      try reflexivity.
    exfalso. apply (Hnone r). reflexivity.
Qed.

Lemma postMessage_unable_to_parse accessToken message messageId conversationId res rawText :
  fetch PROMPT_ENDPOINT
    (Api.request_config JSON_stringify getChatGptConversationHeaders
       accessToken message messageId conversationId) = Fetch.Resolved res ->
  Fetch.status res < 400 ->
  Fetch.text decode res = inr rawText ->
  parseStreamedGptResponse rawText = inr None ->
  postMessage accessToken message messageId conversationId
  = inl (Thrown Api.unable_to_parse).
Proof.
  intros Hfetch Hstatus Htext Hparse. unfold Api.postMessage.
  rewrite Hfetch.
  replace (400 <=? Fetch.status res) with false by (symmetry; apply Z.leb_gt; lia).
  replace (500 <=? Fetch.status res) with false by (symmetry; apply Z.leb_gt; lia).
  cbn [andb]. rewrite Htext, Hparse. reflexivity.
Qed.

(** C4, as the code has it.  Whatever text arrives on the bridge, [onMessage]
    completes normally, and a message that fails to parse (as JSON, or as a
    stream record) makes it call nothing: no error callback, no other
    callback.  The non-streaming [postMessage] does surface a parse failure:
    when the stream parser makes nothing of the body of a successful
    response, it throws the error "Unable to parse response". *)
Theorem parse_failure_is_recovered_by_the_router_only :
  (forall p data, outcome (onMessage p data) = inr tt) /\
  (forall p data,
      Router.parse_failure JSON_parse parseStreamBasedResponse data ->
      trace (onMessage p data) = []) /\
  (forall accessToken message messageId conversationId res rawText,
      fetch PROMPT_ENDPOINT
        (Api.request_config JSON_stringify getChatGptConversationHeaders
           accessToken message messageId conversationId) = Fetch.Resolved res ->
      Fetch.status res < 400 ->
      Fetch.text decode res = inr rawText ->
      parseStreamedGptResponse rawText = inr None ->
      postMessage accessToken message messageId conversationId
      = inl (Thrown (ChatGPTError.make
                       "ChatGPTResponseError: Unable to parse response" VUndefined))).
Proof.
  split; [exact onMessage_returns |].
  split; [exact parse_failure_calls_nothing |].
  exact postMessage_unable_to_parse.
Qed.

End ParseFailures.

(** The router on a text that is not JSON, and [postMessage] on a body that
    the stream parser cannot read. *)
Lemma parse_failure_witness :
  Eff.trace (Router.onMessage Json.parse Sample.echo Sample.quiet
               {| accessToken := VStr "token"; status := hidden |} "{type:") = [] /\
  Api.postMessage Sample.PROMPT_ENDPOINT Json.stringify Sample.decode Sample.headers
    Sample.blind (Sample.backend Sample.truncated_response) "token" "Hello" "m" "c"
  = inl (Thrown (ChatGPTError.make
                   "ChatGPTResponseError: Unable to parse response" VUndefined)).
Proof.
  pose proof (parse_failure_is_recovered_by_the_router_only
                Json.parse Sample.echo Sample.quiet
                Sample.PROMPT_ENDPOINT Json.stringify Sample.decode Sample.headers
                Sample.blind (Sample.backend Sample.truncated_response)) as [_ [Hrouter Hpost]].
  split.
  - apply Hrouter. vm_compute. exact I.
  - apply (Hpost "token" "Hello" "m" "c" Sample.truncated_response "data: {").
    + reflexivity.
    + vm_compute. reflexivity.
    + vm_compute. reflexivity.
    + reflexivity.
Defined.

(** C4, as the specification states it, fails in [postMessage]: the body of
    a 200 response that cannot be parsed makes the call throw. *)
Lemma postMessage_throws_on_parse_failure :
  Sample.blind "data: {" = inr None /\
  Fetch.text Sample.decode Sample.truncated_response = inr "data: {" /\
  Api.postMessage Sample.PROMPT_ENDPOINT Json.stringify Sample.decode Sample.headers
    Sample.blind (Sample.backend Sample.truncated_response) "token" "Hello" "m" "c"
  = inl (Thrown (ChatGPTError.make
                   "ChatGPTResponseError: Unable to parse response" VUndefined)).
Proof. repeat split; vm_compute; reflexivity. Qed.

(** ** Errors of the two paths *)

Section Errors.
Import Eff.

Variable JSON_parse : string -> option value.
Variable parseStreamBasedResponse : value -> exn + option ChatGpt3Response.t.
Variable raises : Call -> option exn.

Variable PROMPT_ENDPOINT : string.
Variable JSON_stringify : value -> string.
Variable decode : list Byte.byte -> string.
Variable getChatGptConversationHeaders : string -> value.
Variable parseStreamedGptResponse : string -> exn + option ChatGpt3Response.t.
Variable fetch : string -> value -> Fetch.Result.

Local Abbreviation onMessage :=
  (Router.onMessage JSON_parse parseStreamBasedResponse raises).
Local Abbreviation postMessage :=
  (Api.postMessage PROMPT_ENDPOINT JSON_stringify decode getChatGptConversationHeaders
     parseStreamedGptResponse fetch).

(** What the router surfaces for a [STREAM_ERROR] message. *)
Lemma stream_error_surfaced p data v error :
  JSON_parse data = Some v ->
  get v "type" = VStr "STREAM_ERROR" ->
  Router.stream_error (get v "payload") = Some error ->
  trace (onMessage p data) = [onStreamError error].
Proof.
  intros Hparse Htype Herror.
  rewrite trace_onMessage, Hparse, (calls_typed _ _ _ _ Htype). cbn [String.eqb Ascii.eqb Bool.eqb].
  rewrite Herror. reflexivity.
Qed.

(** C2, evaluated.  For the [STREAM_ERROR] message of status 403 with an
    empty status text the router hands the error callback an error whose
    message is
    "ChatGPTResponseStreamError: 403": the status and nothing about the
    credential, whereas the non-streaming path, for the same status,
    reports that the access token may have expired. *)
Theorem stream_error_403_reports_the_status_only p data :
  JSON_parse data = Some (Bridge.stream_error 403 EmptyString) ->
  trace (onMessage p data)
  = [onStreamError (ChatGPTError.make "ChatGPTResponseStreamError: 403" (VNum 403))] /\
  forall statusText body,
    ChatGPTError.message
      (Api.client_error {| Fetch.status := 403;
                           Fetch.statusText := statusText;
                           Fetch.body := body |})
    = "ChatGPTResponseClientError: Your access token may have expired. Please login again.".
Proof.
  intros Hparse. split.
  - apply (stream_error_surfaced p data _ _ Hparse); reflexivity.
  - reflexivity.
Qed.

(** C8.  When the response of the non-streaming call has status 401 or 403,
    [postMessage] throws an error that says the access token may have
    expired and asks to log in again, with the status as its [statusCode];
    for any other status from 400 to 499 it throws a client error whose
    message holds the status and the status text. *)
Theorem postMessage_client_errors accessToken message messageId conversationId res :
  fetch PROMPT_ENDPOINT
    (Api.request_config JSON_stringify getChatGptConversationHeaders
       accessToken message messageId conversationId) = Fetch.Resolved res ->
  (Fetch.status res = 401 \/ Fetch.status res = 403 ->
   postMessage accessToken message messageId conversationId
   = inl (Thrown (ChatGPTError.make
                    "ChatGPTResponseClientError: Your access token may have expired. Please login again."
                    (VNum (Fetch.status res))))) /\
  (400 <= Fetch.status res < 500 ->
   Fetch.status res <> 401 -> Fetch.status res <> 403 ->
   postMessage accessToken message messageId conversationId
   = inl (Thrown (ChatGPTError.make
                    ("ChatGPTResponseClientError: " ++ string_of_Z (Fetch.status res)
                     ++ " " ++ Fetch.statusText res)
                    (VNum (Fetch.status res))))).
Proof.
  intros Hfetch. unfold Api.postMessage, Api.client_error. rewrite Hfetch.
  cbv zeta. split.
  - intros [H | H]; rewrite H; reflexivity.
  - intros Hrange H401 H403.
    replace (400 <=? Fetch.status res) with true by (symmetry; apply Z.leb_le; lia).
    replace (Fetch.status res <? 500) with true by (symmetry; apply Z.ltb_lt; lia).
    cbn [andb].
    replace (Fetch.status res =? 403) with false by (symmetry; apply Z.eqb_neq; lia).
    replace (Fetch.status res =? 401) with false by (symmetry; apply Z.eqb_neq; lia).
    reflexivity.
Qed.

End Errors.

(** The message of C2 as the bridge carries it. *)
Lemma stream_error_403_witness :
  Eff.trace (Router.onMessage Json.parse Sample.echo Sample.quiet
               {| accessToken := VStr "token"; status := hidden |}
               (Json.stringify (Bridge.stream_error 403 EmptyString)))
  = [onStreamError (ChatGPTError.make "ChatGPTResponseStreamError: 403" (VNum 403))].
Proof.
  apply (stream_error_403_reports_the_status_only Json.parse Sample.echo Sample.quiet).
  vm_compute. reflexivity.
Defined.

(** Status 401 with an empty status text, and status 404 Not Found. *)
Lemma postMessage_client_errors_witness :
  Api.postMessage Sample.PROMPT_ENDPOINT Json.stringify Sample.decode Sample.headers
    Sample.blind (Sample.backend (Sample.answer 401 EmptyString)) "token" "Hello" "m" "c"
  = inl (Thrown (ChatGPTError.make
                   "ChatGPTResponseClientError: Your access token may have expired. Please login again."
                   (VNum 401))) /\
  Api.postMessage Sample.PROMPT_ENDPOINT Json.stringify Sample.decode Sample.headers
    Sample.blind (Sample.backend (Sample.answer 404 "Not Found")) "token" "Hello" "m" "c"
  = inl (Thrown (ChatGPTError.make "ChatGPTResponseClientError: 404 Not Found" (VNum 404))).
Proof.
  split.
  - apply (postMessage_client_errors Sample.PROMPT_ENDPOINT Json.stringify Sample.decode
             Sample.headers Sample.blind (Sample.backend (Sample.answer 401 EmptyString))
             "token" "Hello" "m" "c" (Sample.answer 401 EmptyString) eq_refl).
    left. reflexivity.
  - apply (postMessage_client_errors Sample.PROMPT_ENDPOINT Json.stringify Sample.decode
             Sample.headers Sample.blind (Sample.backend (Sample.answer 404 "Not Found"))
             "token" "Hello" "m" "c" (Sample.answer 404 "Not Found") eq_refl).
    + cbn. lia.
    + cbn. lia.
    + cbn. lia.
Defined.

(** ** The injected script *)

Section SandboxFacts.
Import Eff.

Variables HOST_URL CHAT_PAGE PROMPT_ENDPOINT : string.
Variable JSON_stringify : value -> string.
Variable decode : list Byte.byte -> string.
Variable originalFetch : string -> value -> Fetch.Result.

Local Abbreviation sendGptMessage :=
  (Sandbox.sendGptMessage HOST_URL CHAT_PAGE PROMPT_ENDPOINT JSON_stringify decode originalFetch).
Local Abbreviation request_config :=
  (Sandbox.request_config HOST_URL CHAT_PAGE JSON_stringify).
Local Abbreviation posted :=
  (Sandbox.posted HOST_URL CHAT_PAGE PROMPT_ENDPOINT JSON_stringify decode originalFetch).

Lemma forward_completes chunks : outcome (Sandbox.forward decode chunks) = inr tt.
Proof.
  induction chunks as [| chunk rest IH]; [reflexivity |].
  cbn [Sandbox.forward]. rewrite outcome_bind. exact IH.
Qed.

(** Every chunk is forwarded, in the order of arrival. *)
Lemma trace_forward chunks :
  trace (Sandbox.forward decode chunks)
  = map (fun chunk => Sandbox.RAW_PARTIAL_RESPONSE (decode chunk)) chunks.
Proof.
  induction chunks as [| chunk rest IH]; [reflexivity |].
  cbn [Sandbox.forward map]. rewrite trace_bind. cbn. rewrite IH. reflexivity.
Qed.

Lemma trace_stream body :
  trace (Sandbox.stream decode body)
  = match body with
    | None => []
    | Some b => map (fun chunk => Sandbox.RAW_PARTIAL_RESPONSE (decode chunk)) (Fetch.chunks b)
    end.
Proof.
  destruct body as [b |]; [| reflexivity].
  unfold Sandbox.stream. rewrite trace_bind, trace_forward, forward_completes.
  destruct (Fetch.fails b); cbn; apply app_nil_r.
Qed.

Lemma trace_sendGptMessage accessToken message messageId conversationId :
  trace (sendGptMessage accessToken message messageId conversationId)
  = posted accessToken message messageId conversationId.
Proof.
  unfold Sandbox.sendGptMessage, Sandbox.posted. rewrite trace_try_catch, trace_bind.
  unfold Sandbox.fetch at 1 2. rewrite trace_bind, outcome_bind.
  cbn [Sandbox.post emit trace outcome fst snd app].
  unfold Sandbox.intercepted. f_equal.
  destruct (originalFetch _ _) as [| res]; [reflexivity |].
  cbn [ret throw trace outcome fst snd app]. unfold Sandbox.answered.
  destruct ((400 <=? Fetch.status res) && (Fetch.status res <? 600)); [reflexivity |].
  apply trace_stream.
Qed.

(** The messages of a run by type: the first is the intercepted request,
    an error answer gives one [STREAM_ERROR], any other answer gives
    [RAW_PARTIAL_RESPONSE] messages only. *)
Lemma posted_STREAM_ERROR accessToken message messageId conversationId m :
  In m (posted accessToken message messageId conversationId) ->
  get m "type" = VStr "STREAM_ERROR" ->
  exists res,
    originalFetch PROMPT_ENDPOINT (request_config accessToken message messageId conversationId)
    = Fetch.Resolved res /\
    400 <= Fetch.status res < 600 /\
    m = Sandbox.STREAM_ERROR res.
Proof.
  unfold Sandbox.posted. intros [<- | Hin] Htype; [discriminate Htype |].
  destruct (originalFetch _ _) as [| res]; [destruct Hin |].
  exists res. split; [reflexivity |].
  unfold Sandbox.answered in Hin.
  destruct ((400 <=? Fetch.status res) && (Fetch.status res <? 600)) eqn:Hrange.
  - destruct Hin as [<- | []]. split; [| reflexivity].
    apply andb_true_iff in Hrange. destruct Hrange as [Hlo Hhi].
    apply Z.leb_le in Hlo. apply Z.ltb_lt in Hhi. lia.
  - exfalso. destruct (Fetch.body res) as [b |]; [| destruct Hin].
    apply in_map_iff in Hin. destruct Hin as [chunk [<- _]]. discriminate Htype.
Qed.

Lemma posted_REQUEST_INTERCEPTED_CONFIG accessToken message messageId conversationId m :
  In m (posted accessToken message messageId conversationId) ->
  get m "type" = VStr "REQUEST_INTERCEPTED_CONFIG" ->
  m = Sandbox.intercepted (request_config accessToken message messageId conversationId).
Proof.
  unfold Sandbox.posted. intros [<- | Hin] Htype; [reflexivity |].
  exfalso.
  destruct (originalFetch _ _) as [| res]; [destruct Hin |].
  unfold Sandbox.answered in Hin.
  destruct ((400 <=? Fetch.status res) && (Fetch.status res <? 600)).
  - destruct Hin as [<- | []]. discriminate Htype.
  - destruct (Fetch.body res) as [b |]; [| destruct Hin].
    apply in_map_iff in Hin. destruct Hin as [chunk [<- _]]. discriminate Htype.
Qed.

(** C3, within the range the script tests.  When the backend answers the
    prompt with a status from 400 to 599, [sendGptMessage] posts, after the
    intercepted request, exactly one [STREAM_ERROR] message, which holds the
    status and (under the key [message]) the status text, and it posts no
    [RAW_PARTIAL_RESPONSE] message. *)
Theorem error_status_posts_one_stream_error
    accessToken message messageId conversationId res :
  originalFetch PROMPT_ENDPOINT (request_config accessToken message messageId conversationId)
  = Fetch.Resolved res ->
  400 <= Fetch.status res < 600 ->
  let messages := trace (sendGptMessage accessToken message messageId conversationId) in
  messages
  = [ Sandbox.intercepted (request_config accessToken message messageId conversationId);
      VObj [ ("type", VStr "STREAM_ERROR");
             ("payload", VObj [ ("status", VNum (Fetch.status res));
                                ("message", VStr (Fetch.statusText res)) ]) ] ] /\
  Bridge.count "STREAM_ERROR" messages = 1%nat /\
  Bridge.count "RAW_PARTIAL_RESPONSE" messages = 0%nat.
Proof.
  intros Hfetch Hrange messages. subst messages.
  rewrite trace_sendGptMessage. unfold Sandbox.posted, Sandbox.answered.
  rewrite Hfetch.
  replace (400 <=? Fetch.status res) with true by (symmetry; apply Z.leb_le; lia).
  replace (Fetch.status res <? 600) with true by (symmetry; apply Z.ltb_lt; lia).
  repeat split.
Qed.

(** Every message posted is written in full by [JSON.stringify]. *)
Lemma posted_jsonable accessToken message messageId conversationId m :
  In m (posted accessToken message messageId conversationId) ->
  Json.jsonable m = true.
Proof.
  unfold Sandbox.posted. intros [<- | Hin]; [reflexivity |].
  destruct (originalFetch _ _) as [| res]; [destruct Hin |].
  unfold Sandbox.answered in Hin.
  destruct ((400 <=? Fetch.status res) && (Fetch.status res <? 600)).
  - destruct Hin as [<- | []]. reflexivity.
  - destruct (Fetch.body res) as [b |]; [| destruct Hin].
    apply in_map_iff in Hin. destruct Hin as [chunk [<- _]]. reflexivity.
Qed.

(** So the JSON instance delivers every message of [sendGptMessage] to the
    host as it was posted. *)
Lemma posted_is_delivered accessToken message messageId conversationId m :
  In m (trace (sendGptMessage accessToken message messageId conversationId)) ->
  Json.parse (Json.stringify m) = Some m.
Proof.
  rewrite trace_sendGptMessage. intros Hin.
  apply parse_stringify. exact (posted_jsonable _ _ _ _ _ Hin).
Qed.

End SandboxFacts.

(** A 404 answer. *)
Lemma error_status_witness :
  Bridge.count "STREAM_ERROR"
    (Eff.trace (Sandbox.sendGptMessage Sample.HOST_URL Sample.CHAT_PAGE Sample.PROMPT_ENDPOINT
                  Json.stringify Sample.decode (Sample.backend (Sample.answer 404 "Not Found"))
                  "token" "Hello" "m" "c")) = 1%nat.
Proof.
  apply (error_status_posts_one_stream_error
           Sample.HOST_URL Sample.CHAT_PAGE Sample.PROMPT_ENDPOINT
           Json.stringify Sample.decode (Sample.backend (Sample.answer 404 "Not Found"))
           "token" "Hello" "m" "c" (Sample.answer 404 "Not Found") eq_refl).
  cbn. lia.
Defined.

(** C3, as the specification states it, fails above 599: an answer of status
    600 is read as a stream, its chunk is posted as a [RAW_PARTIAL_RESPONSE]
    message and no [STREAM_ERROR] message is. *)
Lemma status_600_is_streamed :
  Fetch.status Sample.streamed_600 >= 400 /\
  Bridge.count "STREAM_ERROR" Sample.posted_600 = 0%nat /\
  Bridge.count "RAW_PARTIAL_RESPONSE" Sample.posted_600 = 1%nat /\
  In (VObj [("type", VStr "RAW_PARTIAL_RESPONSE"); ("payload", VStr "data: x")])
     Sample.posted_600.
Proof.
  split; [cbn; lia |].
  split; [vm_compute; reflexivity |].
  split; [vm_compute; reflexivity |].
  right. left. vm_compute. reflexivity.
Qed.

(** ** The component *)

Section ComponentFacts.
Import Eff.

Variable JSON_parse : string -> option value.
Variable parseStreamBasedResponse : value -> exn + option ChatGpt3Response.t.
Variable raises : Call -> option exn.
Variable CHAT_PAGE : string.
Variable batched : bool.

Local Abbreviation onMessage :=
  (Router.onMessage JSON_parse parseStreamBasedResponse raises).
Local Abbreviation calls := (Router.calls parseStreamBasedResponse).
Local Abbreviation step :=
  (Component.step JSON_parse parseStreamBasedResponse raises CHAT_PAGE batched).
Local Abbreviation run :=
  (Component.run JSON_parse parseStreamBasedResponse raises CHAT_PAGE batched).

Lemma step_Message s data :
  step s (Message data)
  = Component.perform_all s (calls (Component.props s) (JSON_parse data)).
Proof. cbn [Component.step]. unfold Component.onMessage. rewrite trace_onMessage. reflexivity. Qed.

Lemma strict_eq_VStr tok held : strict_eq (VStr tok) held = true <-> held = VStr tok.
Proof.
  split.
  - destruct held; cbn; try discriminate. intros H. apply String.eqb_eq in H. congruence.
  - intros ->. cbn. apply String.eqb_refl.
Qed.

Lemma headers_payload payload hs :
  get payload "headers" = VObj hs -> nullish payload = false.
Proof. destruct payload; cbn; intros H; try discriminate; reflexivity. Qed.

(** An intercepted request without the key [Authorization] calls nothing. *)
Lemma token_calls_lacks p v :
  Bridge.lacks v "Authorization" -> Router.token_calls p (get v "payload") = [].
Proof.
  intros [hs [Hheaders Hnone]]. unfold Router.token_calls.
  rewrite (headers_payload _ _ Hheaders), Hheaders. cbn. rewrite Hnone. reflexivity.
Qed.

(** An intercepted request with a token under [Authorization] calls back
    unless the token is the one held. *)
Lemma token_calls_carries p v tok :
  Bridge.carries v "Authorization" (VStr tok) ->
  tok <> EmptyString ->
  Router.token_calls p (get v "payload")
  = if strict_eq (VStr tok) (accessToken p) then [] else [onAccessTokenChange (VStr tok)].
Proof.
  intros [_ [hs [Hheaders Hsome]]] Hne. unfold Router.token_calls.
  rewrite (headers_payload _ _ Hheaders), Hheaders.
  cbn [truthy has_property get_opt nullish get]. rewrite Hsome.
  cbn [truthy]. apply String.eqb_neq in Hne. rewrite Hne.
  cbn [negb andb]. destruct (strict_eq (VStr tok) (accessToken p)); reflexivity.
Qed.

Lemma step_observation s data v tok :
  JSON_parse data = Some v ->
  Bridge.carries v "Authorization" (VStr tok) ->
  tok <> EmptyString ->
  step s (Message data)
  = if strict_eq (VStr tok) (accessToken (Component.props s))
    then (s, [])
    else (Component.with_accessToken (VStr tok) s, [call (onAccessTokenChange (VStr tok))]).
Proof.
  intros Hparse Hcarries Hne. rewrite step_Message, Hparse.
  rewrite (calls_typed _ _ _ _ (proj1 Hcarries)). cbn [String.eqb Ascii.eqb Bool.eqb].
  rewrite (token_calls_carries _ _ _ Hcarries Hne).
  destruct (strict_eq _ _); reflexivity.
Qed.

Lemma token_change_is_a_change p payload v :
  In (onAccessTokenChange v) (Router.token_calls p payload) ->
  truthy v = true /\ strict_eq v (accessToken p) = false.
Proof.
  unfold Router.token_calls.
  destruct (nullish payload); [not_among |].
  destruct (truthy (get payload "headers")); [| not_among].
  destruct (has_property _ _) as [[|]|]; try not_among.
  destruct (truthy _ && negb _) eqn:H; [| not_among].
  intros [Heq | []]. injection Heq as <-.
  apply andb_true_iff in H. destruct H as [Ht Hs].
  split; [exact Ht |]. apply negb_true_iff. exact Hs.
Qed.

Lemma token_change_only_on_change p data v :
  In (onAccessTokenChange v) (trace (onMessage p data)) ->
  truthy v = true /\ strict_eq v (accessToken p) = false.
Proof.
  rewrite trace_onMessage. unfold Router.calls.
  destruct (JSON_parse data) as [m |]; [| not_among].
  destruct (nullish m); [not_among |].
  destruct (get m "type") as [| | b | n | tag | l | l]; try not_among.
  destruct (String.eqb tag "REQUEST_INTERCEPTED_CONFIG"); [apply token_change_is_a_change |].
  destruct (String.eqb tag "RAW_PARTIAL_RESPONSE").
  { unfold Router.partial_calls.
    destruct (parseStreamBasedResponse _) as [e | [r |]]; not_among. }
  destruct (String.eqb tag "GPT3_FULL_CAPACITY").
  { destruct (Status_eqb _ _); not_among. }
  destruct (String.eqb tag "STREAM_ERROR"); [destruct (Router.stream_error _) |]; not_among.
Qed.

(** *** Credential capture *)

Lemma run_cons s e es :
  run s (e :: es)
  = let '(s1, a1) := step s e in
    let '(s2, a2) := run s1 es in
    (s2, (map (fun a => (status (Component.props s1), a)) a1 ++ a2)%list).
Proof. reflexivity. Qed.

(** C5, as the code has it.  The callback is invoked only with a value that
    is truthy and differs from the token held.  So when the non-empty tokens
    A, A again and B (other than A) are observed and A is not the token held
    at first, the callback is invoked twice: for the first A and for B, not
    for the repeated A.  When A is the token held at first, it is invoked
    once, for B. *)
Theorem token_change_callback :
  (forall p data v,
      In (onAccessTokenChange v) (trace (onMessage p data)) ->
      truthy v = true /\ strict_eq v (accessToken p) = false) /\
  (forall s A B dA dB vA vB,
      JSON_parse dA = Some vA -> Bridge.carries vA "Authorization" (VStr A) ->
      JSON_parse dB = Some vB -> Bridge.carries vB "Authorization" (VStr B) ->
      A <> EmptyString -> B <> EmptyString -> A <> B ->
      let st := status (Component.props s) in
      (accessToken (Component.props s) <> VStr A ->
       snd (run s [Message dA; Message dA; Message dB])
       = [ (st, call (onAccessTokenChange (VStr A)));
           (st, call (onAccessTokenChange (VStr B))) ]) /\
      (accessToken (Component.props s) = VStr A ->
       snd (run s [Message dA; Message dA; Message dB])
       = [ (st, call (onAccessTokenChange (VStr B))) ])).
Proof.
  split; [exact token_change_only_on_change |].
  intros s A B dA dB vA vB HdA HvA HdB HvB HA HB HAB st.
  assert (Hsame : forall s', accessToken (Component.props s') = VStr A ->
                             step s' (Message dA) = (s', [])).
  { intros s' Hheld. rewrite (step_observation s' dA vA A HdA HvA HA), Hheld.
    cbn. rewrite String.eqb_refl. reflexivity. }
  assert (Hnext : forall s', accessToken (Component.props s') = VStr A ->
                             step s' (Message dB)
                             = (Component.with_accessToken (VStr B) s',
                                [call (onAccessTokenChange (VStr B))])).
  { intros s' Hheld. rewrite (step_observation s' dB vB B HdB HvB HB), Hheld.
    cbn. apply not_eq_sym in HAB. apply String.eqb_neq in HAB. rewrite HAB. reflexivity. }
  split; intros Hheld.
  - assert (Hfirst : step s (Message dA)
                     = (Component.with_accessToken (VStr A) s,
                        [call (onAccessTokenChange (VStr A))])).
    { rewrite (step_observation s dA vA A HdA HvA HA).
      destruct (strict_eq (VStr A) (accessToken (Component.props s))) eqn:Heq;
        [| reflexivity].
      apply strict_eq_VStr in Heq. contradiction. }
    rewrite run_cons, Hfirst, run_cons.
    rewrite (Hsame (Component.with_accessToken (VStr A) s) eq_refl), run_cons.
    rewrite (Hnext (Component.with_accessToken (VStr A) s) eq_refl).
    reflexivity.
  - rewrite run_cons, (Hsame _ Hheld), run_cons, (Hsame _ Hheld), run_cons, (Hnext _ Hheld).
    reflexivity.
Qed.

(** *** Partial responses *)

(** Handing a response over changes nothing in the component. *)
Lemma perform_partial_calls s payload :
  Component.perform_all s (Router.partial_calls parseStreamBasedResponse payload)
  = (s, map call (Router.partial_calls parseStreamBasedResponse payload)).
Proof.
  unfold Router.partial_calls.
  destruct (parseStreamBasedResponse payload) as [e | [r |]]; reflexivity.
Qed.

(** C1, as the code has it.  For a sequence of [RAW_PARTIAL_RESPONSE]
    messages, the router gives each chunk, alone, to the stream parser and
    hands over what the parser makes of it; nothing of a chunk is kept: the
    state after the messages is the state before them. *)
Theorem partial_response_is_parsed_alone s (messages : list (string * string)) :
  Forall (fun m => JSON_parse (fst m) = Some (Bridge.partial (snd m))) messages ->
  run s (map (fun m => Message (fst m)) messages)
  = (s,
     map (fun c => (status (Component.props s), call c))
       (flat_map (fun m => Router.partial_calls parseStreamBasedResponse (VStr (snd m)))
          messages)).
Proof.
  induction 1 as [| [data text] rest Hparse _ IH]; [reflexivity |].
  cbn [map flat_map fst snd] in *. rewrite run_cons, step_Message, Hparse.
  assert (Hcalls : calls (Component.props s) (Some (Bridge.partial text))
                   = Router.partial_calls parseStreamBasedResponse (VStr text))
    by reflexivity.
  rewrite Hcalls, perform_partial_calls, IH, map_app, map_map. reflexivity.
Qed.

(** *** Visibility *)

Lemma nth_error_last {A} (l : list A) (x : A) :
  nth_error (l ++ [x]) (List.length l) = Some x.
Proof. induction l as [| y l IH]; [reflexivity | exact IH]. Qed.

Lemma last_cons {A} (x : A) (l : list A) (d d' : A) : last (x :: l) d = last (x :: l) d'.
Proof. revert x. induction l as [| y l IH]; intros x; [reflexivity | exact (IH y)]. Qed.

(** What the end callbacks of interrupted animations change: the status,
    which ends as the last of them sets it. *)
Lemma interrupt_facts modes s :
  let s' := fst (Component.interrupt modes s) in
  status (Component.props s') = last (map Component.final modes) (status (Component.props s)) /\
  accessToken (Component.props s') = accessToken (Component.props s) /\
  Component.webview s' = Component.webview s /\
  Component.animations s' = Component.animations s /\
  Component.timers s' = Component.timers s /\
  (Component.webview s = false -> snd (Component.interrupt modes s) = []) /\
  Forall (eq checkIfChatGPTIsAtFullCapacity) (snd (Component.interrupt modes s)).
Proof.
  revert s. induction modes as [| mode rest IH]; intros s;
    [cbn; repeat split; constructor |].
  cbn [Component.interrupt Component.onAnimationEnd Component.setStatus].
  specialize (IH (Component.with_status (Component.final mode) s)).
  destruct (Component.interrupt rest _) as [s2 a2]. cbn [fst snd] in *.
  destruct IH as [Hst [Htok [Hweb [Han [Htim [Hacts Hprobes]]]]]].
  rewrite Hst, Htok, Hweb, Han, Htim.
  repeat split.
  - destruct rest as [| m rest]; [reflexivity |]. cbn [map].
    etransitivity; [| apply last_cons]. reflexivity.
  - intros Hoff. rewrite (Hacts Hoff). unfold Component.on_webview. rewrite Hoff.
    destruct (_ && _); reflexivity.
  - apply Forall_app. split; [| exact Hprobes]. unfold Component.on_webview.
    destruct (_ && _); [destruct (Component.webview s) |]; repeat constructor.
Qed.

(** What [animateWebView] changes: the status, and the animations in
    progress, of which the new one is the only one left. *)
Lemma animateWebView_facts mode s :
  let s' := fst (Component.animateWebView batched mode s) in
  Component.animations s' = [mode] /\
  status (Component.props s')
  = last (map Component.final (Component.animations s)) animating /\
  accessToken (Component.props s') = accessToken (Component.props s) /\
  Component.webview s' = Component.webview s /\
  Component.timers s' = Component.timers s /\
  (Component.webview s = false -> snd (Component.animateWebView batched mode s) = []) /\
  Forall (eq checkIfChatGPTIsAtFullCapacity) (snd (Component.animateWebView batched mode s)).
Proof.
  unfold Component.animateWebView. destruct batched.
  - cbn. unfold Component.on_webview. repeat split.
    + intros Hoff. rewrite Hoff. destruct (_ && _); reflexivity.
    + destruct (_ && _); [destruct (Component.webview s) |]; repeat constructor.
  - cbn [Component.setStatus].
    pose proof (interrupt_facts (Component.animations s) (Component.with_status animating s))
      as H.
    destruct (Component.interrupt _ _) as [s2 a2]. cbn [fst snd] in *.
    destruct H as [Hst [Htok [Hweb [_ [Htim [Hacts Hprobes]]]]]].
    repeat split; assumption.
Qed.

(** C6, as the code has it.  [open] is not guarded by the state: from any
    state it starts a show transition, which is then the only one in
    progress and ends in [visible].  With no transition in progress, as in
    [hidden] and in [visible] at rest, the status becomes [animating] and
    nothing else happens.  With one in progress, starting the new one stops
    it and its end callback runs at once: the status becomes [visible] for
    an interrupted show and [hidden] for an interrupted hide, and the page
    is probed when the status becomes [visible] this way (when the updates
    are applied together: unless it was [visible] before). *)
Theorem open_starts_a_show_transition_from_any_state s :
  let opened := fst (step s Open) in
  Component.animations opened = [show] /\
  status (Component.props (fst (step opened (AnimationEnd 0)))) = visible /\
  (Component.animations s = [] ->
   status (Component.props opened) = animating /\ snd (step s Open) = []) /\
  (forall mode,
      Component.animations s = [mode] ->
      status (Component.props opened) = Component.final mode /\
      snd (step s Open)
      = if Status_eqb (Component.final mode) visible
           && negb (batched && Status_eqb (status (Component.props s)) visible)
        then Component.on_webview s checkIfChatGPTIsAtFullCapacity
        else []).
Proof.
  cbn [Component.step].
  pose proof (animateWebView_facts show s) as [Hanimations _].
  split; [exact Hanimations |].
  split; [cbn [Component.step]; rewrite Hanimations; reflexivity |].
  unfold Component.animateWebView. split.
  - intros ->. destruct batched; split; reflexivity.
  - intros mode Hmode. destruct s as [[token st] web anims timers].
    cbn in Hmode. subst anims.
    destruct batched, mode, st, web; split; reflexivity.
Qed.

(** *** The retry cycle *)

Lemma perform_all_timers s cs :
  ~ In reloadAndCheckCapacityAgain cs ->
  Component.timers (fst (Component.perform_all s cs)) = Component.timers s.
Proof.
  revert s. induction cs as [| c rest IH]; intros s Hnot; [reflexivity |].
  cbn [Component.perform_all].
  destruct (Component.perform s c) as [s1 a1] eqn:H1.
  destruct (Component.perform_all s1 rest) as [s2 a2] eqn:H2.
  cbn [fst].
  assert (Hrest : ~ In reloadAndCheckCapacityAgain rest) by (intros Hin; apply Hnot; right; exact Hin).
  specialize (IH s1 Hrest). rewrite H2 in IH. cbn [fst] in IH. rewrite IH.
  destruct c; cbn in H1; injection H1 as <- _; try reflexivity.
  exfalso. apply Hnot. left. reflexivity.
Qed.

(** Only a capacity notice received while [visible] starts a cycle. *)
Lemma cycle_needs_visible p parsed :
  In reloadAndCheckCapacityAgain (calls p parsed) -> status p = visible.
Proof.
  unfold Router.calls.
  destruct parsed as [m |]; [| not_among].
  destruct (nullish m); [not_among |].
  destruct (get m "type") as [| | b | n | tag | l | l]; try not_among.
  destruct (String.eqb tag "REQUEST_INTERCEPTED_CONFIG").
  { unfold Router.token_calls.
    destruct (nullish _); [not_among |].
    destruct (truthy _); [| not_among].
    destruct (has_property _ _) as [[|]|]; try not_among.
    destruct (truthy _ && negb _); not_among. }
  destruct (String.eqb tag "RAW_PARTIAL_RESPONSE").
  { unfold Router.partial_calls.
    destruct (parseStreamBasedResponse _) as [e | [r |]]; not_among. }
  destruct (String.eqb tag "GPT3_FULL_CAPACITY").
  { destruct (status p); cbn; intros Hin; try contradiction. reflexivity. }
  destruct (String.eqb tag "STREAM_ERROR"); [destruct (Router.stream_error _) |]; not_among.
Qed.

(** C7, as the code has it.  The visibility state gates the start of a
    retry cycle and nothing after it: a bridge message received while the
    status is not [visible] starts no cycle; an event other than a message
    or a timer, a change of visibility among them, leaves the cycles in
    progress as they are; and when a wait of a cycle in progress ends, its
    next step (the reload, then the probe) runs whatever the status is. *)
Theorem retry_cycle_is_gated_at_its_start_only :
  (forall s data,
      status (Component.props s) <> visible ->
      Component.timers (fst (step s (Message data))) = Component.timers s) /\
  (forall s e,
      Component.leaves_retry_alone e = true ->
      Component.timers (fst (step s e)) = Component.timers s) /\
  (forall s i,
      Component.webview s = true ->
      nth_error (Component.timers s) i = Some after_wait_2000 ->
      snd (step s (TimerElapsed i)) = [reload] /\
      Component.timers (fst (step s (TimerElapsed i)))
      = (Component.remove_nth i (Component.timers s) ++ [after_wait_3000])%list) /\
  (forall s i,
      Component.webview s = true ->
      nth_error (Component.timers s) i = Some after_wait_3000 ->
      snd (step s (TimerElapsed i)) = [checkIfChatGPTIsAtFullCapacity]).
Proof.
  split; [| split; [| split]].
  - intros s data Hstatus. rewrite step_Message. apply perform_all_timers.
    intros Hin. apply Hstatus. exact (cycle_needs_visible _ _ Hin).
  - intros s e He. destruct e; try discriminate He; cbn [Component.step].
    + apply animateWebView_facts.
    + apply animateWebView_facts.
    + destruct (String.prefix CHAT_PAGE url && loading); [| reflexivity].
      destruct (Status_eqb _ _); [apply animateWebView_facts | reflexivity].
    + reflexivity.
    + destruct (nth_error _ _) as [mode |]; reflexivity.
  - intros s i Hweb Hnth. cbn [Component.step]. rewrite Hnth.
    unfold Component.resume, Component.on_webview. cbn. rewrite Hweb. split; reflexivity.
  - intros s i Hweb Hnth. cbn [Component.step]. rewrite Hnth.
    unfold Component.resume, Component.on_webview. cbn. rewrite Hweb. reflexivity.
Qed.

End ComponentFacts.

(** The tokens "A", "A" and "B" observed by a component that holds none. *)
Lemma token_change_witness :
  snd (Sample.run Component.initial
         [ Sample.sent (Bridge.intercepted (VObj [("Authorization", VStr "A")]));
           Sample.sent (Bridge.intercepted (VObj [("Authorization", VStr "A")]));
           Sample.sent (Bridge.intercepted (VObj [("Authorization", VStr "B")])) ])
  = [ (hidden, call (onAccessTokenChange (VStr "A")));
      (hidden, call (onAccessTokenChange (VStr "B"))) ].
Proof.
  pose proof (token_change_callback Json.parse Sample.echo Sample.quiet Sample.CHAT_PAGE true)
    as [_ Hsequence].
  refine (proj1 (Hsequence Component.initial "A" "B" _ _
                   (Bridge.intercepted (VObj [("Authorization", VStr "A")]))
                   (Bridge.intercepted (VObj [("Authorization", VStr "B")]))
                   _ _ _ _ _ _ _) _).
  - vm_compute. reflexivity.
  - split; [reflexivity |]. eexists. split; reflexivity.
  - vm_compute. reflexivity.
  - split; [reflexivity |]. eexists. split; reflexivity.
  - discriminate.
  - discriminate.
  - discriminate.
  - cbn. discriminate.
Defined.

(** C5, as the specification states it, fails: with A not held at first,
    the callback is invoked twice for the observations A, A, B, the first
    time for the first A. *)
Lemma first_observation_invokes_the_callback :
  accessToken (Component.props Component.initial) <> VStr "A" /\
  List.length
    (snd (Sample.run Component.initial
            [ Sample.sent (Bridge.intercepted (VObj [("Authorization", VStr "A")]));
              Sample.sent (Bridge.intercepted (VObj [("Authorization", VStr "A")]));
              Sample.sent (Bridge.intercepted (VObj [("Authorization", VStr "B")])) ]))
  = 2%nat /\
  snd (Sample.run Component.initial
         [ Sample.sent (Bridge.intercepted (VObj [("Authorization", VStr "A")])) ])
  = [ (hidden, call (onAccessTokenChange (VStr "A"))) ].
Proof.
  split; [cbn; discriminate |].
  split; vm_compute; reflexivity.
Qed.

(** Two chunks, each a message of its own. *)
Lemma partial_response_witness :
  Sample.run Component.initial [Sample.sent (Bridge.partial "a"); Sample.sent (Bridge.partial "b")]
  = (Component.initial,
     [ (hidden, call (onPartialResponse (Sample.echoed "a")));
       (hidden, call (onPartialResponse (Sample.echoed "b"))) ]).
Proof.
  apply (partial_response_is_parsed_alone Json.parse Sample.echo Sample.quiet Sample.CHAT_PAGE true
           Component.initial
           [ (Json.stringify (Bridge.partial "a"), "a");
             (Json.stringify (Bridge.partial "b"), "b") ]).
  repeat constructor.
Defined.

(** C1, as the specification states it, fails: for the chunks "a" and "b"
    the accumulator of the specification parses "a" and then "ab", the
    router parses "a" and then "b"; and for a record that a chunk boundary
    cuts in two, the accumulator delivers the record once it is whole, the
    router parses each half alone and delivers nothing. *)
Lemma router_does_not_accumulate :
  (Spec.ingest_all Sample.echo EmptyString ["a"; "b"]
   = [onPartialResponse (Sample.echoed "a"); onPartialResponse (Sample.echoed "ab")] /\
   map snd (snd (Sample.run Component.initial
                   [Sample.sent (Bridge.partial "a"); Sample.sent (Bridge.partial "b")]))
   = [call (onPartialResponse (Sample.echoed "a"));
      call (onPartialResponse (Sample.echoed "b"))]) /\
  (Spec.ingest_all Sample.record EmptyString [Sample.first_chunk; Sample.second_chunk]
   = [onPartialResponse
        {| ChatGpt3Response.message := "Hello";
           ChatGpt3Response.messageId := "m";
           ChatGpt3Response.conversationId := "c";
           ChatGpt3Response.isDone := true |}] /\
   snd (Component.run Json.parse Sample.record Sample.quiet Sample.CHAT_PAGE true
          Component.initial
          [ Sample.sent (Bridge.partial Sample.first_chunk);
            Sample.sent (Bridge.partial Sample.second_chunk) ])
   = []).
Proof. repeat split; vm_compute; reflexivity. Qed.

(** C6, as the specification states it, fails: [open] in the state
    [visible] changes the status to [animating] and starts a transition. *)
Lemma open_while_visible_is_not_a_no_op :
  fst (Component.step Json.parse Sample.echo Sample.quiet Sample.CHAT_PAGE true
         (Sample.shown "token") Open)
  = {| Component.props := {| accessToken := VStr "token"; status := animating |};
       Component.webview := true;
       Component.animations := [show];
       Component.timers := [] |} /\
  fst (Component.step Json.parse Sample.echo Sample.quiet Sample.CHAT_PAGE true
         (Sample.shown "token") Open)
  <> Sample.shown "token".
Proof. split; [reflexivity | discriminate]. Qed.

(** A cycle suspended in its first wait, in a component that is hidden. *)
Lemma retry_cycle_witness :
  snd (Component.step Json.parse Sample.echo Sample.quiet Sample.CHAT_PAGE true
         (Component.with_timers [after_wait_2000] Component.initial) (TimerElapsed 0))
  = [reload].
Proof.
  pose proof (retry_cycle_is_gated_at_its_start_only
                Json.parse Sample.echo Sample.quiet Sample.CHAT_PAGE true)
    as [_ [_ [Hresume _]]].
  apply (Hresume (Component.with_timers [after_wait_2000] Component.initial) 0%nat);
    reflexivity.
Defined.

(** C7, as the specification states it, fails: a cycle started while
    [visible] reloads and probes the page after the component was closed and
    became [hidden]. *)
Lemma retry_cycle_outlives_visibility :
  Sample.run (Sample.shown "token")
    [ Sample.sent Bridge.capacity; PressClose; AnimationEnd 0; TimerElapsed 0; TimerElapsed 0 ]
  = ({| Component.props := {| accessToken := VStr "token"; status := hidden |};
        Component.webview := true;
        Component.animations := [];
        Component.timers := [] |},
     [ (hidden, reload); (hidden, checkIfChatGPTIsAtFullCapacity) ]).
Proof. vm_compute. reflexivity. Qed.

(** ** From the sandbox to the host *)

Section EndToEnd.
Import Eff.

Variables HOST_URL CHAT_PAGE PROMPT_ENDPOINT : string.
Variable JSON_stringify : value -> string.
Variable decode : list Byte.byte -> string.
Variable originalFetch : string -> value -> Fetch.Result.

Variable JSON_parse : string -> option value.
Variable parseStreamBasedResponse : value -> exn + option ChatGpt3Response.t.
Variable raises : Call -> option exn.
Variable batched : bool.

Local Abbreviation sendGptMessage :=
  (Sandbox.sendGptMessage HOST_URL CHAT_PAGE PROMPT_ENDPOINT JSON_stringify decode originalFetch).
Local Abbreviation request_config :=
  (Sandbox.request_config HOST_URL CHAT_PAGE JSON_stringify).
Local Abbreviation onMessage :=
  (Router.onMessage JSON_parse parseStreamBasedResponse raises).
Local Abbreviation step :=
  (Component.step JSON_parse parseStreamBasedResponse raises CHAT_PAGE batched).

(** C9.  A [STREAM_ERROR] message posted by [sendGptMessage] holds the
    status text of the response under the key [message] and has no
    [statusText]; when it reaches the router as it was posted, the error
    handed to the error callback has the message
    "ChatGPTResponseStreamError: " followed by the status, and the status as
    its [statusCode]: the status text is no part of it. *)
Theorem injected_stream_error_surfaces_the_status_only
    accessToken message messageId conversationId m p :
  In m (trace (sendGptMessage accessToken message messageId conversationId)) ->
  get m "type" = VStr "STREAM_ERROR" ->
  JSON_parse (JSON_stringify m) = Some m ->
  exists res,
    originalFetch PROMPT_ENDPOINT (request_config accessToken message messageId conversationId)
    = Fetch.Resolved res /\
    get (get m "payload") "message" = VStr (Fetch.statusText res) /\
    get (get m "payload") "statusText" = VUndefined /\
    trace (onMessage p (JSON_stringify m))
    = [onStreamError
         (ChatGPTError.make
            ("ChatGPTResponseStreamError: " ++ string_of_Z (Fetch.status res))
            (VNum (Fetch.status res)))].
Proof.
  intros Hin Htype Hbridge. rewrite trace_sendGptMessage in Hin.
  destruct (posted_STREAM_ERROR _ _ _ _ _ _ _ _ _ _ _ Hin Htype) as [res [Hfetch [_ ->]]].
  exists res. split; [exact Hfetch |].
  split; [reflexivity |]. split; [reflexivity |].
  apply (stream_error_surfaced _ _ _ _ _ _ _ Hbridge Htype). reflexivity.
Qed.

(** C10.  An intercepted request whose headers hold the token under the
    key [authorization] and have no key [Authorization] makes the handler
    call nothing and leaves the component, the token it holds included, as
    it was.  The request that [sendGptMessage] itself issues is such a
    request. *)
Theorem lowercase_authorization_is_not_captured :
  (forall s data v token,
      JSON_parse data = Some v ->
      Bridge.carries v "authorization" token ->
      Bridge.lacks v "Authorization" ->
      trace (onMessage (Component.props s) data) = [] /\
      step s (Message data) = (s, [])) /\
  (forall s accessToken message messageId conversationId m,
      In m (trace (sendGptMessage accessToken message messageId conversationId)) ->
      get m "type" = VStr "REQUEST_INTERCEPTED_CONFIG" ->
      JSON_parse (JSON_stringify m) = Some m ->
      Bridge.carries m "authorization" (VStr accessToken) /\
      trace (onMessage (Component.props s) (JSON_stringify m)) = [] /\
      step s (Message (JSON_stringify m)) = (s, [])).
Proof.
  assert (Hignored : forall s data v,
             JSON_parse data = Some v ->
             get v "type" = VStr "REQUEST_INTERCEPTED_CONFIG" ->
             Bridge.lacks v "Authorization" ->
             trace (onMessage (Component.props s) data) = [] /\
             step s (Message data) = (s, [])).
  { intros s data v Hparse Htype Hlacks.
    assert (Hcalls : Router.calls parseStreamBasedResponse (Component.props s) (Some v) = []).
    { rewrite (calls_typed _ _ _ _ Htype). cbn [String.eqb Ascii.eqb Bool.eqb].
      apply token_calls_lacks. exact Hlacks. }
    split.
    - rewrite trace_onMessage, Hparse. exact Hcalls.
    - rewrite step_Message, Hparse, Hcalls. reflexivity. }
  split.
  - intros s data v token Hparse [Htype _] Hlacks. exact (Hignored s data v Hparse Htype Hlacks).
  - intros s accessToken message messageId conversationId m Hin Htype Hbridge.
    rewrite trace_sendGptMessage in Hin.
    pose proof (posted_REQUEST_INTERCEPTED_CONFIG _ _ _ _ _ _ _ _ _ _ _ Hin Htype) as ->.
    split.
    + split; [reflexivity |]. eexists. split; reflexivity.
    + apply (Hignored s _ _ Hbridge Htype). eexists. split; reflexivity.
Qed.

End EndToEnd.

(** A 403 answer with the status text "Forbidden", from the sandbox to the
    error callback. *)
Lemma injected_stream_error_witness :
  exists res,
    Sample.backend (Sample.answer 403 "Forbidden") Sample.PROMPT_ENDPOINT
      (Sandbox.request_config Sample.HOST_URL Sample.CHAT_PAGE Json.stringify
         "token" "Hello" "m" "c")
    = Fetch.Resolved res /\
    get (get (Sandbox.STREAM_ERROR (Sample.answer 403 "Forbidden")) "payload") "message"
    = VStr (Fetch.statusText res) /\
    get (get (Sandbox.STREAM_ERROR (Sample.answer 403 "Forbidden")) "payload") "statusText"
    = VUndefined /\
    Eff.trace (Router.onMessage Json.parse Sample.echo Sample.quiet
                 {| accessToken := VStr "token"; status := hidden |}
                 (Json.stringify (Sandbox.STREAM_ERROR (Sample.answer 403 "Forbidden"))))
    = [onStreamError
         (ChatGPTError.make
            ("ChatGPTResponseStreamError: " ++ string_of_Z (Fetch.status res))
            (VNum (Fetch.status res)))].
Proof.
  apply (injected_stream_error_surfaces_the_status_only
           Sample.HOST_URL Sample.CHAT_PAGE Sample.PROMPT_ENDPOINT Json.stringify
           Sample.decode (Sample.backend (Sample.answer 403 "Forbidden"))
           Json.parse Sample.echo Sample.quiet "token" "Hello" "m" "c").
  - vm_compute. right. left. reflexivity.
  - reflexivity.
  - vm_compute. reflexivity.
Defined.

(** The request of [sendGptMessage], intercepted, in a component that holds
    no token. *)
Lemma lowercase_authorization_witness :
  Component.step Json.parse Sample.echo Sample.quiet Sample.CHAT_PAGE true
    Component.initial
    (Message (Json.stringify
                (Sandbox.intercepted
                   (Sandbox.request_config Sample.HOST_URL Sample.CHAT_PAGE Json.stringify
                      "token" "Hello" "m" "c"))))
  = (Component.initial, []).
Proof.
  pose proof (lowercase_authorization_is_not_captured
                Sample.HOST_URL Sample.CHAT_PAGE Sample.PROMPT_ENDPOINT Json.stringify
                Sample.decode (Sample.backend (Sample.answer 403 "Forbidden"))
                Json.parse Sample.echo Sample.quiet true) as [_ Hown].
  apply (Hown Component.initial "token" "Hello" "m" "c").
  - vm_compute. left. reflexivity.
  - reflexivity.
  - vm_compute. reflexivity.
Defined.

(** * More properties of the router *)

Section RouterMore.
Import Eff.

Variable JSON_parse : string -> option value.
Variable parseStreamBasedResponse : value -> exn + option ChatGpt3Response.t.
Variable raises : Call -> option exn.

Local Abbreviation onMessage :=
  (Router.onMessage JSON_parse parseStreamBasedResponse raises).
Local Abbreviation calls := (Router.calls parseStreamBasedResponse).

Lemma token_calls_short p payload : (List.length (Router.token_calls p payload) <= 1)%nat.
Proof.
  unfold Router.token_calls.
  destruct (nullish payload); [cbn; lia |].
  destruct (truthy _); [| cbn; lia].
  destruct (has_property _ _) as [[|]|]; try (cbn; lia).
  destruct (truthy _ && negb _); cbn; lia.
Qed.

Lemma token_calls_kind p payload c :
  In c (Router.token_calls p payload) -> Dispatch.tag_of c = "REQUEST_INTERCEPTED_CONFIG".
Proof.
  unfold Router.token_calls.
  destruct (nullish payload); [intros [] |].
  destruct (truthy _); [| intros []].
  destruct (has_property _ _) as [[|]|]; try (intros Hin; contradiction Hin).
  destruct (truthy _ && negb _); [| intros []].
  intros [<- | []]. reflexivity.
Qed.

Lemma partial_calls_short payload :
  (List.length (Router.partial_calls parseStreamBasedResponse payload) <= 1)%nat.
Proof.
  unfold Router.partial_calls.
  destruct (parseStreamBasedResponse payload) as [e | [r |]]; cbn; lia.
Qed.

Lemma partial_calls_kind payload c :
  In c (Router.partial_calls parseStreamBasedResponse payload) ->
  Dispatch.tag_of c = "RAW_PARTIAL_RESPONSE".
Proof.
  unfold Router.partial_calls.
  destruct (parseStreamBasedResponse payload) as [e | [r |]];
    try (intros Hin; contradiction Hin).
  intros [<- | []]. reflexivity.
Qed.

(** X1.  A bridge message makes [onMessage] call at most one function, and
    the function called is the one of the branch that the type of the
    message selects: a call is made only for a message that parses to an
    object whose [type] is the string of that branch.  A message of any
    other type, or without a string [type], calls nothing. *)
Theorem dispatch_is_exclusive p data :
  (List.length (trace (onMessage p data)) <= 1)%nat /\
  (forall c, In c (trace (onMessage p data)) ->
             exists m, JSON_parse data = Some m /\ get m "type" = VStr (Dispatch.tag_of c)) /\
  (forall m, JSON_parse data = Some m ->
             (forall tag, get m "type" = VStr tag -> Dispatch.recognized tag = false) ->
             trace (onMessage p data) = []).
Proof.
  rewrite trace_onMessage. unfold Router.calls.
  destruct (JSON_parse data) as [m |].
  2: { split; [cbn; lia |]. split; [intros c [] | intros m H; discriminate H]. }
  destruct (nullish m) eqn:Hnull.
  { split; [cbn; lia |]. split; [intros c [] | reflexivity]. }
  destruct (get m "type") as [| | b | n | tag | l | l] eqn:Htype;
    try (split; [cbn; lia |]; split; [intros c [] | reflexivity]).
  destruct (String.eqb_spec tag "REQUEST_INTERCEPTED_CONFIG") as [-> | Hreq].
  { split; [apply token_calls_short |]. split.
    - intros c Hin. exists m. split; [reflexivity |].
      rewrite Htype, (token_calls_kind _ _ _ Hin). reflexivity.
    - intros m' Hm' Hun. injection Hm' as <-. specialize (Hun _ Htype). discriminate Hun. }
  destruct (String.eqb_spec tag "RAW_PARTIAL_RESPONSE") as [-> | Hraw].
  { split; [apply partial_calls_short |]. split.
    - intros c Hin. exists m. split; [reflexivity |].
      rewrite Htype, (partial_calls_kind _ _ Hin). reflexivity.
    - intros m' Hm' Hun. injection Hm' as <-. specialize (Hun _ Htype). discriminate Hun. }
  destruct (String.eqb_spec tag "GPT3_FULL_CAPACITY") as [-> | Hcap].
  { split; [destruct (Status_eqb _ _); cbn; lia |]. split.
    - intros c Hin. exists m. split; [reflexivity |].
      rewrite Htype.
      destruct (Status_eqb _ _); [| destruct Hin]. destruct Hin as [<- | []]. reflexivity.
    - intros m' Hm' Hun. injection Hm' as <-. specialize (Hun _ Htype). discriminate Hun. }
  destruct (String.eqb_spec tag "STREAM_ERROR") as [-> | Herr].
  { destruct (Router.stream_error _) as [error |]; (split; [cbn; lia |]); split.
    - intros c [<- | []]. exists m. split; [reflexivity | exact Htype].
    - intros m' Hm' Hun. injection Hm' as <-. specialize (Hun _ Htype). discriminate Hun.
    - intros c [].
    - intros m' Hm' Hun. injection Hm' as <-. specialize (Hun _ Htype). discriminate Hun. }
  split; [cbn; lia |]. split; [intros c [] | reflexivity].
Qed.

(** X2.  A [STREAM_ERROR] message reaches the error callback once or not
    at all.  The value printed in the message of the error is the
    [statusText] of the payload when that is truthy and its [status]
    otherwise (both [undefined] for a missing or [null] payload).  When
    ToString gives a string for it, the callback is called once, with an
    error whose [statusCode] is the [status] and whose message is the status
    text, or "ChatGPTResponseStreamError: " followed by the status.  When
    ToString throws, as it does on an object with an own property
    [toString], the [catch] takes the TypeError and the callback is not
    called.  A number printed is taken to be a safe integer. *)
Theorem stream_error_is_surfaced_or_swallowed p data m :
  JSON_parse data = Some m ->
  get m "type" = VStr "STREAM_ERROR" ->
  let status := get_opt (get m "payload") "status" in
  let statusText := get_opt (get m "payload") "statusText" in
  let printed := if truthy statusText then statusText else status in
  (converts printed = true -> safe_numbers printed = true ->
   trace (onMessage p data)
   = [onStreamError
        (ChatGPTError.make
           (if truthy statusText then toString statusText
            else "ChatGPTResponseStreamError: " ++ toString status)
           status)]) /\
  (converts printed = false -> trace (onMessage p data) = []).
Proof.
  intros Hparse Htype status statusText printed.
  rewrite trace_onMessage, Hparse, (calls_typed _ _ _ _ Htype).
  cbn [String.eqb Ascii.eqb Bool.eqb].
  unfold Router.stream_error, ToString. fold status statusText.
  subst printed. destruct (truthy statusText).
  - split; [intros -> _ | intros ->]; reflexivity.
  - split; [intros -> _ | intros ->]; reflexivity.
Qed.

Lemma own_property k hs :
  has_property k (VObj hs) = Some true -> exists w, field k hs = Some w.
Proof.
  cbn. destruct (field k hs) as [w |]; [intros _; exists w; reflexivity | discriminate].
Qed.

Lemma token_calls_iff p payload v :
  In (onAccessTokenChange v) (Router.token_calls p payload) <->
  exists hs, get payload "headers" = VObj hs /\
             field "Authorization" hs = Some v /\
             truthy v = true /\
             strict_eq v (accessToken p) = false.
Proof.
  unfold Router.token_calls. split.
  - destruct (nullish payload); [intros [] |].
    destruct (truthy (get payload "headers")); [| intros []].
    destruct (get payload "headers") as [| | b | n | s | l | hs] eqn:Hheaders;
      try (intros []).
    destruct (has_property "Authorization" (VObj hs)) as [[|]|] eqn:Hhas; try (intros []).
    destruct (own_property _ _ Hhas) as [w Hw].
    cbn [get_opt nullish get]. rewrite Hw.
    destruct (truthy w && negb (strict_eq w (accessToken p))) eqn:Hcond; [| intros []].
    intros [Heq | []]. injection Heq as <-.
    apply andb_true_iff in Hcond. destruct Hcond as [Ht Hs].
    apply negb_true_iff in Hs. exists hs. auto.
  - intros [hs [Hheaders [Hfield [Ht Hs]]]].
    rewrite (headers_payload _ _ Hheaders), Hheaders.
    cbn [truthy has_property get_opt nullish get]. rewrite Hfield, Ht, Hs.
    left. reflexivity.
Qed.

(** X3.  Credential capture calls [onAccessTokenChange] with [v] exactly
    when the message is an intercepted request whose payload has an object
    [headers] with an own key [Authorization], and the value [v] under that
    key is truthy and is not the token held.  In every other case (no
    payload, no headers, headers that are not an object, no such key, an
    empty value, the token held) the callback is not called. *)
Theorem token_callback_iff p data v :
  In (onAccessTokenChange v) (trace (onMessage p data)) <->
  exists m, JSON_parse data = Some m /\ Dispatch.captures p m v.
Proof.
  rewrite trace_onMessage. unfold Dispatch.captures. split.
  - unfold Router.calls.
    destruct (JSON_parse data) as [m |]; [| intros []].
    destruct (nullish m); [intros [] |].
    destruct (get m "type") as [| | b | n | tag | l | l] eqn:Htype; try (intros []).
    destruct (String.eqb_spec tag "REQUEST_INTERCEPTED_CONFIG") as [-> | _].
    { intros Hin. exists m. split; [reflexivity |]. split; [exact Htype |].
      apply token_calls_iff. exact Hin. }
    destruct (String.eqb tag "RAW_PARTIAL_RESPONSE").
    { unfold Router.partial_calls.
      destruct (parseStreamBasedResponse _) as [e | [r |]]; not_among. }
    destruct (String.eqb tag "GPT3_FULL_CAPACITY").
    { destruct (Status_eqb _ _); not_among. }
    destruct (String.eqb tag "STREAM_ERROR"); [destruct (Router.stream_error _) |]; not_among.
  - intros [m [Hparse [Htype Hcaptures]]].
    rewrite Hparse, (calls_typed _ _ _ _ Htype). cbn [String.eqb Ascii.eqb Bool.eqb].
    apply token_calls_iff. exact Hcaptures.
Qed.

End RouterMore.

(** A status 502 with its status text, and a status that ToString throws
    on. *)
Lemma stream_error_is_surfaced_or_swallowed_witness :
  Eff.trace (Router.onMessage Json.parse Sample.echo Sample.quiet
               {| accessToken := VStr "token"; status := hidden |}
               (Json.stringify (Bridge.stream_error 502 "Bad Gateway")))
  = [onStreamError (ChatGPTError.make "Bad Gateway" (VNum 502))] /\
  Eff.trace (Router.onMessage Json.parse Sample.echo Sample.quiet
               {| accessToken := VStr "token"; status := hidden |}
               (Json.stringify Scenario.unprintable_error))
  = [].
Proof.
  split.
  - refine (proj1 (stream_error_is_surfaced_or_swallowed Json.parse Sample.echo Sample.quiet
                     {| accessToken := VStr "token"; status := hidden |}
                     (Json.stringify (Bridge.stream_error 502 "Bad Gateway"))
                     (Bridge.stream_error 502 "Bad Gateway") _ _) _ _).
    + vm_compute. reflexivity.
    + reflexivity.
    + reflexivity.
    + reflexivity.
  - refine (proj2 (stream_error_is_surfaced_or_swallowed Json.parse Sample.echo Sample.quiet
                     {| accessToken := VStr "token"; status := hidden |}
                     (Json.stringify Scenario.unprintable_error)
                     Scenario.unprintable_error _ _) _).
    + vm_compute. reflexivity.
    + reflexivity.
    + reflexivity.
Defined.

(** * More properties of the component *)

Section ComponentMore.
Import Eff.

Variable JSON_parse : string -> option value.
Variable parseStreamBasedResponse : value -> exn + option ChatGpt3Response.t.
Variable raises : Call -> option exn.
Variable CHAT_PAGE : string.
Variable batched : bool.

Local Abbreviation step :=
  (Component.step JSON_parse parseStreamBasedResponse raises CHAT_PAGE batched).
Local Abbreviation run :=
  (Component.run JSON_parse parseStreamBasedResponse raises CHAT_PAGE batched).

(** What the calls of a message leave alone, and what they change. *)
Lemma perform_all_facts s cs :
  let s' := fst (Component.perform_all s cs) in
  let acts := snd (Component.perform_all s cs) in
  status (Component.props s') = status (Component.props s) /\
  Component.animations s' = Component.animations s /\
  Component.webview s' = Component.webview s /\
  Forall (fun a => Invariant.is_call a = true) acts /\
  accessToken (Component.props s')
  = Invariant.last_token (accessToken (Component.props s)) acts.
Proof.
  revert s. induction cs as [| c rest IH]; intros s.
  - cbn. repeat split. constructor.
  - cbn [Component.perform_all].
    destruct (Component.perform s c) as [s1 a1] eqn:H1.
    specialize (IH s1).
    destruct (Component.perform_all s1 rest) as [s2 a2].
    cbn [fst snd] in *. destruct IH as [Hst [Han [Hweb [Hcalls Htok]]]].
    unfold Invariant.last_token in *. rewrite fold_left_app, Htok, Hst, Han, Hweb.
    destruct c; cbn in H1; injection H1 as <- <-; cbn;
      repeat split; try assumption; repeat constructor; assumption.
Qed.

Lemma probes_hold_the_token held acts :
  Forall (eq checkIfChatGPTIsAtFullCapacity) acts -> Invariant.last_token held acts = held.
Proof.
  unfold Invariant.last_token. induction 1 as [| a acts <- _ IH]; [reflexivity | exact IH].
Qed.

Lemma animateWebView_step_facts mode s :
  let s' := fst (Component.animateWebView batched mode s) in
  let acts := snd (Component.animateWebView batched mode s) in
  accessToken (Component.props s')
  = Invariant.last_token (accessToken (Component.props s)) acts /\
  Component.webview s' = Component.webview s /\
  (Component.webview s = false -> Forall (fun a => Invariant.is_call a = true) acts) /\
  (Invariant.animating_is_running s -> Invariant.animating_is_running s').
Proof.
  pose proof (animateWebView_facts batched mode s)
    as [Han [_ [Htok [Hweb [_ [Hoff Hprobes]]]]]].
  cbv zeta. repeat split.
  - rewrite (probes_hold_the_token _ _ Hprobes). exact Htok.
  - exact Hweb.
  - intros H. rewrite (Hoff H). constructor.
  - intros _ _. rewrite Han. discriminate.
Qed.

Lemma step_facts s e :
  let s' := fst (step s e) in
  let acts := snd (step s e) in
  accessToken (Component.props s')
  = Invariant.last_token (accessToken (Component.props s)) acts /\
  Component.webview s' = Component.webview s /\
  (Component.webview s = false -> Forall (fun a => Invariant.is_call a = true) acts) /\
  (Invariant.animating_is_running s -> Invariant.animating_is_running s').
Proof.
  unfold Invariant.animating_is_running.
  destruct e as [| | url loading | | data | i | i]; cbn [Component.step].
  - apply animateWebView_step_facts.
  - apply animateWebView_step_facts.
  - destruct (String.prefix CHAT_PAGE url && loading);
      [destruct (Status_eqb (status (Component.props s)) visible) |];
      [apply animateWebView_step_facts | |];
      cbn; repeat split; try constructor; tauto.
  - unfold Component.on_webview. destruct (Component.webview s) eqn:Hweb;
      cbn; repeat split; try constructor; try tauto; discriminate.
  - unfold Component.onMessage.
    pose proof (perform_all_facts s
                  (trace (Router.onMessage JSON_parse parseStreamBasedResponse raises
                            (Component.props s) data))) as H.
    cbv zeta in H. destruct H as [Hst [Han [Hweb [Hcalls Htok]]]].
    repeat split; try assumption.
    + intros _. exact Hcalls.
    + rewrite Hst, Han. tauto.
  - destruct (nth_error (Component.animations s) i) as [mode |]; [| cbn; repeat split; try constructor; tauto].
    unfold Component.onAnimationEnd, Component.setStatus, Component.on_webview.
    cbn [fst snd Component.with_animations Component.with_status Component.props
         Component.webview Component.animations status accessToken].
    destruct (Component.webview s) eqn:Hweb.
    + destruct mode; cbn; repeat split; try discriminate.
      destruct (Status_eqb _ _); reflexivity.
    + destruct mode; cbn; repeat split; try discriminate; try constructor.
      all: destruct (negb _); try constructor; reflexivity.
  - destruct (nth_error (Component.timers s) i) as [k |]; [| cbn; repeat split; try constructor; tauto].
    unfold Component.resume, Component.on_webview.
    destruct k; cbn [fst snd Component.with_timers Component.props Component.webview
                     Component.animations];
      destruct (Component.webview s) eqn:Hweb; cbn;
      repeat split; try discriminate; try constructor; tauto.
Qed.

Lemma run_step s e es :
  run s (e :: es)
  = (fst (run (fst (step s e)) es),
     (map (fun a => (status (Component.props (fst (step s e))), a)) (snd (step s e))
      ++ snd (run (fst (step s e)) es))%list).
Proof.
  cbn [Component.run]. destruct (step s e) as [s1 a1]. cbn [fst snd].
  destruct (run s1 es) as [s2 a2]. reflexivity.
Qed.

(** X4.  Whatever events the component goes through, the token the host
    holds at the end is the value of the last [onAccessTokenChange] call
    made on the way, and the token held at the start when no such call was
    made: nothing else writes the token. *)
Theorem held_token_is_the_last_notified s es :
  accessToken (Component.props (fst (run s es)))
  = Invariant.last_token (accessToken (Component.props s)) (map snd (snd (run s es))).
Proof.
  revert s. induction es as [| e es IH]; intros s; [reflexivity |].
  rewrite run_step. cbn [fst snd]. rewrite IH.
  rewrite map_app, map_map. cbn [snd]. rewrite map_id.
  unfold Invariant.last_token at 2. rewrite fold_left_app.
  pose proof (step_facts s e) as [Htok _]. rewrite Htok. reflexivity.
Qed.

(** X5.  The component does not rest in [animating]: in every state reached
    from one where this holds, the mounted component among them, a status
    [animating] comes with an animation whose end callback is still to
    run, and that callback sets the status to [visible] or [hidden]. *)
Theorem animating_always_has_a_running_animation s es :
  Invariant.animating_is_running s ->
  Invariant.animating_is_running (fst (run s es)).
Proof.
  revert s. induction es as [| e es IH]; intros s Hs; [exact Hs |].
  rewrite run_step. cbn [fst]. apply IH.
  pose proof (step_facts s e) as [_ [_ [_ Hinv]]]. exact (Hinv Hs).
Qed.

(** X6.  While [webviewRef.current] is not set, no event makes the
    component reload or probe the page: every action is a call of a
    callback prop. *)
Theorem no_webview_no_reload_no_probe s es :
  Component.webview s = false ->
  Forall (fun a => Invariant.is_call (snd a) = true) (snd (run s es)).
Proof.
  revert s. induction es as [| e es IH]; intros s Hweb; [constructor |].
  rewrite run_step. cbn [snd].
  pose proof (step_facts s e) as [_ [Hsame [Hcalls _]]].
  apply Forall_app. split.
  - apply Forall_map. exact (Hcalls Hweb).
  - apply IH. rewrite Hsame. exact Hweb.
Qed.

Lemma remove_nth_last {A} (l : list A) (x : A) :
  Component.remove_nth (List.length l) (l ++ [x]) = l.
Proof. induction l as [| y l IH]; cbn; [reflexivity | rewrite IH; reflexivity]. Qed.

(** X7.  A login round trip returns the component to where it was: from a
    state [hidden] with no animation in progress, [open], the end of the
    show animation, a navigation that starts loading a page of the chat and
    the end of the hide animation it starts lead back to the same state,
    and the only action on the way is the capacity probe made when the
    status became [visible]. *)
Theorem login_round_trip s url :
  status (Component.props s) = hidden ->
  Component.animations s = [] ->
  String.prefix CHAT_PAGE url = true ->
  run s [Open; AnimationEnd 0; NavigationStateChange url true; AnimationEnd 0]
  = (s, if Component.webview s then [(visible, checkIfChatGPTIsAtFullCapacity)] else []).
Proof.
  intros Hhidden Hrest Hprefix.
  destruct s as [[token st] web anims timers]. cbn in Hhidden, Hrest. subst st anims.
  destruct batched, web; cbn; rewrite Hprefix; reflexivity.
Qed.

(** X8.  Retry cycles are neither bounded nor merged: while the status is
    [visible], each capacity notice received starts a cycle of its own, so
    [n] notices leave [n] more cycles in progress, each of which will reload
    and probe the page. *)
Theorem capacity_notices_start_independent_cycles s data m n :
  JSON_parse data = Some m ->
  get m "type" = VStr "GPT3_FULL_CAPACITY" ->
  status (Component.props s) = visible ->
  run s (repeat (Message data) n)
  = (Component.with_timers (Component.timers s ++ repeat after_wait_2000 n) s, []).
Proof.
  intros Hparse Htype. revert s. induction n as [| n IH]; intros s Hvisible.
  - cbn. rewrite List.app_nil_r. destruct s; reflexivity.
  - cbn [repeat]. rewrite run_step.
    assert (Hstep : step s (Message data)
                    = (Component.with_timers (Component.timers s ++ [after_wait_2000]) s, [])).
    { rewrite step_Message, Hparse, (calls_typed _ _ _ _ Htype), Hvisible. reflexivity. }
    rewrite Hstep. cbn [fst snd map app]. rewrite IH by exact Hvisible.
    cbn [fst snd Component.with_timers Component.timers Component.props
         Component.webview Component.animations].
    rewrite <- List.app_assoc. reflexivity.
Qed.

End ComponentMore.

(** The mounted component, opened and, once shown, closed: the run ends
    while the hide animation is in progress. *)
Lemma animating_always_has_a_running_animation_witness :
  Invariant.animating_is_running
    (fst (Sample.run Component.initial [Open; AnimationEnd 0; PressClose])).
Proof.
  apply (animating_always_has_a_running_animation Json.parse Sample.echo Sample.quiet
           Sample.CHAT_PAGE true Component.initial [Open; AnimationEnd 0; PressClose]).
  intros H. discriminate H.
Defined.

Lemma no_webview_no_reload_no_probe_witness :
  Forall (fun a => Invariant.is_call (snd a) = true)
    (snd (Sample.run Scenario.unmounted
            [Open; AnimationEnd 0; Sample.sent Bridge.capacity; TimerElapsed 0;
             AppStateActive])).
Proof.
  apply (no_webview_no_reload_no_probe Json.parse Sample.echo Sample.quiet Sample.CHAT_PAGE true
           Scenario.unmounted).
  reflexivity.
Defined.

Lemma login_round_trip_witness :
  Sample.run Component.initial
    [Open; AnimationEnd 0; NavigationStateChange "https://chat.openai.com/chat/1" true;
     AnimationEnd 0]
  = (Component.initial, [(visible, checkIfChatGPTIsAtFullCapacity)]).
Proof.
  apply (login_round_trip Json.parse Sample.echo Sample.quiet Sample.CHAT_PAGE true
           Component.initial "https://chat.openai.com/chat/1").
  - reflexivity.
  - reflexivity.
  - reflexivity.
Defined.

Lemma capacity_notices_witness :
  Sample.run (Sample.shown "token")
    [Sample.sent Bridge.capacity; Sample.sent Bridge.capacity; Sample.sent Bridge.capacity]
  = (Component.with_timers [after_wait_2000; after_wait_2000; after_wait_2000]
       (Sample.shown "token"), []).
Proof.
  apply (capacity_notices_start_independent_cycles Json.parse Sample.echo Sample.quiet
           Sample.CHAT_PAGE true (Sample.shown "token") (Json.stringify Bridge.capacity)
           Bridge.capacity 3).
  - vm_compute. reflexivity.
  - reflexivity.
  - reflexivity.
Defined.

(** * More properties of the injected script *)

Section SandboxMore.
Import Eff.

Variables HOST_URL CHAT_PAGE PROMPT_ENDPOINT : string.
Variable JSON_stringify : value -> string.
Variable decode : list Byte.byte -> string.
Variable originalFetch : string -> value -> Fetch.Result.

Local Abbreviation sendGptMessage :=
  (Sandbox.sendGptMessage HOST_URL CHAT_PAGE PROMPT_ENDPOINT JSON_stringify decode originalFetch).
Local Abbreviation request_config :=
  (Sandbox.request_config HOST_URL CHAT_PAGE JSON_stringify).

(** X9.  No chunk is dropped: when the answer is not an error status, the
    script posts, after the intercepted request, one [RAW_PARTIAL_RESPONSE]
    message for each chunk read from the body, in the order of reading and
    with the decoded text of the chunk as payload; this holds too when the
    read after the last chunk fails. *)
Theorem every_chunk_is_forwarded_in_order
    accessToken message messageId conversationId res b :
  originalFetch PROMPT_ENDPOINT (request_config accessToken message messageId conversationId)
  = Fetch.Resolved res ->
  Fetch.status res < 400 \/ 600 <= Fetch.status res ->
  Fetch.body res = Some b ->
  trace (sendGptMessage accessToken message messageId conversationId)
  = Sandbox.intercepted (request_config accessToken message messageId conversationId)
    :: map (fun chunk => VObj [("type", VStr "RAW_PARTIAL_RESPONSE");
                               ("payload", VStr (decode chunk))])
         (Fetch.chunks b).
Proof.
  intros Hfetch Hstatus Hbody.
  rewrite trace_sendGptMessage. unfold Sandbox.posted, Sandbox.answered.
  rewrite Hfetch, Hbody.
  replace ((400 <=? Fetch.status res) && (Fetch.status res <? 600)) with false;
    [reflexivity |].
  symmetry. apply andb_false_iff.
  destruct Hstatus; [left; apply Z.leb_gt | right; apply Z.ltb_ge]; lia.
Qed.

(** X10.  [sendGptMessage] fails in silence.  It completes normally
    whatever the network does; when the request is rejected, or the answer
    has no body, it posts nothing after the intercepted request; and a
    [STREAM_ERROR] message is among the messages posted only when the
    backend answered with a status from 400 to 599: a failure of the
    network or of the read is never reported to the host. *)
Theorem sendGptMessage_fails_in_silence accessToken message messageId conversationId :
  let config := request_config accessToken message messageId conversationId in
  let messages := trace (sendGptMessage accessToken message messageId conversationId) in
  outcome (sendGptMessage accessToken message messageId conversationId) = inr tt /\
  (originalFetch PROMPT_ENDPOINT config = Fetch.Rejected ->
   messages = [Sandbox.intercepted config]) /\
  (forall res,
      originalFetch PROMPT_ENDPOINT config = Fetch.Resolved res ->
      Fetch.status res < 400 \/ 600 <= Fetch.status res ->
      Fetch.body res = None ->
      messages = [Sandbox.intercepted config]) /\
  (forall m,
      In m messages -> get m "type" = VStr "STREAM_ERROR" ->
      exists res, originalFetch PROMPT_ENDPOINT config = Fetch.Resolved res /\
                  400 <= Fetch.status res < 600).
Proof.
  cbv zeta. split; [apply try_catch_returns |].
  rewrite trace_sendGptMessage. unfold Sandbox.posted. split; [| split].
  - intros ->. reflexivity.
  - intros res -> Hstatus Hbody. unfold Sandbox.answered. rewrite Hbody.
    destruct ((400 <=? Fetch.status res) && (Fetch.status res <? 600)) eqn:Hrange;
      [| reflexivity].
    apply andb_true_iff in Hrange. destruct Hrange as [Hlo Hhi].
    apply Z.leb_le in Hlo. apply Z.ltb_lt in Hhi. lia.
  - intros m Hin Htype.
    destruct (posted_STREAM_ERROR HOST_URL CHAT_PAGE PROMPT_ENDPOINT JSON_stringify decode
                originalFetch _ _ _ _ m Hin Htype) as [res [Hfetch [Hrange _]]].
    exists res. split; assumption.
Qed.

End SandboxMore.

Lemma every_chunk_is_forwarded_in_order_witness :
  Eff.trace (Sandbox.sendGptMessage Sample.HOST_URL Sample.CHAT_PAGE Sample.PROMPT_ENDPOINT
               Json.stringify Sample.decode (Sample.backend Scenario.streamed_200)
               "token" "Hello" "m" "c")
  = [ Sandbox.intercepted
        (Sandbox.request_config Sample.HOST_URL Sample.CHAT_PAGE Json.stringify
           "token" "Hello" "m" "c");
      Bridge.partial "data: a";
      Bridge.partial "data: b" ].
Proof.
  apply (every_chunk_is_forwarded_in_order
           Sample.HOST_URL Sample.CHAT_PAGE Sample.PROMPT_ENDPOINT
           Json.stringify Sample.decode (Sample.backend Scenario.streamed_200)
           "token" "Hello" "m" "c" Scenario.streamed_200
           {| Fetch.chunks := [list_byte_of_string "data: a"; list_byte_of_string "data: b"];
              Fetch.fails := false |}).
  - reflexivity.
  - left. cbn. lia.
  - reflexivity.
Defined.

(** * More properties of [postMessage] *)

Section ApiMore.

Variable PROMPT_ENDPOINT : string.
Variable JSON_stringify : value -> string.
Variable decode : list Byte.byte -> string.
Variable getChatGptConversationHeaders : string -> value.
Variable parseStreamedGptResponse : string -> exn + option ChatGpt3Response.t.
Variable fetch : string -> value -> Fetch.Result.

Local Abbreviation postMessage :=
  (Api.postMessage PROMPT_ENDPOINT JSON_stringify decode getChatGptConversationHeaders
     parseStreamedGptResponse fetch).
Local Abbreviation request_config :=
  (Api.request_config JSON_stringify getChatGptConversationHeaders).

(** X11.  For an answer of status 500 or more, whatever the status, 600
    and above included, [postMessage] throws a server error: its message is
    "ChatGPTResponseServerError: ", the status, a space and the status
    text, and its [statusCode] is the status.  The body is not read. *)
Theorem postMessage_server_errors accessToken message messageId conversationId res :
  fetch PROMPT_ENDPOINT (request_config accessToken message messageId conversationId)
  = Fetch.Resolved res ->
  500 <= Fetch.status res ->
  postMessage accessToken message messageId conversationId
  = inl (Thrown (ChatGPTError.make
                   ("ChatGPTResponseServerError: " ++ string_of_Z (Fetch.status res)
                    ++ " " ++ Fetch.statusText res)
                   (VNum (Fetch.status res)))).
Proof.
  intros Hfetch Hstatus. unfold Api.postMessage. rewrite Hfetch. cbv zeta.
  replace (Fetch.status res <? 500) with false by (symmetry; apply Z.ltb_ge; lia).
  rewrite andb_false_r.
  replace (500 <=? Fetch.status res) with true by (symmetry; apply Z.leb_le; lia).
  reflexivity.
Qed.

(** X12.  [postMessage] returns a response in one case only: the request
    was answered, with a status below 400, the whole body could be read,
    and the stream parser made a response of its text; the response
    returned is that one.  In every other case it throws. *)
Theorem postMessage_returns_iff accessToken message messageId conversationId r :
  postMessage accessToken message messageId conversationId = inr r <->
  exists res rawText,
    fetch PROMPT_ENDPOINT (request_config accessToken message messageId conversationId)
    = Fetch.Resolved res /\
    Fetch.status res < 400 /\
    Fetch.text decode res = inr rawText /\
    parseStreamedGptResponse rawText = inr (Some r).
Proof.
  unfold Api.postMessage. split.
  - destruct (fetch _ _) as [| res]; [discriminate |]. cbv zeta.
    destruct ((400 <=? Fetch.status res) && (Fetch.status res <? 500)) eqn:Hclient;
      [discriminate |].
    destruct (500 <=? Fetch.status res) eqn:Hserver; [discriminate |].
    destruct (Fetch.text decode res) as [e | rawText] eqn:Htext; [discriminate |].
    destruct (parseStreamedGptResponse rawText) as [e | [r' |]] eqn:Hparse;
      try discriminate.
    intros Heq. injection Heq as <-.
    exists res, rawText. split; [reflexivity |]. split; [| split; assumption].
    apply Z.leb_gt in Hserver. apply andb_false_iff in Hclient.
    destruct Hclient as [H | H]; [apply Z.leb_gt in H | apply Z.ltb_ge in H]; lia.
  - intros [res [rawText [-> [Hstatus [-> ->]]]]]. cbv zeta.
    replace (400 <=? Fetch.status res) with false by (symmetry; apply Z.leb_gt; lia).
    replace (500 <=? Fetch.status res) with false by (symmetry; apply Z.leb_gt; lia).
    reflexivity.
Qed.

End ApiMore.

Lemma postMessage_server_errors_witness :
  Api.postMessage Sample.PROMPT_ENDPOINT Json.stringify Sample.decode Sample.headers
    Sample.blind (Sample.backend (Sample.answer 503 "Service Unavailable"))
    "token" "Hello" "m" "c"
  = inl (Thrown (ChatGPTError.make "ChatGPTResponseServerError: 503 Service Unavailable"
                   (VNum 503))) /\
  Api.postMessage Sample.PROMPT_ENDPOINT Json.stringify Sample.decode Sample.headers
    Sample.blind (Sample.backend Sample.streamed_600) "token" "Hello" "m" "c"
  = inl (Thrown (ChatGPTError.make "ChatGPTResponseServerError: 600 Unavailable" (VNum 600))).
Proof.
  split.
  - apply (postMessage_server_errors Sample.PROMPT_ENDPOINT Json.stringify Sample.decode
             Sample.headers Sample.blind
             (Sample.backend (Sample.answer 503 "Service Unavailable"))
             "token" "Hello" "m" "c" (Sample.answer 503 "Service Unavailable") eq_refl).
    cbn. lia.
  - apply (postMessage_server_errors Sample.PROMPT_ENDPOINT Json.stringify Sample.decode
             Sample.headers Sample.blind (Sample.backend Sample.streamed_600)
             "token" "Hello" "m" "c" Sample.streamed_600 eq_refl).
    cbn. lia.
Defined.

(** * From the backend's answer to the host's callbacks *)

Section PipelineFacts.
Import Eff.

Variables HOST_URL CHAT_PAGE PROMPT_ENDPOINT : string.
Variable JSON_stringify : value -> string.
Variable decode : list Byte.byte -> string.
Variable originalFetch : string -> value -> Fetch.Result.

Variable JSON_parse : string -> option value.
Variable parseStreamBasedResponse : value -> exn + option ChatGpt3Response.t.
Variable raises : Call -> option exn.
Variable batched : bool.

Local Abbreviation sendGptMessage :=
  (Sandbox.sendGptMessage HOST_URL CHAT_PAGE PROMPT_ENDPOINT JSON_stringify decode originalFetch).
Local Abbreviation request_config :=
  (Sandbox.request_config HOST_URL CHAT_PAGE JSON_stringify).
Local Abbreviation posted :=
  (Sandbox.posted HOST_URL CHAT_PAGE PROMPT_ENDPOINT JSON_stringify decode originalFetch).
Local Abbreviation step :=
  (Component.step JSON_parse parseStreamBasedResponse raises CHAT_PAGE batched).
Local Abbreviation run :=
  (Component.run JSON_parse parseStreamBasedResponse raises CHAT_PAGE batched).

(** The bridge: a posted message reaches the host as the text
    [JSON.stringify] makes of it. *)
Local Abbreviation bridge := (map (fun m => Message (JSON_stringify m))).

Lemma run_chunks s chunks :
  (forall chunk, In chunk chunks ->
     JSON_parse (JSON_stringify (Sandbox.RAW_PARTIAL_RESPONSE (decode chunk)))
     = Some (Sandbox.RAW_PARTIAL_RESPONSE (decode chunk))) ->
  run s (bridge (map (fun chunk => Sandbox.RAW_PARTIAL_RESPONSE (decode chunk)) chunks))
  = (s, map (fun c => (status (Component.props s), call c))
          (flat_map (fun chunk =>
                       Router.partial_calls parseStreamBasedResponse (VStr (decode chunk)))
                    chunks)).
Proof.
  induction chunks as [| chunk chunks IH]; intros Hbridge; [reflexivity |].
  cbn [map flat_map]. rewrite run_cons, step_Message, (Hbridge chunk (or_introl eq_refl)).
  assert (Hcalls : Router.calls parseStreamBasedResponse (Component.props s)
                     (Some (Sandbox.RAW_PARTIAL_RESPONSE (decode chunk)))
                   = Router.partial_calls parseStreamBasedResponse (VStr (decode chunk)))
    by reflexivity.
  rewrite Hcalls, perform_partial_calls, IH, map_app, map_map; [reflexivity |].
  intros c Hc. apply Hbridge. right. exact Hc.
Qed.

Lemma step_own_request s accessToken message messageId conversationId :
  let m := Sandbox.intercepted (request_config accessToken message messageId conversationId) in
  JSON_parse (JSON_stringify m) = Some m ->
  step s (Message (JSON_stringify m)) = (s, []).
Proof.
  intros m Hbridge. rewrite step_Message, Hbridge.
  assert (Htype : get m "type" = VStr "REQUEST_INTERCEPTED_CONFIG") by reflexivity.
  rewrite (calls_typed _ _ _ _ Htype). cbn [String.eqb Ascii.eqb Bool.eqb].
  rewrite token_calls_lacks; [reflexivity |].
  eexists. split; reflexivity.
Qed.

(** X13.  A prompt from its dispatch in the sandbox to the callbacks of the
    host, when the bridge delivers the messages as they were posted.  For
    an answer of status 400 to 599 the host's error callback is called
    once, with the status as [statusCode]; for any other answer the
    partial-response callback is called with what the stream parser makes
    of each chunk, chunk by chunk and in order; when the request is
    rejected no callback is called.  The intercepted request of the prompt
    itself calls nothing, and the component ends in the state it was in:
    the token held is unchanged. *)
Theorem prompt_from_sandbox_to_host s accessToken message messageId conversationId :
  (forall m, In m (trace (sendGptMessage accessToken message messageId conversationId)) ->
             JSON_parse (JSON_stringify m) = Some m) ->
  run s (bridge (trace (sendGptMessage accessToken message messageId conversationId)))
  = (s, map (fun c => (status (Component.props s), call c))
          (Pipeline.host_calls decode parseStreamBasedResponse
             (originalFetch PROMPT_ENDPOINT
                (request_config accessToken message messageId conversationId)))).
Proof.
  rewrite trace_sendGptMessage. unfold Sandbox.posted. intros Hbridge.
  cbn [map]. rewrite run_cons.
  rewrite step_own_request by (apply Hbridge; left; reflexivity).
  cbn [map app].
  assert (Hrest : forall m,
             In m match originalFetch PROMPT_ENDPOINT
                          (request_config accessToken message messageId conversationId) with
                  | Fetch.Rejected => []
                  | Fetch.Resolved res =>
                      Sandbox.answered decode res
                  end ->
             JSON_parse (JSON_stringify m) = Some m)
    by (intros m Hin; apply Hbridge; right; exact Hin).
  destruct (originalFetch _ _) as [| res]; [reflexivity |].
  unfold Sandbox.answered in *. cbn [Pipeline.host_calls].
  destruct ((400 <=? Fetch.status res) && (Fetch.status res <? 600)).
  - cbn [map]. rewrite run_cons, step_Message, (Hrest _ (or_introl eq_refl)).
    reflexivity.
  - destruct (Fetch.body res) as [b |]; [| reflexivity].
    rewrite run_chunks; [reflexivity |].
    intros chunk Hchunk. apply Hrest. apply in_map_iff. exists chunk. split; [reflexivity | exact Hchunk].
Qed.

End PipelineFacts.

Lemma prompt_from_sandbox_to_host_witness :
  Sample.run (Sample.shown "token")
    (map Sample.sent
       (Eff.trace (Sandbox.sendGptMessage Sample.HOST_URL Sample.CHAT_PAGE
                     Sample.PROMPT_ENDPOINT Json.stringify Sample.decode
                     (Sample.backend Scenario.streamed_200) "token" "Hello" "m" "c")))
  = (Sample.shown "token",
     [ (visible, call (onPartialResponse (Sample.echoed "data: a")));
       (visible, call (onPartialResponse (Sample.echoed "data: b"))) ]) /\
  Sample.run (Sample.shown "token")
    (map Sample.sent
       (Eff.trace (Sandbox.sendGptMessage Sample.HOST_URL Sample.CHAT_PAGE
                     Sample.PROMPT_ENDPOINT Json.stringify Sample.decode
                     (Sample.backend (Sample.answer 404 "Not Found")) "token" "Hello" "m" "c")))
  = (Sample.shown "token",
     [ (visible, call (onStreamError
                         (ChatGPTError.make "ChatGPTResponseStreamError: 404" (VNum 404)))) ]).
Proof.
  split.
  - apply (prompt_from_sandbox_to_host
             Sample.HOST_URL Sample.CHAT_PAGE Sample.PROMPT_ENDPOINT
             Json.stringify Sample.decode (Sample.backend Scenario.streamed_200)
             Json.parse Sample.echo Sample.quiet true (Sample.shown "token")
             "token" "Hello" "m" "c").
    intros m Hin. cbn in Hin.
    repeat match type of Hin with _ \/ _ => destruct Hin as [Hin | Hin] end;
      try contradiction; subst m; vm_compute; reflexivity.
  - apply (prompt_from_sandbox_to_host
             Sample.HOST_URL Sample.CHAT_PAGE Sample.PROMPT_ENDPOINT
             Json.stringify Sample.decode (Sample.backend (Sample.answer 404 "Not Found"))
             Json.parse Sample.echo Sample.quiet true (Sample.shown "token")
             "token" "Hello" "m" "c").
    intros m Hin. cbn in Hin.
    repeat match type of Hin with _ \/ _ => destruct Hin as [Hin | Hin] end;
      try contradiction; subst m; vm_compute; reflexivity.
Defined.

(** * The script of a streamed prompt *)

Section ScriptFacts.
Import Script.

Lemma read_literal_plain s rest :
  plain s = true -> read_literal (s ++ String Json.dquote rest) = Some (s, rest).
Proof.
  induction s as [| c s IH]; [reflexivity |].
  cbn [plain append read_literal]. intros H. apply andb_true_iff in H. destruct H as [Hc Hs].
  assert (Hq : (N_of_ascii c =? 34)%N = false).
  { unfold plain_char in Hc. apply negb_true_iff in Hc.
    apply orb_false_iff in Hc. destruct Hc as [Hc _].
    apply orb_false_iff in Hc. destruct Hc as [Hc _].
    apply orb_false_iff in Hc. tauto. }
  rewrite Hq, Hc, (IH Hs). reflexivity.
Qed.

Lemma quoted_append s rest :
  (quoted s ++ rest = String Json.dquote (s ++ String Json.dquote rest))%string.
Proof. unfold quoted. cbn [append]. rewrite append_assoc. reflexivity. Qed.

Lemma read_script_plain i c a m :
  plain a = true -> plain m = true -> plain i = true -> plain c = true ->
  read (newline ++
        "    window.sendGptMessage({" ++ newline ++
        "      accessToken: " ++ quoted a ++ "," ++ newline ++
        "      message: " ++ quoted m ++ "," ++ newline ++
        "      messageId: " ++ quoted i ++ "," ++ newline ++
        "      conversationId: " ++ quoted c ++ newline ++
        "    });" ++ newline ++
        newline ++
        "    true;" ++ newline ++
        "  ")
  = Some {| arg_accessToken := a; arg_message := m; arg_messageId := i; arg_conversationId := c |}.
Proof.
  intros Ha Hm Hi Hc.
  unfold newline, read.
  repeat (rewrite ?quoted_append; cbn [append]).
  cbn. rewrite (read_literal_plain a) by exact Ha.
  cbn. rewrite (read_literal_plain m) by exact Hm.
  cbn. rewrite (read_literal_plain i) by exact Hi.
  cbn. rewrite (read_literal_plain c) by exact Hc.
  reflexivity.
Qed.

Lemma or_uuid_plain id uuid :
  plain uuid = true -> (forall s, id = Some s -> plain s = true) ->
  plain (or_uuid id uuid) = true.
Proof.
  intros Hu Hs. destruct id as [s |]; [| exact Hu].
  cbn [or_uuid]. destruct (String.eqb s EmptyString); [exact Hu | exact (Hs s eq_refl)].
Qed.

(** X14.  A script made from texts without double quote, backslash or line
    break calls [window.sendGptMessage] with those texts: the token and the
    prompt it was given, and for each identifier the one of the options
    when the options give one that is not empty, and the fresh [uuid.v4()]
    when the options are absent, do not give it or give the empty
    string. *)
Theorem script_round_trip uuid_message uuid_conversation accessToken message options :
  plain accessToken = true ->
  plain message = true ->
  plain uuid_message = true ->
  plain uuid_conversation = true ->
  (forall o s, options = Some o ->
               messageId o = Some s \/ conversationId o = Some s -> plain s = true) ->
  exists args,
    read (getPostMessageWithStreamScript uuid_message uuid_conversation
            accessToken message options) = Some args /\
    arg_accessToken args = accessToken /\
    arg_message args = message /\
    (forall o s, options = Some o -> messageId o = Some s -> s <> EmptyString ->
                 arg_messageId args = s) /\
    ((forall o s, options = Some o -> messageId o = Some s -> s = EmptyString) ->
     arg_messageId args = uuid_message) /\
    (forall o s, options = Some o -> conversationId o = Some s -> s <> EmptyString ->
                 arg_conversationId args = s) /\
    ((forall o s, options = Some o -> conversationId o = Some s -> s = EmptyString) ->
     arg_conversationId args = uuid_conversation).
Proof.
  intros Ha Hm Hu1 Hu2 Hids.
  assert (Hi : plain (or_uuid (option_of options messageId) uuid_message) = true).
  { apply or_uuid_plain; [exact Hu1 |]. intros s Hs.
    destruct options as [o |]; [| discriminate Hs].
    apply (Hids o s eq_refl). left. exact Hs. }
  assert (Hc : plain (or_uuid (option_of options conversationId) uuid_conversation) = true).
  { apply or_uuid_plain; [exact Hu2 |]. intros s Hs.
    destruct options as [o |]; [| discriminate Hs].
    apply (Hids o s eq_refl). right. exact Hs. }
  eexists. split.
  { unfold getPostMessageWithStreamScript. exact (read_script_plain _ _ _ _ Ha Hm Hi Hc). }
  cbn [arg_accessToken arg_message arg_messageId arg_conversationId].
  split; [reflexivity |]. split; [reflexivity |].
  clear Hi Hc Hids. destruct options as [[cid mid] |]; cbn [option_of conversationId messageId].
  - repeat split.
    + intros o s Ho Hs Hne. injection Ho as <-. cbn in Hs. subst mid. cbn [or_uuid].
      apply String.eqb_neq in Hne. rewrite Hne. reflexivity.
    + intros Hempty. destruct mid as [s |]; [| reflexivity].
      rewrite (Hempty _ s eq_refl eq_refl). reflexivity.
    + intros o s Ho Hs Hne. injection Ho as <-. cbn in Hs. subst cid. cbn [or_uuid].
      apply String.eqb_neq in Hne. rewrite Hne. reflexivity.
    + intros Hempty. destruct cid as [s |]; [| reflexivity].
      rewrite (Hempty _ s eq_refl eq_refl). reflexivity.
  - repeat split; try reflexivity; intros o s Ho; discriminate Ho.
Qed.

(** X15.  A prompt can replace the token of the call.  A double quote in
    the prompt ends the literal of [message], the text after it is read as
    further properties of the argument, and of two properties of one name
    the later counts: the prompt made of [message], a double quote, the text
    [, accessToken: ], a double quote and [token] gives a script that calls
    [sendGptMessage] with the prompt [message] and the token [token]. *)
Theorem message_can_replace_the_token uuid_message uuid_conversation
    accessToken message token options :
  plain accessToken = true -> plain message = true -> plain token = true ->
  plain (or_uuid (option_of options messageId) uuid_message) = true ->
  plain (or_uuid (option_of options conversationId) uuid_conversation) = true ->
  read (getPostMessageWithStreamScript uuid_message uuid_conversation accessToken
          (message ++ String Json.dquote (", accessToken: " ++ String Json.dquote token))
          options)
  = Some {| arg_accessToken := token;
            arg_message := message;
            arg_messageId := or_uuid (option_of options messageId) uuid_message;
            arg_conversationId :=
              or_uuid (option_of options conversationId) uuid_conversation |}.
Proof.
  intros Ha Hm Ht Hi Hc.
  unfold getPostMessageWithStreamScript.
  generalize dependent (or_uuid (option_of options messageId) uuid_message).
  generalize dependent (or_uuid (option_of options conversationId) uuid_conversation).
  intros c Hc i Hi.
  unfold newline, read.
  repeat (rewrite ?quoted_append; cbn [append]).
  rewrite (append_assoc message).
  cbn [append].
  cbn. rewrite (read_literal_plain accessToken) by exact Ha.
  cbn. rewrite (read_literal_plain message) by exact Hm.
  cbn. rewrite (read_literal_plain token) by exact Ht.
  cbn. rewrite (read_literal_plain i) by exact Hi.
  cbn. rewrite (read_literal_plain c) by exact Hc.
  reflexivity.
Qed.

End ScriptFacts.

(** A call that gives a conversation and an empty message identifier. *)
Lemma script_round_trip_witness :
  exists args,
    Script.read (Script.getPostMessageWithStreamScript "u1" "u2" "token" "Hello"
                   (Some {| Script.conversationId := Some "c";
                            Script.messageId := Some EmptyString |}))
    = Some args /\
    Script.arg_accessToken args = "token" /\
    Script.arg_message args = "Hello" /\
    Script.arg_messageId args = "u1" /\
    Script.arg_conversationId args = "c".
Proof.
  destruct (script_round_trip "u1" "u2" "token" "Hello"
              (Some {| Script.conversationId := Some "c";
                       Script.messageId := Some EmptyString |}))
    as [args [Hread [Ha [Hm [_ [Hfresh [Hgiven _]]]]]]]; try reflexivity.
  - intros o s Ho [Hs | Hs]; injection Ho as <-; injection Hs as <-; reflexivity.
  - exists args. repeat split; try assumption.
    + apply Hfresh. intros o s Ho Hs. injection Ho as <-. injection Hs as <-. reflexivity.
    + apply (Hgiven _ "c" eq_refl eq_refl). discriminate.
Defined.

Lemma message_can_replace_the_token_witness :
  Script.read
    (Script.getPostMessageWithStreamScript "u1" "u2" "token"
       ("Hello" ++ String Json.dquote (", accessToken: " ++ String Json.dquote "stolen"))
       None)
  = Some {| Script.arg_accessToken := "stolen"; Script.arg_message := "Hello";
            Script.arg_messageId := "u1"; Script.arg_conversationId := "u2" |}.
Proof.
  apply (message_can_replace_the_token "u1" "u2" "token" "Hello" "stolen" None); reflexivity.
Defined.

(** * The host component *)

Section HostFacts.

Variable JSON_parse : string -> option value.
Variable parseStreamBasedResponse : value -> exn + option ChatGpt3Response.t.
Variable raises : Call -> option exn.
Variable CHAT_PAGE : string.
Variable batched : bool.

Local Abbreviation on_modal :=
  (Host.on_modal JSON_parse parseStreamBasedResponse raises CHAT_PAGE batched).
Local Abbreviation host_step :=
  (Host.step JSON_parse parseStreamBasedResponse raises CHAT_PAGE batched).
Local Abbreviation host_run :=
  (Host.run JSON_parse parseStreamBasedResponse raises CHAT_PAGE batched).
Local Abbreviation modal_step :=
  (Component.step JSON_parse parseStreamBasedResponse raises CHAT_PAGE batched).
Local Abbreviation modal_run :=
  (Component.run JSON_parse parseStreamBasedResponse raises CHAT_PAGE batched).

Lemma on_modal_facts h e :
  Host.modal (fst (on_modal h e)) = fst (modal_step (Host.modal h) e) /\
  Host.callbackRef (fst (on_modal h e)) = Host.callbackRef h /\
  Host.errorCallbackRef (fst (on_modal h e)) = Host.errorCallbackRef h /\
  snd (on_modal h e)
  = flat_map (Host.hand_over (Host.callbackRef h) (Host.errorCallbackRef h))
      (snd (modal_step (Host.modal h) e)).
Proof.
  unfold Host.on_modal. destruct (modal_step (Host.modal h) e) as [m acts].
  repeat split.
Qed.

Lemma host_run_cons h r rs :
  host_run h (r :: rs)
  = (fst (host_run (fst (host_step h r)) rs),
     (snd (host_step h r) ++ snd (host_run (fst (host_step h r)) rs))%list).
Proof.
  cbn [Host.run]. destruct (host_step h r) as [h1 o1]. cbn [fst snd].
  destruct (host_run h1 rs) as [h2 o2]. reflexivity.
Qed.

Lemma host_run_app h rs rs' :
  host_run h (rs ++ rs')
  = (fst (host_run (fst (host_run h rs)) rs'),
     (snd (host_run h rs) ++ snd (host_run (fst (host_run h rs)) rs'))%list).
Proof.
  revert h. induction rs as [| r rs IH]; intros h.
  - cbn [app Host.run fst snd]. destruct (host_run h rs'); reflexivity.
  - cbn [app]. rewrite !host_run_cons. cbn [fst snd]. rewrite IH. cbn [fst snd].
    rewrite app_assoc. reflexivity.
Qed.

Lemma hand_over_responses callback error acts :
  Host.partial_responses (flat_map (Host.hand_over callback error) acts)
  = match callback with
    | Host.handler id => map (pair id) (Invariant.responses acts)
    | Host.ignore => []
    end.
Proof.
  induction acts as [| a acts IH]; [destruct callback; reflexivity |].
  cbn [flat_map]. unfold Host.partial_responses in *. rewrite flat_map_app, IH.
  destruct a as [c | |]; [destruct c | |]; destruct callback, error; reflexivity.
Qed.

Lemma hand_over_errors callback error acts :
  Host.stream_errors (flat_map (Host.hand_over callback error) acts)
  = match error with
    | Host.handler id => map (pair id) (Invariant.errors acts)
    | Host.ignore => []
    end.
Proof.
  induction acts as [| a acts IH]; [destruct error; reflexivity |].
  cbn [flat_map]. unfold Host.stream_errors in *. rewrite flat_map_app, IH.
  destruct a as [c | |]; [destruct c | |]; destruct callback, error; reflexivity.
Qed.

(** X16.  The handlers of the host are those of the last streamed
    [sendMessage] that gave [onPartialResponse]: a call without it changes
    neither handler, a call with it and without [onError] replaces the error
    handler by one that does nothing, and no event of the modal and no
    [login] touches them. *)
Theorem handlers_are_those_of_the_last_registration h rs :
  (Host.callbackRef (fst (host_run h rs)), Host.errorCallbackRef (fst (host_run h rs)))
  = Host.last_registration (Host.callbackRef h, Host.errorCallbackRef h) rs.
Proof.
  revert h. induction rs as [| r rs IH]; intros h; [reflexivity |].
  rewrite host_run_cons. cbn [fst]. rewrite IH.
  destruct r as [| message options [id |] on_error u1 u2 | e]; cbn [Host.last_registration Host.step].
  - destruct (on_modal_facts h Open) as [_ [-> [-> _]]]. reflexivity.
  - reflexivity.
  - reflexivity.
  - destruct (on_modal_facts h e) as [_ [-> [-> _]]]. reflexivity.
Qed.

Lemma modal_run_cons s e es :
  modal_run s (e :: es)
  = (fst (modal_run (fst (modal_step s e)) es),
     (map (fun a => (status (Component.props (fst (modal_step s e))), a))
        (snd (modal_step s e))
      ++ snd (modal_run (fst (modal_step s e)) es))%list).
Proof.
  cbn [Component.run]. destruct (modal_step s e) as [s1 a1]. cbn [fst snd].
  destruct (modal_run s1 es) as [s2 a2]. reflexivity.
Qed.

(** What the host hands to its handlers over events of the modal: what the
    modal passes to its callback props, to the handlers held. *)
Lemma handed_over h es :
  let outputs := snd (host_run h (map Host.happens es)) in
  let actions := map snd (snd (modal_run (Host.modal h) es)) in
  Host.partial_responses outputs
  = match Host.callbackRef h with
    | Host.handler id => map (pair id) (Invariant.responses actions)
    | Host.ignore => []
    end /\
  Host.stream_errors outputs
  = match Host.errorCallbackRef h with
    | Host.handler id => map (pair id) (Invariant.errors actions)
    | Host.ignore => []
    end.
Proof.
  cbv zeta. revert h. induction es as [| e es IH]; intros h.
  - cbn. destruct (Host.callbackRef h), (Host.errorCallbackRef h); split; reflexivity.
  - cbn [map]. rewrite host_run_cons, modal_run_cons. cbn [fst snd Host.step].
    destruct (on_modal_facts h e) as [Hmodal [Hc [He Hout]]].
    destruct (IH (fst (on_modal h e))) as [IHr IHe].
    rewrite Hmodal, Hc in IHr. rewrite Hmodal, He in IHe.
    rewrite Hout, map_app, map_map. cbn [snd]. rewrite map_id.
    unfold Host.partial_responses, Host.stream_errors, Invariant.responses, Invariant.errors
      in *.
    rewrite !flat_map_app.
    fold (Host.partial_responses
            (flat_map (Host.hand_over (Host.callbackRef h) (Host.errorCallbackRef h))
               (snd (modal_step (Host.modal h) e)))).
    fold (Host.stream_errors
            (flat_map (Host.hand_over (Host.callbackRef h) (Host.errorCallbackRef h))
               (snd (modal_step (Host.modal h) e)))).
    rewrite hand_over_responses, hand_over_errors, IHr, IHe.
    unfold Invariant.responses, Invariant.errors.
    destruct (Host.callbackRef h), (Host.errorCallbackRef h);
      rewrite ?map_app; split; reflexivity.
Qed.

(** X17.  After a streamed [sendMessage] the replies of the modal go to the
    handlers of that call, all of them and to no other handler, whichever
    request a reply answers: over any later events of the modal, the
    responses handed to handlers are exactly those the modal passes to
    [onPartialResponse], in order, each handed to the [onPartialResponse] of
    the call, and the errors handed over are exactly those the modal passes
    to [onStreamError], each handed to the [onError] of the call; without
    [onError] no error is handed to anyone. *)
Theorem replies_go_to_the_latest_handlers h message options id on_error u1 u2 es :
  let registered :=
    fst (host_step h (Host.sendMessage message options (Some id) on_error u1 u2)) in
  let outputs := snd (host_run registered (map Host.happens es)) in
  let actions := map snd (snd (modal_run (Host.modal h) es)) in
  Host.partial_responses outputs = map (pair id) (Invariant.responses actions) /\
  Host.stream_errors outputs
  = match on_error with
    | Some id' => map (pair id') (Invariant.errors actions)
    | None => []
    end.
Proof.
  cbn [Host.step fst].
  pose proof (handed_over
                {| Host.modal := Host.modal h; Host.callbackRef := Host.handler id;
                   Host.errorCallbackRef := Host.or_ignore on_error |} es) as H.
  cbv zeta in *. cbn [Host.modal Host.callbackRef Host.errorCallbackRef] in H.
  destruct H as [Hr He]. split; [exact Hr |].
  rewrite He. destruct on_error; reflexivity.
Qed.

Lemma host_run_modal h es :
  Host.modal (fst (host_run h (map Host.happens es))) = fst (modal_run (Host.modal h) es).
Proof.
  revert h. induction es as [| e es IH]; intros h; [reflexivity |].
  cbn [map]. rewrite host_run_cons. cbn [fst Host.step]. rewrite IH.
  destruct (on_modal_facts h e) as [-> _].
  rewrite modal_run_cons. reflexivity.
Qed.

Lemma modal_run_facts s es :
  accessToken (Component.props (fst (modal_run s es)))
  = Invariant.last_token (accessToken (Component.props s)) (map snd (snd (modal_run s es))) /\
  Component.webview (fst (modal_run s es)) = Component.webview s.
Proof.
  revert s. induction es as [| e es IH]; intros s; [split; reflexivity |].
  rewrite modal_run_cons. cbn [fst snd]. destruct (IH (fst (modal_step s e))) as [-> ->].
  pose proof (step_facts JSON_parse parseStreamBasedResponse raises CHAT_PAGE batched s e)
    as [Htok [Hweb _]].
  rewrite map_app, map_map. cbn [snd]. rewrite map_id.
  unfold Invariant.last_token at 2. rewrite fold_left_app.
  rewrite Htok, Hweb. split; reflexivity.
Qed.

(** X18.  A streamed [sendMessage] uses the token the modal captured last.
    After any events of the modal the token is the value of the last
    [onAccessTokenChange] among the actions of those events, and the token
    held before them when there was none.  When ToString gives a string for
    it, the call injects one script, made with that string, the prompt and
    the options (and nothing while the web view is not set).  When ToString
    throws, as on an object with an own property [toString], the call throws
    and injects nothing.  A number in the token is taken to be a safe
    integer. *)
Theorem script_carries_the_latest_token h es message options id on_error u1 u2 :
  let token :=
    Invariant.last_token (accessToken (Component.props (Host.modal h)))
      (map snd (snd (modal_run (Host.modal h) es))) in
  safe_numbers token = true ->
  snd (host_run h (map Host.happens es
                   ++ [Host.sendMessage message options (Some id) on_error u1 u2]))
  = (snd (host_run h (map Host.happens es))
     ++ match ToString token with
        | Some text =>
            if Component.webview (Host.modal h)
            then [Host.injectJavaScript
                    (Script.getPostMessageWithStreamScript u1 u2 text message options)]
            else []
        | None => [Host.throws TypeError]
        end)%list.
Proof.
  intros token _. subst token. rewrite host_run_app. cbn [snd]. f_equal.
  cbn [Host.run Host.step snd].
  rewrite host_run_modal.
  destruct (modal_run_facts (Host.modal h) es) as [-> ->].
  rewrite app_nil_r. reflexivity.
Qed.

End HostFacts.

(** A token captured, then a prompt; and a token that ToString throws on. *)
Lemma script_carries_the_latest_token_witness :
  snd (Scenario.run Host.initial
         [ Host.happens (Sample.sent (Bridge.intercepted (VObj [("Authorization", VStr "A")])));
           Host.sendMessage "Hello" None (Some 1%nat) None "u1" "u2" ])
  = [ Host.injectJavaScript
        (Script.getPostMessageWithStreamScript "u1" "u2" "A" "Hello" None) ] /\
  snd (Scenario.run Host.initial
         [ Host.happens (Sample.sent (Bridge.intercepted
                                        (VObj [("Authorization", Scenario.unprintable)])));
           Host.sendMessage "Hello" None (Some 1%nat) None "u1" "u2" ])
  = [ Host.throws TypeError ].
Proof.
  split.
  - apply (script_carries_the_latest_token Json.parse Sample.echo Sample.quiet
             Sample.CHAT_PAGE true Host.initial
             [Sample.sent (Bridge.intercepted (VObj [("Authorization", VStr "A")]))]
             "Hello" None 1%nat None "u1" "u2").
    reflexivity.
  - apply (script_carries_the_latest_token Json.parse Sample.echo Sample.quiet
             Sample.CHAT_PAGE true Host.initial
             [Sample.sent (Bridge.intercepted
                             (VObj [("Authorization", Scenario.unprintable)]))]
             "Hello" None 1%nat None "u1" "u2").
    reflexivity.
Defined.
